(** * device-coap-c: the CoAP request pipeline of [coap-server.c] and the
      init callback of the device service, as a shallow embedding.

    The development follows the C source function by function:
    - the numeric payload decoders [read_data_float64], [read_data_int32]
      and [read_data_string], over models of libc's [strtol] and [strtod]
      that take what ISO C leaves open from the C library ([libc]);
    - the path router [parse_path], over a model of [strtok];
    - the request handler [data_handler];
    - [find_security_mode] and [coap_init];
    - [resolve_address] and [run_server].

    Calls to the collaborators (logger, device registry, publisher) are
    recorded in an event trace, so that statements about "exactly once" and
    about log severity are statements about that trace. *)

From Stdlib Require Import ZArith Ascii String List Lia Bool.
From Stdlib Require Import DecimalString DecimalZ DecimalPos.
From stdpp Require Import base option list strings gmap.

Local Open Scope Z_scope.

(** ** Bytes and characters *)

(** [uint8_t] and [char]: eight-bit values. *)
Abbreviation uint8_t := ascii (only parsing).

Definition NUL : ascii := Ascii.zero.

Definition char_code (c : ascii) : Z := Z.of_N (N_of_ascii c).

Definition is_nul (c : ascii) : bool := char_code c =? 0.

(** [isspace] in the C locale: space, \t, \n, \v, \f, \r. *)
Definition isspace (c : ascii) : bool :=
  let n := char_code c in (n =? 32) || ((9 <=? n) && (n <=? 13)).

Definition isdigit (c : ascii) : bool :=
  let n := char_code c in (48 <=? n) && (n <=? 57).

Definition digit_value (c : ascii) : Z := char_code c - 48.

(** Length of the longest prefix of [s] whose characters satisfy [p]
    (what [strspn] computes for a character class). *)
Fixpoint span (p : ascii -> bool) (s : list ascii) : nat :=
  match s with
  | c :: s' => if p c then S (span p s') else O
  | [] => O
  end.

(** Value of a sequence of decimal digits, most significant first, on top
    of an accumulator. *)
Fixpoint digits_acc (acc : Z) (ds : list ascii) : Z :=
  match ds with
  | [] => acc
  | d :: ds' => digits_acc (10 * acc + digit_value d) ds'
  end.

Definition digits_value (ds : list ascii) : Z := digits_acc 0 ds.

(** ** The collaborators' event trace *)

Inductive iot_loglevel_t :=
| IOT_LOG_ERROR
| IOT_LOG_WARN
| IOT_LOG_INFO
| IOT_LOG_DEBUG.

#[global] Instance iot_loglevel_eq_dec : EqDecision iot_loglevel_t.
Proof. solve_decision. Defined.

(** Typed values handed to the publisher ([iot_data_t]). *)

(** A [double] is represented by the exact value of the literal that
    [strtod] converted, [(-1)^neg * mant * radix^exp] with [radix] 10 for
    decimal and 2 for hexadecimal literals; the binary64 number is the one
    nearest to it. Rounding plays no part in the decoders' control flow. *)
Inductive double :=
| DFinite (neg : bool) (mant : Z) (radix : Z) (exp : Z)
| DInfinity (neg : bool)
| DNaN.

Definition dbl_zero : double := DFinite false 0 10 0.

Inductive iot_data_t :=
| IOT_DATA_FLOAT64 (d : double)
| IOT_DATA_INT32 (i : Z)
| IOT_DATA_STRING (str : list ascii).   (* the characters, without the terminator *)

(** One call to a collaborator. Log entries keep the severity and the
    format string; a device handle is named by the device's [name], and
    the lookup records the handle it hands out (none for an unknown
    name). *)
Inductive event :=
| EvLog (level : iot_loglevel_t) (fmt : string)
| EvGetDevice (name : string) (handle : option string)
| EvFreeDevice (dev : option string)
| EvPostReadings (device resource : string) (value : iot_data_t)
| EvDataFree (value : iot_data_t).

(** A computation that returns a value and appends to the trace. *)
Definition IO (A : Type) : Type := A * list event.

Definition io_ret {A} (a : A) : IO A := (a, []).

Definition io_bind {A B} (m : IO A) (k : A -> IO B) : IO B :=
  let '(a, t1) := m in
  let '(b, t2) := k a in
  (b, t1 ++ t2).

Definition emit (e : event) : IO unit := (tt, [e]).

Declare Scope io_scope.
Delimit Scope io_scope with io.
Notation "x <- m ;; k" := (io_bind m (fun x => k))
  (at level 100, m at next level, right associativity) : io_scope.
Notation "m ;;; k" := (io_bind m (fun _ => k))
  (at level 100, right associativity) : io_scope.
Local Open Scope io_scope.

Definition iot_log_error (fmt : string) : IO unit := emit (EvLog IOT_LOG_ERROR fmt).
Definition iot_log_info (fmt : string) : IO unit := emit (EvLog IOT_LOG_INFO fmt).
Definition iot_log_debug (fmt : string) : IO unit := emit (EvLog IOT_LOG_DEBUG fmt).

(** ** libc: [strtol] and [strtod] (ISO C 7.22.1) *)

Definition ERANGE : Z := 34.
Definition EINVAL : Z := 22.

(** Where ISO C leaves the C library a choice that the decoders can see.
    When [strtol] or [strtod] performs no conversion, ISO C has it return
    zero with [endptr] at the start of the string and says nothing of
    [errno]; POSIX allows [EINVAL] there. [no_conversion_errno] is what
    [errno] holds after such a call, the caller having stored 0 before
    it. *)
Class libc := {
  no_conversion_errno : Z
}.

(** glibc stores nothing when no conversion is done. *)
Definition glibc : libc := {| no_conversion_errno := 0 |}.

(** musl stores [EINVAL]. It is the C library of the image the service
    is built and run in (scripts/Dockerfile.alpine), and the one meant
    wherever no other is named. *)
#[export] Instance musl : libc := {| no_conversion_errno := EINVAL |}.

(** [long] of the LP64 targets the service is built for. *)
Definition LONG_MAX : Z := 2 ^ 63 - 1.
Definition LONG_MIN : Z := - 2 ^ 63.

Definition INT32_MAX : Z := 2147483647.
Definition INT32_MIN : Z := -2147483648.

(** An optional sign at the head of [s]: whether it is a minus, and how
    many characters it takes. *)
Definition scan_sign (s : list ascii) : bool * nat :=
  match s with
  | c :: _ =>
      if Ascii.eqb c "-" then (true, 1%nat)
      else if Ascii.eqb c "+" then (false, 1%nat)
      else (false, O)
  | [] => (false, O)
  end.

Record strtol_result := {
  int_val : Z;         (* the returned long *)
  l_endptr : nat;      (* offset of [*endptr] in the string *)
  l_errno : Z          (* errno after the call, 0 before it *)
}.

(** [strtol (s, &endptr, 10)] on the character array [s], which holds a
    terminating NUL: white space, an optional sign, decimal digits. The
    scan stops at the first character that does not fit, at the latest
    the NUL. Without a digit no conversion is performed: zero is returned,
    [endptr] is the start of the string and [errno] is as the C library
    has it. A value that does not fit [long] is clamped and reported by
    [ERANGE]. *)
Definition strtol `{libc} (s : list ascii) : strtol_result :=
  let ws := span isspace s in
  let s1 := drop ws s in
  let '(neg, sg) := scan_sign s1 in
  let s2 := drop sg s1 in
  let nd := span isdigit s2 in
  match nd with
  | O => {| int_val := 0; l_endptr := O; l_errno := no_conversion_errno |}
  | _ =>
      let mag := digits_value (take nd s2) in
      let v := if neg then - mag else mag in
      let e := (ws + sg + nd)%nat in
      if v <? LONG_MIN then {| int_val := LONG_MIN; l_endptr := e; l_errno := ERANGE |}
      else if LONG_MAX <? v then {| int_val := LONG_MAX; l_endptr := e; l_errno := ERANGE |}
      else {| int_val := v; l_endptr := e; l_errno := 0 |}
  end.

Definition to_lower (c : ascii) : ascii :=
  let n := char_code c in
  if (65 <=? n) && (n <=? 90) then ascii_of_N (Z.to_N (n + 32)) else c.

Definition isalpha (c : ascii) : bool :=
  let n := char_code (to_lower c) in (97 <=? n) && (n <=? 122).

Definition isxdigit (c : ascii) : bool :=
  let n := char_code (to_lower c) in isdigit c || ((97 <=? n) && (n <=? 102)).

Definition xdigit_value (c : ascii) : Z :=
  if isdigit c then digit_value c else char_code (to_lower c) - 87.

Fixpoint xdigits_acc (acc : Z) (ds : list ascii) : Z :=
  match ds with
  | [] => acc
  | d :: ds' => xdigits_acc (16 * acc + xdigit_value d) ds'
  end.

(** Whether [s] starts with [pat], ignoring case ([pat] in lower case). *)
Fixpoint starts_with_ci (pat s : list ascii) : bool :=
  match pat, s with
  | [], _ => true
  | p :: pat', c :: s' => Ascii.eqb p (to_lower c) && starts_with_ci pat' s'
  | _ :: _, [] => false
  end.

(** Digits with an optional radix point at the head of [s]: the digits
    before and after the point and the number of characters taken. *)
Definition scan_mantissa (isd : ascii -> bool) (s : list ascii)
  : list ascii * list ascii * nat :=
  let n1 := span isd s in
  match drop n1 s with
  | c :: s2 =>
      if Ascii.eqb c "." then
        let n2 := span isd s2 in (take n1 s, take n2 s2, (n1 + 1 + n2)%nat)
      else (take n1 s, [], n1)
  | [] => (take n1 s, [], n1)
  end.

(** An optional exponent part at the head of [s], introduced by [marker]:
    its value and the characters it takes; it is left out (0 characters)
    when no digit follows the marker and sign. *)
Definition scan_exponent (marker : ascii) (s : list ascii) : Z * nat :=
  match s with
  | c :: s1 =>
      if Ascii.eqb (to_lower c) marker then
        let '(eneg, sg) := scan_sign s1 in
        let ds := drop sg s1 in
        let n := span isdigit ds in
        match n with
        | O => (0, O)
        | _ => let v := digits_value (take n ds) in
               (if eneg then - v else v, (1 + sg + n)%nat)
        end
      else (0, O)
  | [] => (0, O)
  end.

Definition scan_decimal (neg : bool) (s : list ascii) : option (double * nat) :=
  let '(ip, fp, n) := scan_mantissa isdigit s in
  match ip ++ fp with
  | [] => None
  | ds =>
      let '(e, ne) := scan_exponent "e" (drop n s) in
      Some (DFinite neg (digits_value ds) 10 (e - Z.of_nat (length fp)), (n + ne)%nat)
  end.

Definition scan_hex (neg : bool) (s : list ascii) : option (double * nat) :=
  match s with
  | z :: x :: s' =>
      if Ascii.eqb z "0" && Ascii.eqb (to_lower x) "x" then
        let '(ip, fp, n) := scan_mantissa isxdigit s' in
        match ip ++ fp with
        | [] => None
        | ds =>
            let '(e, ne) := scan_exponent "p" (drop n s') in
            Some (DFinite neg (xdigits_acc 0 ds) 2 (e - 4 * Z.of_nat (length fp)),
                  (2 + n + ne)%nat)
        end
      else None
  | _ => None
  end.

Definition is_nchar (c : ascii) : bool :=
  isdigit c || isalpha c || Ascii.eqb c "_".

Definition scan_special (neg : bool) (s : list ascii) : option (double * nat) :=
  if starts_with_ci (list_ascii_of_string "infinity") s then Some (DInfinity neg, 8%nat)
  else if starts_with_ci (list_ascii_of_string "inf") s then Some (DInfinity neg, 3%nat)
  else if starts_with_ci (list_ascii_of_string "nan") s then
    match drop 3 s with
    | c :: s' =>
        if Ascii.eqb c "(" then
          let n := span is_nchar s' in
          match drop n s' with
          | c' :: _ => if Ascii.eqb c' ")" then Some (DNaN, (3 + 1 + n + 1)%nat)
                       else Some (DNaN, 3%nat)
          | [] => Some (DNaN, 3%nat)
          end
        else Some (DNaN, 3%nat)
    | [] => Some (DNaN, 3%nat)
    end
  else None.

(** The subject sequence: the longest prefix of [s] that is a hexadecimal
    literal, an infinity or NaN, or a decimal literal. *)
Definition scan_subject (neg : bool) (s : list ascii) : option (double * nat) :=
  match scan_hex neg s with
  | Some r => Some r
  | None =>
      match scan_special neg s with
      | Some r => Some r
      | None => scan_decimal neg s
      end
  end.

(** Range of binary64. A finite literal overflows when it is at least
    [DBL_MAX] plus half a unit in the last place. *)
Definition dbl_overflows (d : double) : bool :=
  match d with
  | DFinite _ m r e =>
      if 0 <=? e then 2 ^ 1024 - 2 ^ 970 <=? m * r ^ e
      else (2 ^ 1024 - 2 ^ 970) * r ^ (- e) <=? m
  | _ => false
  end.

(** Underflow is reported as IEEE 754 defines it with tininess detected
    after rounding, which is how glibc reports it (ISO C leaves it to the
    implementation whether underflow sets [errno] at all): the literal is
    not zero, it still lies below the least normal number [2^-1022] once
    rounded to 53 bits, that is it is less than [2^-1022 - 2^-1076], and
    it is not a value of the format, that is not a multiple of [2^-1074].
    A subnormal number written exactly does not underflow, nor does a
    literal that rounds to [2^-1022]. *)
Definition dbl_underflows (d : double) : bool :=
  match d with
  | DFinite _ m r e =>
      negb (m =? 0) && (e <? 0)
      && (m * 2 ^ 1076 <? (2 ^ 54 - 1) * r ^ (- e))
      && negb ((m * 2 ^ 1074) mod r ^ (- e) =? 0)
  | _ => false
  end.

Record strtod_result := {
  dbl_val : double;
  d_endptr : nat;
  d_errno : Z
}.

(** [strtod (s, &endptr)]: white space, an optional sign, the subject
    sequence. Without one no conversion is performed: zero is returned,
    [endptr] is the start of the string and [errno] is as the C library
    has it. Overflow returns an infinity ([HUGE_VAL]) and sets [ERANGE];
    underflow sets [ERANGE] as well. *)
Definition strtod `{libc} (s : list ascii) : strtod_result :=
  let ws := span isspace s in
  let s1 := drop ws s in
  let '(neg, sg) := scan_sign s1 in
  match scan_subject neg (drop sg s1) with
  | None => {| dbl_val := dbl_zero; d_endptr := O; d_errno := no_conversion_errno |}
  | Some (v, n) =>
      let e := (ws + sg + n)%nat in
      if dbl_overflows v then {| dbl_val := DInfinity neg; d_endptr := e; d_errno := ERANGE |}
      else if dbl_underflows v then {| dbl_val := v; d_endptr := e; d_errno := ERANGE |}
      else {| dbl_val := v; d_endptr := e; d_errno := 0 |}
  end.

(** ** Typed payload decoders *)

Definition INT32_STR_MAXLEN : nat := 11.
Definition FLOAT64_STR_MAXLEN : nat := 24.

(** [data_str[len] = 0; memcpy (data_str, data, len)]: the local array up
    to and including the terminator written at index [len]. *)
Definition null_terminated (data : list uint8_t) : list ascii := data ++ [NUL].

(** The character [*endptr] of the array [s]. *)
Definition deref (s : list ascii) (endptr : nat) : ascii := nth endptr s NUL.

(** [(int32_t) v]: wrap-around to 32 bits, two's complement. *)
Definition to_int32 (v : Z) : Z := (v + 2 ^ 31) mod 2 ^ 32 - 2 ^ 31.

(** A payload [(data, len)] is the list of its [len] bytes. [None] is the
    NULL result. *)
Definition read_data_float64 `{libc} (data : list uint8_t) : IO (option iot_data_t) :=
  let len := length data in
  if (FLOAT64_STR_MAXLEN <? len)%nat then
    iot_log_info "invalid float64 of len %u" ;;; io_ret None
  else
    let data_str := null_terminated data in
    let r := strtod data_str in
    if negb (d_errno r =? 0) || negb (is_nul (deref data_str (d_endptr r))) then
      iot_log_info "invalid float64 of len %u" ;;; io_ret None
    else io_ret (Some (IOT_DATA_FLOAT64 (dbl_val r))).

Definition read_data_int32 `{libc} (data : list uint8_t) : IO (option iot_data_t) :=
  let len := length data in
  if (INT32_STR_MAXLEN <? len)%nat then
    iot_log_info "invalid int32 of len %u" ;;; io_ret None
  else
    let data_str := null_terminated data in
    let r := strtol data_str in
    if negb (l_errno r =? 0) || negb (is_nul (deref data_str (l_endptr r)))
       || (int_val r <? INT32_MIN) || (INT32_MAX <? int_val r) then
      iot_log_info "invalid int32 of len %u" ;;; io_ret None
    else io_ret (Some (IOT_DATA_INT32 (to_int32 (int_val r)))).

(** The characters of the C string that starts at [s]: those before the
    first NUL. *)
Definition c_string (s : list ascii) : list ascii :=
  take (span (fun c => negb (is_nul c)) s) s.

(** [iot_data_alloc_string] is handed the copy as a [char *], without
    [len]: the value is the C string that starts there, which ends at the
    first NUL, be it the terminator or a byte of the payload. *)
Definition read_data_string (data : list uint8_t) : IO (option iot_data_t) :=
  let str_data := null_terminated data in
  io_ret (Some (IOT_DATA_STRING (c_string str_data))).

Definition bytes (s : string) : list uint8_t := list_ascii_of_string s.


(** ** The device registry *)

(** Modelled from the spec: the value kinds of a resource schema entry
    ([edgex_propertytype] of edgex/devices.h, which is not among the
    sources): Float64, Int32, String, and the further kinds of the
    enumeration, kept by their tag. *)
Inductive edgex_propertytype :=
| Edgex_Float64
| Edgex_Int32
| Edgex_String
| Edgex_Other (tag : nat).

(** [name] and [properties->type] of an [edgex_deviceresource]; the
    [next] links of resources and profiles are the lists' tails. *)
Record edgex_deviceresource := {
  resource_name : string;
  properties_type : edgex_propertytype
}.

Record edgex_deviceprofile := {
  device_resources : list edgex_deviceresource
}.

(** [profile] is the chain that starts at [device->profile]. *)
Record edgex_device := {
  device_name : string;
  profile : list edgex_deviceprofile
}.

Record devsdk_service_t := {
  devices : gmap string edgex_device
}.

(** Looking a device up by name hands out a handle to it, which
    [edgex_free_device] returns; freeing NULL is recorded as such. *)
Definition edgex_get_device_byname (svc : devsdk_service_t) (name : string)
  : IO (option edgex_device) :=
  let d := devices svc !! name in
  emit (EvGetDevice name (device_name <$> d)) ;;; io_ret d.

Definition edgex_free_device (svc : devsdk_service_t) (e : option edgex_device)
  : IO unit :=
  emit (EvFreeDevice (device_name <$> e)).

Definition devsdk_post_readings (svc : devsdk_service_t) (devname resname : string)
    (value : iot_data_t) : IO unit :=
  emit (EvPostReadings devname resname value).

Definition iot_data_free (value : iot_data_t) : IO unit :=
  emit (EvDataFree value).

(** ** [strtok] with the delimiter "/" *)

Definition is_delim (c : ascii) : bool := Ascii.eqb c "/".

Fixpoint skip_delims (s : string) : string :=
  match s with
  | String c s' => if is_delim c then skip_delims s' else s
  | EmptyString => EmptyString
  end.

(** The token at the head of [s], up to the next delimiter, and what
    follows that delimiter. *)
Fixpoint split_token (s : string) : string * string :=
  match s with
  | String c s' =>
      if is_delim c then (EmptyString, s')
      else let '(tok, rest) := split_token s' in (String c tok, rest)
  | EmptyString => (EmptyString, EmptyString)
  end.

(** One call of [strtok]: [saved] is the position it continues from (the
    string itself on the first call); the result is the next token, NULL
    when only delimiters are left, and the position saved for the next
    call. *)
Definition strtok (saved : string) : option string * string :=
  match skip_delims saved with
  | EmptyString => (None, EmptyString)
  | s => let '(tok, rest) := split_token s in (Some tok, rest)
  end.

(** ** Requests *)

Definition COAP_REQUEST_GET : Z := 1.
Definition COAP_REQUEST_POST : Z := 2.
Definition COAP_REQUEST_PUT : Z := 3.
Definition COAP_REQUEST_DELETE : Z := 4.

Definition COAP_MEDIATYPE_TEXT_PLAIN : Z := 0.
Definition COAP_MEDIATYPE_APPLICATION_JSON : Z := 50.
Definition UINT16_MAX : Z := 65535.
Definition CONTENT_FORMAT_UNDEFINED : Z := UINT16_MAX.

(** [COAP_RESPONSE_CODE (N)]: class in the upper three bits, detail in
    the lower five. *)
Definition COAP_RESPONSE_CODE (n : Z) : Z :=
  Z.lor (Z.shiftl (n / 100) 5) (n mod 100).

(** A PDU as the handler sees it: the code, the Uri-Path options joined by
    "/" ([coap_get_uri_path]), the value of the Content-Format option if
    there is one, and the payload if there is one. *)
Record coap_pdu_t := {
  code : Z;
  uri_path : string;
  content_format_opt : option (list uint8_t);
  data : option (list uint8_t)
}.

Definition set_code (pdu : coap_pdu_t) (c : Z) : coap_pdu_t :=
  {| code := c; uri_path := uri_path pdu;
     content_format_opt := content_format_opt pdu; data := data pdu |}.

Definition coap_add_data (pdu : coap_pdu_t) (d : list uint8_t) : coap_pdu_t :=
  {| code := code pdu; uri_path := uri_path pdu;
     content_format_opt := content_format_opt pdu; data := Some d |}.

(** [coap_get_data]: fails (returns 0) when the PDU has no payload. *)
Definition coap_get_data (pdu : coap_pdu_t) : option (list uint8_t) := data pdu.

(** [coap_decode_var_bytes]: big-endian value of the option bytes, in an
    [unsigned int]. *)
Definition coap_decode_var_bytes (buf : list uint8_t) : Z :=
  fold_left (fun n b => (Z.shiftl n 8 + char_code b) mod 2 ^ 32) buf 0.

Definition to_uint16 (v : Z) : Z := v mod 2 ^ 16.

(** The [uint16_t cf] read by the handler. *)
Definition read_content_format (request : coap_pdu_t) : Z :=
  match content_format_opt request with
  | Some v => to_uint16 (coap_decode_var_bytes v)
  | None => CONTENT_FORMAT_UNDEFINED
  end.

(** ** The path router *)

Definition RESOURCE_SEG1 : string := "a1r".

(** The inner loop: the first resource of the list whose name is [seg],
    NULL when the list is exhausted. *)
Fixpoint scan_resources (resource : list edgex_deviceresource) (seg : string)
  : option edgex_deviceresource :=
  match resource with
  | r :: next => if String.eqb (resource_name r) seg then Some r
                 else scan_resources next seg
  | [] => None
  end.

(** The outer loop [for (; profile; profile = profile->next)]: every
    iteration assigns [resource] afresh from the inner loop, whose [break]
    leaves the inner loop only; [resource] is what the last iteration
    left. *)
Fixpoint scan_profiles (profile : list edgex_deviceprofile)
    (resource : option edgex_deviceresource) (seg : string)
  : option edgex_deviceresource :=
  match profile with
  | p :: next => scan_profiles next (scan_resources (device_resources p) seg) seg
  | [] => resource
  end.

(** [parse_path], the three iterations of its loop written out. Every
    failure leaves through [end_for] with [res] false, where the device
    found so far (NULL before the second segment) is freed. *)
Definition parse_path (svc : devsdk_service_t) (request : coap_pdu_t)
  : IO (option (edgex_device * edgex_deviceresource)) :=
  let fail (device : option edgex_device) :=
    edgex_free_device svc device ;;; io_ret None in
  iot_log_debug "URI %s" ;;;
  let '(seg, saved) := strtok (uri_path request) in
  (* i = 0 *)
  match seg with
  | None => iot_log_info "missing URI segment %u" ;;; fail None
  | Some seg0 =>
  if negb (String.eqb seg0 RESOURCE_SEG1) then
    iot_log_info "invalid URI; segment %u" ;;; fail None
  else
  let '(seg, saved) := strtok saved in
  (* i = 1 *)
  match seg with
  | None => iot_log_info "missing URI segment %u" ;;; fail None
  | Some seg1 =>
  found <- edgex_get_device_byname svc seg1 ;;
  match found with
  | None => iot_log_info "device not found: %s" ;;; fail None
  | Some device =>
  let '(seg, saved) := strtok saved in
  (* i = 2 *)
  match seg with
  | None => iot_log_info "missing URI segment %u" ;;; fail (Some device)
  | Some seg2 =>
  match scan_profiles (profile device) None seg2 with
  | None => iot_log_info "resource not found: %s" ;;; fail (Some device)
  | Some resource =>
  let '(seg, saved) := strtok saved in
  (* end_for *)
  match seg with
  | Some _ => iot_log_info "extra URI segment" ;;; fail (Some device)
  | None => io_ret (Some (device, resource))
  end end end end end end.

(** ** The request handler *)

Definition MSG_PAYLOAD_INVALID : string := "payload not valid".

(** What the payload stage leaves behind: the decoded value [iot_data]
    (NULL when there is no payload or the decoder failed), or the response
    code with which it went to [finish] directly. *)
Inductive payload_stage :=
| Decoded (iot_data : option iot_data_t)
| Rejected (response_code : Z).

Definition read_payload `{libc} (request : coap_pdu_t) (resource : edgex_deviceresource)
  : IO payload_stage :=
  match coap_get_data request with
  | None => iot_log_info "invalid data of len %u" ;;; io_ret (Decoded None)
  | Some data =>
      let cf := read_content_format request in
      match properties_type resource with
      | Edgex_Float64 =>
          if negb (cf =? COAP_MEDIATYPE_TEXT_PLAIN) then io_ret (Rejected (COAP_RESPONSE_CODE 415))
          else iot_data <- read_data_float64 data ;; io_ret (Decoded iot_data)
      | Edgex_Int32 =>
          if negb (cf =? COAP_MEDIATYPE_TEXT_PLAIN) then io_ret (Rejected (COAP_RESPONSE_CODE 415))
          else iot_data <- read_data_int32 data ;; io_ret (Decoded iot_data)
      | Edgex_String =>
          if negb (cf =? COAP_MEDIATYPE_TEXT_PLAIN)
             && negb (cf =? COAP_MEDIATYPE_APPLICATION_JSON)
          then io_ret (Rejected (COAP_RESPONSE_CODE 415))
          else iot_data <- read_data_string data ;; io_ret (Decoded iot_data)
      | Edgex_Other _ =>
          iot_log_error "unsupported resource type %d" ;;;
          io_ret (Rejected (COAP_RESPONSE_CODE 500))
      end
  end.

(** [data_handler]: the updated response PDU. The label [finish] frees
    the handler's own [device], which is NULL unless routing succeeded. *)
Definition data_handler `{libc} (svc : devsdk_service_t) (request response : coap_pdu_t)
  : IO coap_pdu_t :=
  let finish (device : option edgex_device) (response : coap_pdu_t) :=
    edgex_free_device svc device ;;; io_ret response in
  if code request =? COAP_REQUEST_PUT then
    io_ret (set_code response (COAP_RESPONSE_CODE 405))
  else
    routed <- parse_path svc request ;;
    match routed with
    | None => finish None (set_code response (COAP_RESPONSE_CODE 404))
    | Some (device, resource) =>
        stage <- read_payload request resource ;;
        match stage with
        | Rejected c => finish (Some device) (set_code response c)
        | Decoded None =>
            finish (Some device)
              (coap_add_data (set_code response (COAP_RESPONSE_CODE 400))
                 (bytes MSG_PAYLOAD_INVALID))
        | Decoded (Some iot_data) =>
            devsdk_post_readings svc (device_name device) (resource_name resource) iot_data ;;;
            iot_data_free iot_data ;;;
            finish (Some device) (set_code response (COAP_RESPONSE_CODE 204))
        end
    end.

(** ** The init callback *)

(** Modelled from the spec: the security modes of device-coap.h, which is
    not among the sources: one of NoSec, PSK, Unknown. *)
Inductive coap_security_mode_t :=
| SECURITY_MODE_UNKNOWN
| SECURITY_MODE_NOSEC
| SECURITY_MODE_PSK.

(** Modelled from the spec: the driver configuration of device-coap.h:
    security mode, pre-shared key (raw bytes, present only with PSK) and
    bind address (text); these are the fields [coap_init] writes, NULL is
    [None]. *)
Record coap_driver := {
  security_mode : coap_security_mode_t;
  psk_key : option (list uint8_t);
  coap_bind_addr : option string
}.

Definition COAP_BIND_ADDR_KEY : string := "CoapBindAddr".
Definition SECURITY_MODE_KEY : string := "SecurityMode".
Definition PSK_KEY_KEY : string := "PskKey".

(** [iot_data_string_map_get_string]: NULL for a key the map lacks. *)
Definition iot_data_string_map_get_string (config : gmap string string) (key : string)
  : option string := config !! key.

(** The default driver configuration that [main] hands to
    [devsdk_service_start]. *)
Definition driver_map : gmap string string :=
  <[COAP_BIND_ADDR_KEY := "0.0.0.0"]>
    (<[SECURITY_MODE_KEY := "NoSec"]>
      (<[PSK_KEY_KEY := ""]> ∅)).

(** The configuration the SDK passes to the init callback: every default
    of [driver_map], overridden by the value configured for its key. *)
Definition driver_config (configured : gmap string string) : gmap string string :=
  configured ∪ driver_map.

Section Init.

(** [iot_data_alloc_array_from_base64] of the IOT utilities: the decoded
    bytes, NULL for text it does not accept. *)
Variable iot_data_alloc_array_from_base64 : string -> option (list uint8_t).

(** [None] when the assertion on [mode_text] fails. *)
Definition find_security_mode (mode_text : option string)
  : option coap_security_mode_t :=
  match mode_text with
  | None => None
  | Some text =>
      if String.eqb text "PSK" then Some SECURITY_MODE_PSK
      else if String.eqb text "NoSec" then Some SECURITY_MODE_NOSEC
      else Some SECURITY_MODE_UNKNOWN
  end.

(** The tail of [coap_init], from the bind address on. *)
Definition init_bind_addr (driver : coap_driver) (config : gmap string string)
  : IO (bool * coap_driver) :=
  match iot_data_string_map_get_string config COAP_BIND_ADDR_KEY with
  | Some bind_addr =>
      iot_log_debug "Init complete" ;;;
      io_ret (true, {| security_mode := security_mode driver;
                       psk_key := psk_key driver;
                       coap_bind_addr := Some bind_addr |})
  | None =>
      iot_log_error "CoAP bind address not in configuration" ;;;
      io_ret (false, {| security_mode := security_mode driver;
                        psk_key := psk_key driver;
                        coap_bind_addr := None |})
  end.

(** [coap_init]: the returned flag and the driver as it leaves it. The
    result is [None] where the C code has no defined result: the failed
    assertion, [strlen] of a NULL key text, and [iot_data_array_length]
    of the NULL array that the decoder returns for a key text it does not
    accept. *)
Definition coap_init (impl : coap_driver) (config : gmap string string)
  : option (IO (bool * coap_driver)) :=
  match find_security_mode (iot_data_string_map_get_string config SECURITY_MODE_KEY) with
  | None => None
  | Some mode =>
      let with_key (key : option (list uint8_t)) :=
        {| security_mode := mode; psk_key := key;
           coap_bind_addr := coap_bind_addr impl |} in
      match mode with
      | SECURITY_MODE_UNKNOWN =>
          Some (iot_log_error "Unknown security mode" ;;;
                io_ret (false, with_key None))
      | SECURITY_MODE_PSK =>
          match iot_data_string_map_get_string config PSK_KEY_KEY with
          | None => None
          | Some conf_psk_key =>
              if (String.length conf_psk_key =? 0)%nat then
                Some (iot_log_error "PSK key not in configuration" ;;;
                      io_ret (false, with_key None))
              else
                match iot_data_alloc_array_from_base64 conf_psk_key with
                | None => None
                | Some key_array =>
                    Some (iot_log_info "PSK key len %u" ;;;
                          init_bind_addr (with_key (Some key_array)) config)
                end
          end
      | SECURITY_MODE_NOSEC =>
          Some (init_bind_addr (with_key None) config)
      end
  end.

End Init.

(** ** Vocabulary of the statements *)

(** A decimal string is an optional sign followed by digits: the sign
    characters, and the value the string denotes. *)
Definition sign_chars (sg : option bool) : list ascii :=
  match sg with
  | None => []
  | Some true => ["-"%char]
  | Some false => ["+"%char]
  end.

Definition decimal_value (sg : option bool) (ds : list ascii) : Z :=
  match sg with
  | Some true => - digits_value ds
  | _ => digits_value ds
  end.

Definition in_int32 (v : Z) : bool := (INT32_MIN <=? v) && (v <=? INT32_MAX).

(** The canonical base-10 rendering of an integer, by the Standard
    Library's decimal printer: no leading zeros, "-" for negatives. *)
Definition render_decimal (z : Z) : list ascii :=
  list_ascii_of_string (NilZero.string_of_int (Z.to_int z)).

Definition uint_chars (d : Decimal.uint) : list ascii :=
  list_ascii_of_string (NilEmpty.string_of_uint d).

(** The pieces of a path between "/" separators, empty ones included. *)
Fixpoint split_slash (s : string) : list string :=
  match s with
  | EmptyString => [EmptyString]
  | String c s' =>
      if is_delim c then EmptyString :: split_slash s'
      else match split_slash s' with
           | p :: ps => String c p :: ps
           | [] => [String c EmptyString]
           end
  end.

(** The segments that are not empty. *)
Definition segments (s : string) : list string :=
  List.filter (fun p => negb (String.eqb p "")) (split_slash s).

(** A path of exactly three "/"-separated segments, none of them empty,
    the first one the fixed tag. *)
Definition three_segment_path (path : string) : Prop :=
  exists s2 s3, split_slash path = [RESOURCE_SEG1; s2; s3] /\ s2 <> "" /\ s3 <> "".

(** How often the trace hands out, and returns, the handle [h]. *)
Definition acquired (h : string) (t : list event) : nat :=
  length (List.filter (fun e => match e with
                                | EvGetDevice _ (Some h') => String.eqb h' h
                                | _ => false
                                end) t).

Definition released (h : string) (t : list event) : nat :=
  length (List.filter (fun e => match e with
                                | EvFreeDevice (Some h') => String.eqb h' h
                                | _ => false
                                end) t).

(** Every handle is returned as often as it was handed out, and at most
    one handle is handed out. *)
Definition handles_balanced (t : list event) : Prop :=
  (forall h, released h t = acquired h t) /\
  (length (List.filter (fun e => match e with
                                 | EvGetDevice _ (Some _) => true
                                 | _ => false
                                 end) t) <= 1)%nat.

Definition published (t : list event) : nat :=
  length (List.filter (fun e => match e with
                                | EvPostReadings _ _ _ => true
                                | _ => false
                                end) t).

(** Whether the trace holds a log entry of the given severity. *)
Definition logged (level : iot_loglevel_t) (t : list event) : bool :=
  existsb (fun e => match e with
                    | EvLog l _ => bool_decide (l = level)
                    | _ => false
                    end) t.

(** The ways [parse_path] ends: the result and the trace. *)
Inductive path_outcome (svc : devsdk_service_t)
  : option (edgex_device * edgex_deviceresource) -> list event -> Prop :=
| path_routed (n : string) (d : edgex_device) (r : edgex_deviceresource) :
    devices svc !! n = Some d ->
    path_outcome svc (Some (d, r))
      [EvLog IOT_LOG_DEBUG "URI %s"; EvGetDevice n (Some (device_name d))]
| path_malformed (msg : string) :
    path_outcome svc None
      [EvLog IOT_LOG_DEBUG "URI %s"; EvLog IOT_LOG_INFO msg; EvFreeDevice None]
| path_no_device (n : string) :
    devices svc !! n = None ->
    path_outcome svc None
      [EvLog IOT_LOG_DEBUG "URI %s"; EvGetDevice n None;
       EvLog IOT_LOG_INFO "device not found: %s"; EvFreeDevice None]
| path_rejected (n : string) (d : edgex_device) (msg : string) :
    devices svc !! n = Some d ->
    path_outcome svc None
      [EvLog IOT_LOG_DEBUG "URI %s"; EvGetDevice n (Some (device_name d));
       EvLog IOT_LOG_INFO msg; EvFreeDevice (Some (device_name d))].

(** The ways the payload stage ends. *)
Inductive payload_outcome (request : coap_pdu_t) (resource : edgex_deviceresource)
  : payload_stage -> list event -> Prop :=
| payload_absent :
    data request = None ->
    payload_outcome request resource (Decoded None)
      [EvLog IOT_LOG_INFO "invalid data of len %u"]
| payload_format_rejected :
    data request <> None ->
    payload_outcome request resource (Rejected (COAP_RESPONSE_CODE 415)) []
| payload_kind_unsupported :
    data request <> None ->
    payload_outcome request resource (Rejected (COAP_RESPONSE_CODE 500))
      [EvLog IOT_LOG_ERROR "unsupported resource type %d"]
| payload_decode_failed (msg : string) :
    data request <> None ->
    payload_outcome request resource (Decoded None) [EvLog IOT_LOG_INFO msg]
| payload_decoded (v : iot_data_t) :
    data request <> None ->
    payload_outcome request resource (Decoded (Some v)) [].

(** A registry with one device, whose chain has two profiles. *)
Definition temp : edgex_deviceresource :=
  {| resource_name := "temp"; properties_type := Edgex_Float64 |}.
Definition hum : edgex_deviceresource :=
  {| resource_name := "hum"; properties_type := Edgex_Int32 |}.
Definition valve : edgex_deviceresource :=
  {| resource_name := "valve"; properties_type := Edgex_Other 10 |}.

Definition device_1 : edgex_device :=
  {| device_name := "device-1";
     profile := [ {| device_resources := [temp] |};
                  {| device_resources := [hum; valve] |} ] |}.

Definition device_2 : edgex_device :=
  {| device_name := "device-2";
     profile := [ {| device_resources := [temp; valve] |} ] |}.

Definition example_service : devsdk_service_t :=
  {| devices := <["device-1" := device_1]> (<["device-2" := device_2]> ∅) |}.

Definition post_request (path : string) (cf : option (list uint8_t))
    (payload : option (list uint8_t)) : coap_pdu_t :=
  {| code := COAP_REQUEST_POST; uri_path := path;
     content_format_opt := cf; data := payload |}.

Definition empty_response : coap_pdu_t :=
  {| code := 0; uri_path := ""; content_format_opt := None; data := None |}.

(** ** The server lifecycle *)

(** What [getaddrinfo] hands back for one address: the family and the
    socket address, [ai_addr] with its [ai_addrlen] bytes. *)
Record addrinfo := {
  ai_family : Z;
  ai_addr : list uint8_t
}.

Definition ai_addrlen (a : addrinfo) : Z := Z.of_nat (length (ai_addr a)).

(** [coap_address_t]: the length in use and the address buffer. *)
Record coap_address_t := {
  addr_size : Z;
  addr : list uint8_t
}.

Definition AF_INET : Z := 2.
Definition AF_INET6 : Z := 10.

(** [sizeof (lib_addr->addr)]: the union of the socket address types, as
    large as [struct sockaddr_in6]. *)
Definition SIZEOF_ADDR : nat := 28.

(** The address after [memset] has cleared it. *)
Definition zero_address : coap_address_t :=
  {| addr_size := 0; addr := replicate SIZEOF_ADDR NUL |}.

(** [memcpy (dst, src, n)] into the front of a buffer. *)
Definition memcpy (dst src : list uint8_t) : list uint8_t :=
  src ++ drop (length src) dst.

Inductive coap_proto_t :=
| COAP_PROTO_UDP
| COAP_PROTO_DTLS.

Inductive coap_tls_library_t :=
| COAP_TLS_LIBRARY_NOTLS
| COAP_TLS_LIBRARY_TINYDTLS
| COAP_TLS_LIBRARY_OPENSSL
| COAP_TLS_LIBRARY_GNUTLS.

Definition LOG_ERR : Z := 3.
Definition LOG_WARNING : Z := 4.
Definition LOG_NOTICE : Z := 5.
Definition LOG_INFO : Z := 6.
Definition LOG_DEBUG : Z := 7.

Definition EXIT_SUCCESS : Z := 0.
Definition EXIT_FAILURE : Z := 1.

Definition SIGINT : Z := 2.
Definition SIGTERM : Z := 15.

(** The calls of [run_server] and [resolve_address] to libc, libcoap and
    the logger. *)
Inductive server_event :=
| SvLog (level : iot_loglevel_t) (fmt : string)
| SvStartup
| SvSetLogLevel (level : Z)
| SvDtlsSetLogLevel (level : Z)
| SvGetAddrInfo (host service : string)
| SvFreeAddrInfo
| SvNewContext
| SvSetPsk (key : list uint8_t)
| SvNewEndpoint (bind_addr : coap_address_t) (proto : coap_proto_t)
| SvResourceUnknownInit
| SvRegisterHandler (method : Z)
| SvAddResource
| SvSigaction (signum : Z)
| SvIoProcess
| SvFreeContext (ctx : bool)
| SvCleanup.

(** What the environment answers: [getaddrinfo] (the error code, and the
    result list when it is 0), the TLS library libcoap was built with,
    whether context, key and endpoint can be set up, and how many times
    the loop runs before a signal has set [quit]. *)
Record server_env := {
  getaddrinfo : string -> string -> Z * list addrinfo;
  tls_library : coap_tls_library_t;
  new_context_ok : bool;
  set_psk_ok : bool;
  new_endpoint_ok : bool;
  io_rounds : nat
}.

(** The loop of [resolve_address] over the result list, with its
    variables [len] and [*lib_addr]; the first entry that fits the buffer
    and is an internet address ends it. *)
Fixpoint scan_addrinfo (ainfo : list addrinfo) (len : Z) (lib_addr : coap_address_t)
  : Z * coap_address_t :=
  match ainfo with
  | a :: ai_next =>
      if ai_addrlen a <=? Z.of_nat SIZEOF_ADDR then
        if (ai_family a =? AF_INET6) || (ai_family a =? AF_INET) then
          (ai_addrlen a,
           {| addr_size := ai_addrlen a; addr := memcpy (addr lib_addr) (ai_addr a) |})
        else scan_addrinfo ai_next len lib_addr
      else scan_addrinfo ai_next len lib_addr
  | [] => (len, lib_addr)
  end.

(** The format string of the entry [resolve_address] logs, which ends in
    a line feed. *)
Definition GETADDRINFO_FORMAT : string :=
  String.append "getaddrinfo: %s" (String (ascii_of_nat 10) EmptyString).

(** [resolve_address]: the returned [int], the address written, and the
    calls made. *)
Definition resolve_address (env : server_env) (host service : string)
  : Z * coap_address_t * list server_event :=
  let '(error, res) := getaddrinfo env host service in
  if negb (error =? 0) then
    (error, zero_address,
     [SvGetAddrInfo host service; SvLog IOT_LOG_INFO GETADDRINFO_FORMAT])
  else
    let '(len, lib_addr) := scan_addrinfo res (-1) zero_address in
    (len, lib_addr, [SvGetAddrInfo host service; SvFreeAddrInfo]).

(** The libcoap log level for the level of the SDK's logger; [None] is
    any level of the logger other than the four below. *)
Definition coap_log_level (level : option iot_loglevel_t) : Z :=
  match level with
  | Some IOT_LOG_ERROR => LOG_ERR
  | Some IOT_LOG_WARN => LOG_WARNING
  | Some IOT_LOG_DEBUG => LOG_DEBUG
  | _ => LOG_INFO
  end.

(** The label [finish] of [run_server]. *)
Definition server_finish (ctx : bool) (result : Z) (t : list server_event)
  : Z * list server_event :=
  (result, t ++ [SvFreeContext ctx; SvCleanup]).

(** [run_server]: the exit status and the calls made. The result is
    [None] where the C code has no defined result: a NULL bind address
    handed to [iot_data_string], and a NULL key in PSK mode. *)
Definition run_server (env : server_env) (level : option iot_loglevel_t)
    (driver : coap_driver) : option (Z * list server_event) :=
  let log_level := coap_log_level level in
  let dtls_level :=
    match tls_library env with
    | COAP_TLS_LIBRARY_TINYDTLS => if log_level =? LOG_INFO then log_level - 1 else log_level
    | _ => log_level
    end in
  let t0 := [SvStartup; SvSetLogLevel log_level; SvDtlsSetLogLevel dtls_level] in
  let '(proto, port) :=
    match security_mode driver with
    | SECURITY_MODE_NOSEC => (COAP_PROTO_UDP, "5683"%string)
    | _ => (COAP_PROTO_DTLS, "5684"%string)
    end in
  match coap_bind_addr driver with
  | None => None
  | Some host =>
  let '(rc, bind_addr, tr) := resolve_address env host port in
  let t1 := t0 ++ tr in
  if rc <? 0 then
    Some (server_finish false EXIT_FAILURE
            (t1 ++ [SvLog IOT_LOG_ERROR "failed to resolve CoAP bind address"]))
  else
  let t2 := t1 ++ [SvNewContext] in
  if negb (new_context_ok env) then
    Some (server_finish false EXIT_FAILURE
            (t2 ++ [SvLog IOT_LOG_ERROR "cannot initialize context"]))
  else
  let after_psk (t3 : list server_event) :=
    let t4 := t3 ++ [SvNewEndpoint bind_addr proto] in
    if negb (new_endpoint_ok env) then
      server_finish true EXIT_FAILURE
        (t4 ++ [SvLog IOT_LOG_ERROR "cannot initialize listen endpoint"])
    else
      server_finish true EXIT_SUCCESS
        (t4 ++ [SvResourceUnknownInit; SvRegisterHandler COAP_REQUEST_POST;
                SvAddResource; SvSigaction SIGINT; SvSigaction SIGTERM;
                SvLog IOT_LOG_INFO "CoAP %s server started on %s"]
            ++ replicate (io_rounds env) SvIoProcess) in
  match security_mode driver with
  | SECURITY_MODE_PSK =>
      match psk_key driver with
      | None => None
      | Some key =>
          let t3 := t2 ++ [SvSetPsk key] in
          if negb (set_psk_ok env) then
            Some (server_finish true EXIT_FAILURE
                    (t3 ++ [SvLog IOT_LOG_ERROR "cannot initialize PSK"]))
          else Some (after_psk t3)
      end
  | _ => Some (after_psk t2)
  end
  end.

(** ** Vocabulary for the lifecycle *)

(** An entry of the [getaddrinfo] result that [resolve_address] takes: it
    fits the address buffer and is an IPv4 or IPv6 address. *)
Definition usable_address (a : addrinfo) : bool :=
  (ai_addrlen a <=? Z.of_nat SIZEOF_ADDR)
  && ((ai_family a =? AF_INET6) || (ai_family a =? AF_INET)).

Definition sv_count (p : server_event -> bool) (t : list server_event) : nat :=
  length (List.filter p t).

Definition is_io_process (e : server_event) : bool :=
  match e with SvIoProcess => true | _ => false end.

Definition is_teardown (e : server_event) : bool :=
  match e with SvFreeContext _ | SvCleanup => true | _ => false end.

Definition is_error_log (e : server_event) : bool :=
  match e with SvLog IOT_LOG_ERROR _ => true | _ => false end.

Definition is_registration (e : server_event) : bool :=
  match e with
  | SvResourceUnknownInit | SvRegisterHandler _ | SvAddResource => true
  | _ => false
  end.

(** The transport and the port that go with a security mode. *)
Definition mode_proto (mode : coap_security_mode_t) : coap_proto_t :=
  match mode with
  | SECURITY_MODE_NOSEC => COAP_PROTO_UDP
  | _ => COAP_PROTO_DTLS
  end.

Definition mode_port (mode : coap_security_mode_t) : string :=
  match mode with
  | SECURITY_MODE_NOSEC => "5683"
  | _ => "5684"
  end.

(** The call that installs the key, made in PSK mode only. *)
Definition psk_calls (driver : coap_driver) : list server_event :=
  match security_mode driver, psk_key driver with
  | SECURITY_MODE_PSK, Some key => [SvSetPsk key]
  | _, _ => []
  end.

(** The calls that register the handler and install the signal handlers,
    up to the log entry that announces the server. *)
Definition registration_calls : list server_event :=
  [SvResourceUnknownInit; SvRegisterHandler COAP_REQUEST_POST; SvAddResource;
   SvSigaction SIGINT; SvSigaction SIGTERM;
   SvLog IOT_LOG_INFO "CoAP %s server started on %s"].

(** The ways [run_server] ends: the exit status, whether a context was
    created, and the calls between the setting of the log levels and the
    teardown. [rc], [bind_addr] and [tr] are the result, the address and
    the calls of [resolve_address]. *)
Inductive server_outcome (env : server_env) (driver : coap_driver)
    (rc : Z) (bind_addr : coap_address_t) (tr : list server_event)
  : Z -> bool -> list server_event -> Prop :=
| server_resolve_failed :
    rc < 0 ->
    server_outcome env driver rc bind_addr tr EXIT_FAILURE false
      (tr ++ [SvLog IOT_LOG_ERROR "failed to resolve CoAP bind address"])
| server_context_failed :
    0 <= rc -> new_context_ok env = false ->
    server_outcome env driver rc bind_addr tr EXIT_FAILURE false
      (tr ++ [SvNewContext; SvLog IOT_LOG_ERROR "cannot initialize context"])
| server_psk_failed (key : list uint8_t) :
    0 <= rc -> new_context_ok env = true ->
    security_mode driver = SECURITY_MODE_PSK -> psk_key driver = Some key ->
    set_psk_ok env = false ->
    server_outcome env driver rc bind_addr tr EXIT_FAILURE true
      (tr ++ [SvNewContext; SvSetPsk key; SvLog IOT_LOG_ERROR "cannot initialize PSK"])
| server_endpoint_failed :
    0 <= rc -> new_context_ok env = true ->
    (security_mode driver = SECURITY_MODE_PSK -> set_psk_ok env = true) ->
    new_endpoint_ok env = false ->
    server_outcome env driver rc bind_addr tr EXIT_FAILURE true
      (tr ++ [SvNewContext] ++ psk_calls driver ++
       [SvNewEndpoint bind_addr (mode_proto (security_mode driver));
        SvLog IOT_LOG_ERROR "cannot initialize listen endpoint"])
| server_ran :
    0 <= rc -> new_context_ok env = true ->
    (security_mode driver = SECURITY_MODE_PSK -> set_psk_ok env = true) ->
    new_endpoint_ok env = true ->
    server_outcome env driver rc bind_addr tr EXIT_SUCCESS true
      (tr ++ [SvNewContext] ++ psk_calls driver ++
       [SvNewEndpoint bind_addr (mode_proto (security_mode driver))] ++
       registration_calls ++ replicate (io_rounds env) SvIoProcess).

(** An environment in which every step of the setup works and the name
    resolves to one IPv4 address. *)
Definition example_env (rounds : nat) : server_env :=
  {| getaddrinfo := fun _ _ =>
       (0, [ {| ai_family := AF_INET; ai_addr := replicate 16 NUL |} ]);
     tls_library := COAP_TLS_LIBRARY_TINYDTLS;
     new_context_ok := true;
     set_psk_ok := true;
     new_endpoint_ok := true;
     io_rounds := rounds |}.

Definition nosec_driver : coap_driver :=
  {| security_mode := SECURITY_MODE_NOSEC; psk_key := None;
     coap_bind_addr := Some "0.0.0.0"%string |}.

(** ** The router over the segments of a path *)

(** What [parse_path] comes to when the path is given by its non-empty
    segments: the result and the calls. *)
Definition route (svc : devsdk_service_t) (segs : list string)
  : IO (option (edgex_device * edgex_deviceresource)) :=
  let dbg := EvLog IOT_LOG_DEBUG "URI %s" in
  let missing := EvLog IOT_LOG_INFO "missing URI segment %u" in
  match segs with
  | [] => (None, [dbg; missing; EvFreeDevice None])
  | s1 :: segs1 =>
  if negb (String.eqb s1 RESOURCE_SEG1) then
    (None, [dbg; EvLog IOT_LOG_INFO "invalid URI; segment %u"; EvFreeDevice None])
  else
  match segs1 with
  | [] => (None, [dbg; missing; EvFreeDevice None])
  | s2 :: segs2 =>
  match devices svc !! s2 with
  | None =>
      (None, [dbg; EvGetDevice s2 None; EvLog IOT_LOG_INFO "device not found: %s";
              EvFreeDevice None])
  | Some device =>
  let got := EvGetDevice s2 (Some (device_name device)) in
  let free := EvFreeDevice (Some (device_name device)) in
  match segs2 with
  | [] => (None, [dbg; got; missing; free])
  | s3 :: segs3 =>
  match scan_profiles (profile device) None s3 with
  | None => (None, [dbg; got; EvLog IOT_LOG_INFO "resource not found: %s"; free])
  | Some resource =>
  match segs3 with
  | [] => (Some (device, resource), [dbg; got])
  | _ :: _ => (None, [dbg; got; EvLog IOT_LOG_INFO "extra URI segment"; free])
  end end end end end end.

(** * Properties *)

(** ** Scanning *)

Lemma span_app_stop (p : ascii -> bool) (ds rest : list ascii) :
  Forall (fun c => p c = true) ds ->
  match rest with c :: _ => p c = false | [] => True end ->
  span p (ds ++ rest) = length ds.
Proof.
  intros Hds Hstop. induction Hds as [|c ds Hc _ IH]; simpl.
  - destruct rest as [|c rest]; [reflexivity|]. simpl. now rewrite Hstop.
  - now rewrite Hc, IH.
Qed.

Lemma isdigit_not_space (c : ascii) : isdigit c = true -> isspace c = false.
Proof. unfold isdigit, isspace. lia. Qed.

Lemma isdigit_not_sign (c : ascii) :
  isdigit c = true -> Ascii.eqb c "-" = false /\ Ascii.eqb c "+" = false.
Proof.
  intros H. split.
  - destruct (Ascii.eqb_spec c "-") as [->|]; [discriminate H | reflexivity].
  - destruct (Ascii.eqb_spec c "+") as [->|]; [discriminate H | reflexivity].
Qed.

Lemma digit_value_range (c : ascii) : isdigit c = true -> 0 <= digit_value c <= 9.
Proof. unfold isdigit, digit_value. lia. Qed.

Lemma digits_acc_lower (ds : list ascii) :
  Forall (fun c => isdigit c = true) ds ->
  forall a, 0 <= a -> a * 10 ^ Z.of_nat (length ds) <= digits_acc a ds.
Proof.
  induction 1 as [|c ds Hc _ IH]; intros a Ha; simpl digits_acc.
  - simpl. lia.
  - pose proof (digit_value_range c Hc) as Hr.
    specialize (IH (10 * a + digit_value c) ltac:(lia)).
    replace (Z.of_nat (length (c :: ds))) with (Z.succ (Z.of_nat (length ds)))
      by (simpl length; lia).
    rewrite Z.pow_succ_r by lia.
    assert (0 < 10 ^ Z.of_nat (length ds)) by (apply Z.pow_pos_nonneg; lia).
    nia.
Qed.

Lemma strtol_decimal {L : libc} (sg : option bool) (ds : list ascii) :
  ds <> [] -> Forall (fun c => isdigit c = true) ds ->
  let v := decimal_value sg ds in
  let e := length (sign_chars sg ++ ds) in
  strtol (null_terminated (sign_chars sg ++ ds)) =
    if v <? LONG_MIN then {| int_val := LONG_MIN; l_endptr := e; l_errno := ERANGE |}
    else if LONG_MAX <? v then {| int_val := LONG_MAX; l_endptr := e; l_errno := ERANGE |}
    else {| int_val := v; l_endptr := e; l_errno := 0 |}.
Proof.
  intros Hne Hds v e.
  assert (Hspan : span isdigit (ds ++ [NUL]) = length ds)
    by (apply span_app_stop; [exact Hds | reflexivity]).
  assert (Htake : take (length ds) (ds ++ [NUL]) = ds) by apply take_app_length.
  assert (Hlen : exists n, length ds = S n)
    by (destruct ds; [congruence | eexists; reflexivity]).
  destruct Hlen as [n Hn].
  unfold strtol, null_terminated.
  destruct sg as [[|]|]; subst v e; cbn [sign_chars decimal_value app].
  - change (span isspace ("-"%char :: ds ++ [NUL])) with O.
    rewrite drop_0. cbn [scan_sign]. change (Ascii.eqb "-" "-") with true. cbn iota.
    rewrite skipn_cons, drop_0, Hspan, Htake, Hn. cbn [length Nat.add]. rewrite Hn.
    reflexivity.
  - change (span isspace ("+"%char :: ds ++ [NUL])) with O.
    rewrite drop_0. cbn [scan_sign]. change (Ascii.eqb "+" "-") with false.
    change (Ascii.eqb "+" "+") with true. cbn iota.
    rewrite skipn_cons, drop_0, Hspan, Htake, Hn. cbn [length Nat.add]. rewrite Hn.
    reflexivity.
  - destruct ds as [|d ds']; [congruence|].
    apply Forall_cons in Hds as [Hd Hds'].
    destruct (isdigit_not_sign d Hd) as [Hm Hp].
    cbn [app span]. rewrite (isdigit_not_space d Hd).
    rewrite drop_0. cbn [scan_sign]. rewrite Hm, Hp, drop_0.
    change (d :: ds' ++ [NUL]) with ((d :: ds') ++ [NUL]).
    rewrite Hspan, Htake, Hn. cbn [Nat.add]. reflexivity.
Qed.

Lemma deref_terminator (s : list ascii) : deref (null_terminated s) (length s) = NUL.
Proof.
  unfold deref, null_terminated. replace (length s) with (length s + 0)%nat by lia.
  rewrite app_nth2_plus. reflexivity.
Qed.

Lemma to_int32_in_range (v : Z) : INT32_MIN <= v <= INT32_MAX -> to_int32 v = v.
Proof.
  unfold to_int32, INT32_MIN, INT32_MAX. intros H.
  rewrite Z.mod_small; lia.
Qed.

(** The decoder on a decimal string: an optional sign and at least one
    digit. *)
Lemma read_data_int32_decimal {L : libc} (sg : option bool) (ds : list ascii) :
  ds <> [] -> Forall (fun c => isdigit c = true) ds ->
  read_data_int32 (sign_chars sg ++ ds) =
    if (length (sign_chars sg ++ ds) <=? INT32_STR_MAXLEN)%nat
       && in_int32 (decimal_value sg ds)
    then (Some (IOT_DATA_INT32 (decimal_value sg ds)), [])
    else (None, [EvLog IOT_LOG_INFO "invalid int32 of len %u"]).
Proof.
  intros Hne Hds. unfold read_data_int32. cbv zeta.
  destruct (Nat.ltb_spec INT32_STR_MAXLEN (length (sign_chars sg ++ ds))) as [Hlen|Hlen].
  - destruct (Nat.leb_spec (length (sign_chars sg ++ ds)) INT32_STR_MAXLEN); [lia|].
    reflexivity.
  - destruct (Nat.leb_spec (length (sign_chars sg ++ ds)) INT32_STR_MAXLEN); [|lia].
    rewrite (strtol_decimal sg ds Hne Hds). cbv zeta.
    unfold in_int32, LONG_MIN, LONG_MAX, INT32_MIN, INT32_MAX.
    set (v := decimal_value sg ds).
    destruct (Z.ltb_spec v (- 2 ^ 63)) as [H1|H1]; cbn [l_errno l_endptr int_val].
    { destruct (Z.leb_spec (-2147483648) v); [lia|]. reflexivity. }
    destruct (Z.ltb_spec (2 ^ 63 - 1) v) as [H2|H2]; cbn [l_errno l_endptr int_val].
    { destruct (Z.leb_spec v 2147483647); [lia|]. rewrite andb_false_r. reflexivity. }
    rewrite deref_terminator. change (is_nul NUL) with true.
    change (negb (0 =? 0)) with false. cbn [negb orb andb].
    destruct (Z.ltb_spec v (-2147483648)), (Z.leb_spec (-2147483648) v); try lia;
      cbn [orb andb]; [reflexivity|].
    destruct (Z.ltb_spec 2147483647 v), (Z.leb_spec v 2147483647); try lia;
      cbn [orb andb]; [reflexivity|].
    rewrite to_int32_in_range by (unfold INT32_MIN, INT32_MAX; lia). reflexivity.
Qed.

(** ** Decimal rendering *)

Lemma uint_chars_digits (d : Decimal.uint) :
  Forall (fun c => isdigit c = true) (uint_chars d).
Proof.
  unfold uint_chars.
  induction d; cbn [NilEmpty.string_of_uint list_ascii_of_string];
    constructor; (reflexivity || assumption).
Qed.

Lemma digits_acc_of_uint_acc (d : Decimal.uint) :
  forall acc, digits_acc (Z.pos acc) (uint_chars d) = Z.pos (Pos.of_uint_acc d acc).
Proof.
  unfold uint_chars.
  induction d; intros acc;
    cbn [NilEmpty.string_of_uint list_ascii_of_string digits_acc Pos.of_uint_acc];
    [reflexivity | ..];
    match goal with
    | |- digits_acc ?a _ = Z.pos (Pos.of_uint_acc _ ?b) =>
        replace a with (Z.pos b) by (unfold digit_value, char_code; cbn; lia)
    end; apply IHd.
Qed.

Lemma digits_value_of_uint (d : Decimal.uint) :
  digits_value (uint_chars d) = Z.of_N (Pos.of_uint d).
Proof.
  unfold digits_value.
  induction d; [reflexivity | exact IHd | ..];
    refine (digits_acc_of_uint_acc d _).
Qed.

(** The printer's digits of a positive number start with a digit that is
    not zero. *)
Lemma nzhead_head (d : Decimal.uint) :
  match Decimal.nzhead d with Decimal.D0 _ => False | _ => True end.
Proof. induction d; cbn [Decimal.nzhead]; auto. Qed.

Lemma to_uint_head (p : positive) :
  exists c rest, uint_chars (Pos.to_uint p) = c :: rest /\ 1 <= digit_value c.
Proof.
  pose proof (DecimalPos.Unsigned.to_of (Pos.to_uint p)) as Hn.
  rewrite DecimalPos.Unsigned.of_to in Hn. cbn [N.to_uint] in Hn.
  pose proof (DecimalPos.Unsigned.to_uint_nonzero p) as Hz.
  pose proof (nzhead_head (Pos.to_uint p)) as Hh.
  unfold Decimal.unorm in Hn.
  destruct (Decimal.nzhead (Pos.to_uint p)) eqn:E; try contradiction;
    try congruence; rewrite Hn; unfold uint_chars;
    cbn [NilEmpty.string_of_uint list_ascii_of_string];
    eexists _, _; (split; [reflexivity | unfold digit_value, char_code; cbn; lia]).
Qed.

Lemma render_decimal_pos (p : positive) :
  render_decimal (Z.pos p) = uint_chars (Pos.to_uint p).
Proof.
  unfold render_decimal, uint_chars. cbn [Z.to_int NilZero.string_of_int].
  pose proof (DecimalPos.Unsigned.to_uint_nonnil p).
  destruct (Pos.to_uint p); [congruence | reflexivity ..].
Qed.

Lemma render_decimal_neg (p : positive) :
  render_decimal (Z.neg p) = "-"%char :: uint_chars (Pos.to_uint p).
Proof.
  unfold render_decimal, uint_chars. cbn [Z.to_int NilZero.string_of_int].
  pose proof (DecimalPos.Unsigned.to_uint_nonnil p).
  destruct (Pos.to_uint p); [congruence | reflexivity ..].
Qed.

Lemma uint_chars_value (p : positive) :
  digits_value (uint_chars (Pos.to_uint p)) = Z.pos p.
Proof. rewrite digits_value_of_uint, DecimalPos.Unsigned.of_to. reflexivity. Qed.

(** A positive number below [10^k] is printed with at most [k] digits. *)
Lemma uint_chars_length (p : positive) (k : nat) :
  Z.pos p < 10 ^ Z.of_nat k -> (length (uint_chars (Pos.to_uint p)) <= k)%nat.
Proof.
  intros Hlt.
  destruct (to_uint_head p) as (c & rest & Hc & H1).
  pose proof (uint_chars_value p) as Hv.
  pose proof (uint_chars_digits (Pos.to_uint p)) as Hd.
  rewrite Hc in Hv, Hd |- *. apply Forall_cons in Hd as [_ Hd].
  unfold digits_value in Hv. cbn [digits_acc] in Hv.
  pose proof (digits_acc_lower rest Hd (10 * 0 + digit_value c) ltac:(lia)) as Hlow.
  rewrite Hv in Hlow. cbn [length].
  destruct (Nat.le_gt_cases (S (length rest)) k) as [|Hgt]; [assumption|].
  assert (10 ^ Z.of_nat k <= 10 ^ Z.of_nat (length rest))
    by (apply Z.pow_le_mono_r; lia).
  nia.
Qed.

(** Every integer is rendered as a decimal string that denotes it. *)
Lemma render_decimal_spec (z : Z) :
  exists sg ds,
    render_decimal z = sign_chars sg ++ ds /\
    ds <> [] /\ Forall (fun c => isdigit c = true) ds /\
    decimal_value sg ds = z /\
    forall k, Z.abs z < 10 ^ Z.of_nat k -> (length ds <= Nat.max 1 k)%nat.
Proof.
  destruct z as [|p|p].
  - exists None, ["0"%char]. repeat split; try easy.
    + repeat constructor.
    + intros k _. cbn [length]. lia.
  - exists None, (uint_chars (Pos.to_uint p)).
    destruct (to_uint_head p) as (c & rest & Hc & _).
    repeat split.
    + apply render_decimal_pos.
    + rewrite Hc. discriminate.
    + apply uint_chars_digits.
    + apply uint_chars_value.
    + intros k Hk. pose proof (uint_chars_length p k ltac:(lia)). lia.
  - exists (Some true), (uint_chars (Pos.to_uint p)).
    destruct (to_uint_head p) as (c & rest & Hc & _).
    repeat split.
    + apply render_decimal_neg.
    + rewrite Hc. discriminate.
    + apply uint_chars_digits.
    + cbn [decimal_value]. rewrite uint_chars_value. reflexivity.
    + intros k Hk. pose proof (uint_chars_length p k ltac:(lia)). lia.
Qed.

(** ** The Int32 decoder *)

(** C5: every value of the signed 32-bit range, rendered as its decimal
    string, is decoded to exactly that value; every decimal string (an
    optional sign and one or more digits) that denotes a value outside
    the range is a decode failure, also where [strtol] itself converts the
    string without error because the value fits [long]. *)
Theorem read_data_int32_round_trip {L : libc} :
  (forall z, INT32_MIN <= z <= INT32_MAX ->
     read_data_int32 (render_decimal z) = (Some (IOT_DATA_INT32 z), [])) /\
  (forall sg ds,
     ds <> [] -> Forall (fun c => isdigit c = true) ds ->
     decimal_value sg ds < INT32_MIN \/ INT32_MAX < decimal_value sg ds ->
     read_data_int32 (sign_chars sg ++ ds)
       = (None, [EvLog IOT_LOG_INFO "invalid int32 of len %u"]) /\
     (LONG_MIN <= decimal_value sg ds <= LONG_MAX ->
      strtol (null_terminated (sign_chars sg ++ ds))
        = {| int_val := decimal_value sg ds;
             l_endptr := length (sign_chars sg ++ ds);
             l_errno := 0 |})).
Proof.
  split.
  - intros z Hz.
    destruct (render_decimal_spec z) as (sg & ds & Hr & Hne & Hds & Hv & Hlen).
    rewrite Hr, (read_data_int32_decimal sg ds Hne Hds), Hv.
    assert (Hl : (length ds <= 10)%nat).
    { specialize (Hlen 10%nat). unfold INT32_MIN, INT32_MAX in Hz.
      assert (Z.abs z < 10 ^ Z.of_nat 10) by (change (10 ^ Z.of_nat 10) with 10000000000; lia).
      lia. }
    assert (Hs : (length (sign_chars sg) <= 1)%nat) by (destruct sg as [[|]|]; cbn; lia).
    rewrite length_app.
    destruct (Nat.leb_spec (length (sign_chars sg) + length ds) INT32_STR_MAXLEN) as [_|Hbad];
      [|unfold INT32_STR_MAXLEN in Hbad; lia].
    unfold in_int32.
    destruct (Z.leb_spec INT32_MIN z); [|lia].
    destruct (Z.leb_spec z INT32_MAX); [|lia].
    reflexivity.
  - intros sg ds Hne Hds Hout. split.
    + rewrite (read_data_int32_decimal sg ds Hne Hds).
      unfold in_int32.
      destruct (Z.leb_spec INT32_MIN (decimal_value sg ds)),
               (Z.leb_spec (decimal_value sg ds) INT32_MAX);
        try lia; rewrite ?andb_false_r; reflexivity.
    + intros Hlong. rewrite (strtol_decimal sg ds Hne Hds). cbv zeta.
      destruct (Z.ltb_spec (decimal_value sg ds) LONG_MIN); [lia|].
      destruct (Z.ltb_spec LONG_MAX (decimal_value sg ds)); [lia|].
      reflexivity.
Qed.

Lemma read_data_int32_round_trip_witness :
  (INT32_MIN <= -2147483648 <= INT32_MAX /\
   read_data_int32 (render_decimal (-2147483648))
     = (Some (IOT_DATA_INT32 (-2147483648)), [])) /\
  (bytes "2147483648" <> [] /\
   Forall (fun c => isdigit c = true) (bytes "2147483648") /\
   INT32_MAX < decimal_value None (bytes "2147483648") /\
   LONG_MIN <= decimal_value None (bytes "2147483648") <= LONG_MAX /\
   read_data_int32 (sign_chars None ++ bytes "2147483648")
     = (None, [EvLog IOT_LOG_INFO "invalid int32 of len %u"]) /\
   strtol (null_terminated (sign_chars None ++ bytes "2147483648"))
     = {| int_val := 2147483648; l_endptr := 10; l_errno := 0 |}).
Proof.
  assert (Hin : INT32_MIN <= -2147483648 <= INT32_MAX)
    by (unfold INT32_MIN, INT32_MAX; lia).
  assert (Hne : bytes "2147483648" <> []) by discriminate.
  assert (Hds : Forall (fun c => isdigit c = true) (bytes "2147483648"))
    by (repeat constructor).
  assert (Hout : INT32_MAX < decimal_value None (bytes "2147483648"))
    by (vm_compute; reflexivity).
  assert (Hlong : LONG_MIN <= decimal_value None (bytes "2147483648") <= LONG_MAX)
    by (vm_compute; split; discriminate).
  split.
  - split; [exact Hin|].
    exact (proj1 read_data_int32_round_trip (-2147483648) Hin).
  - destruct (proj2 read_data_int32_round_trip None (bytes "2147483648")
                Hne Hds (or_intror Hout)) as [Hfail Hparse].
    split; [exact Hne|]. split; [exact Hds|]. split; [exact Hout|].
    split; [exact Hlong|]. split; [exact Hfail | exact (Hparse Hlong)].
Defined.

(** ** The Float64 decoder *)

Lemma read_data_float64_too_long {L : libc} (data : list uint8_t) :
  (FLOAT64_STR_MAXLEN < length data)%nat ->
  read_data_float64 data = (None, [EvLog IOT_LOG_INFO "invalid float64 of len %u"]).
Proof.
  intros H. unfold read_data_float64. cbv zeta.
  destruct (Nat.ltb_spec FLOAT64_STR_MAXLEN (length data)); [reflexivity | lia].
Qed.

(** A range error reported by [strtod] is a decode failure. *)
Lemma read_data_float64_range_error {L : libc} (data : list uint8_t) :
  d_errno (strtod (null_terminated data)) <> 0 ->
  read_data_float64 data = (None, [EvLog IOT_LOG_INFO "invalid float64 of len %u"]).
Proof.
  intros H. unfold read_data_float64. cbv zeta.
  destruct (FLOAT64_STR_MAXLEN <? length data)%nat; [reflexivity|].
  destruct (Z.eqb_spec (d_errno (strtod (null_terminated data))) 0);
    [contradiction | reflexivity].
Qed.

Lemma deref_data (data : list uint8_t) (i : nat) :
  (i < length data)%nat -> deref (null_terminated data) i = nth i data NUL.
Proof. intros H. unfold deref, null_terminated. now rewrite app_nth1. Qed.

(** In a buffer without a NUL byte, a parse that stops before the end of
    the buffer is a decode failure. *)
Lemma read_data_float64_trailing_garbage {L : libc} (data : list uint8_t) :
  Forall (fun c => is_nul c = false) data ->
  (d_endptr (strtod (null_terminated data)) < length data)%nat ->
  read_data_float64 data = (None, [EvLog IOT_LOG_INFO "invalid float64 of len %u"]).
Proof.
  intros Hnn Hend. unfold read_data_float64. cbv zeta.
  destruct (FLOAT64_STR_MAXLEN <? length data)%nat; [reflexivity|].
  rewrite deref_data by assumption.
  rewrite Forall_forall in Hnn.
  rewrite (Hnn (nth _ data NUL)) by (apply list_elem_of_In, nth_In; assumption).
  cbn [negb]. rewrite orb_true_r. reflexivity.
Qed.

(** The decoder either fails with one info entry or succeeds silently. *)
Lemma read_data_float64_cases {L : libc} (data : list uint8_t) :
  read_data_float64 data = (None, [EvLog IOT_LOG_INFO "invalid float64 of len %u"]) \/
  exists d, read_data_float64 data = (Some (IOT_DATA_FLOAT64 d), []).
Proof.
  unfold read_data_float64. cbv zeta.
  destruct (FLOAT64_STR_MAXLEN <? length data)%nat; [now left|].
  destruct (negb _ || negb _); [now left | right; eexists; reflexivity].
Qed.

Lemma read_data_int32_cases {L : libc} (data : list uint8_t) :
  read_data_int32 data = (None, [EvLog IOT_LOG_INFO "invalid int32 of len %u"]) \/
  exists i, read_data_int32 data = (Some (IOT_DATA_INT32 i), []).
Proof.
  unfold read_data_int32. cbv zeta.
  destruct (INT32_STR_MAXLEN <? length data)%nat; [now left|].
  destruct (_ || _); [now left | right; eexists; reflexivity].
Qed.

(** ** Bytes after a NUL *)

(** The scanners of [strtol] and [strtod] stop at the first NUL of the
    array: what follows it has no part in the result, and the end of the
    scan is not behind it. *)

Lemma span_le (p : ascii -> bool) (s : list ascii) : (span p s <= length s)%nat.
Proof. induction s as [|c s IH]; simpl; [lia|]. destruct (p c); simpl; lia. Qed.

Lemma span_nul (p : ascii -> bool) (l r : list ascii) :
  p NUL = false -> span p (l ++ NUL :: r) = span p l.
Proof.
  intros Hp. induction l as [|c l IH]; cbn [app span].
  - now rewrite Hp.
  - now rewrite IH.
Qed.

Lemma drop_nul (n : nat) (l r : list ascii) :
  (n <= length l)%nat -> drop n (l ++ NUL :: r) = drop n l ++ NUL :: r.
Proof. intros H. now apply drop_app_le. Qed.

Lemma take_nul (n : nat) (l r : list ascii) :
  (n <= length l)%nat -> take n (l ++ NUL :: r) = take n l.
Proof. intros H. now apply take_app_le. Qed.

Lemma scan_sign_nul (l r r' : list ascii) :
  scan_sign (l ++ NUL :: r) = scan_sign (l ++ NUL :: r') /\
  (snd (scan_sign (l ++ NUL :: r)) <= length l)%nat.
Proof.
  destruct l as [|c l]; cbn [app scan_sign].
  - split; [reflexivity | cbn; lia].
  - split; [reflexivity|]. destruct (Ascii.eqb c "-"), (Ascii.eqb c "+"); cbn; lia.
Qed.

Lemma strtol_nul {L : libc} (l r r' : list ascii) :
  strtol (l ++ NUL :: r) = strtol (l ++ NUL :: r') /\
  (l_endptr (strtol (l ++ NUL :: r)) <= length l)%nat.
Proof.
  unfold strtol.
  rewrite !(span_nul isspace) by reflexivity.
  pose proof (span_le isspace l) as Hws. set (ws := span isspace l) in *.
  rewrite !drop_nul by assumption.
  assert (Hl1 : (ws + length (drop ws l) = length l)%nat) by (rewrite length_drop; lia).
  set (l1 := drop ws l) in *.
  destruct (scan_sign_nul l1 r r') as [Hs Hb]. rewrite Hs in Hb |- *.
  destruct (scan_sign (l1 ++ NUL :: r')) as [neg sg]. cbn [snd] in Hb.
  rewrite !drop_nul by assumption.
  assert (Hl2 : (sg + length (drop sg l1) = length l1)%nat) by (rewrite length_drop; lia).
  set (l2 := drop sg l1) in *.
  rewrite !(span_nul isdigit) by reflexivity.
  pose proof (span_le isdigit l2) as Hnd. set (nd := span isdigit l2) in *.
  rewrite !take_nul by assumption.
  split; [reflexivity|].
  destruct nd; [cbn; lia|].
  repeat match goal with |- context [if ?b then _ else _] => destruct b end;
    cbn [l_endptr]; lia.
Qed.

Lemma scan_mantissa_nul (isd : ascii -> bool) (l r r' : list ascii) :
  isd NUL = false ->
  scan_mantissa isd (l ++ NUL :: r) = scan_mantissa isd (l ++ NUL :: r') /\
  (snd (scan_mantissa isd (l ++ NUL :: r)) <= length l)%nat.
Proof.
  intros Hisd. unfold scan_mantissa.
  rewrite !(span_nul isd) by assumption.
  pose proof (span_le isd l) as Hn1. set (n1 := span isd l) in *.
  rewrite !drop_nul, !take_nul by assumption.
  assert (Hl1 : (n1 + length (drop n1 l) = length l)%nat) by (rewrite length_drop; lia).
  destruct (drop n1 l) as [|c s2]; cbn [app length] in *.
  - change (Ascii.eqb NUL ".") with false. cbn iota. split; [reflexivity | cbn; lia].
  - destruct (Ascii.eqb c ".").
    + rewrite !(span_nul isd) by assumption.
      pose proof (span_le isd s2) as Hn2.
      rewrite !take_nul by assumption.
      split; [reflexivity | cbn; lia].
    + split; [reflexivity | cbn; lia].
Qed.

Lemma scan_exponent_nul (marker : ascii) (l r r' : list ascii) :
  Ascii.eqb NUL marker = false ->
  scan_exponent marker (l ++ NUL :: r) = scan_exponent marker (l ++ NUL :: r') /\
  (snd (scan_exponent marker (l ++ NUL :: r)) <= length l)%nat.
Proof.
  intros Hm. unfold scan_exponent.
  destruct l as [|c l1]; cbn [app length].
  - change (to_lower NUL) with NUL. rewrite Hm. split; [reflexivity | cbn; lia].
  - destruct (Ascii.eqb (to_lower c) marker); [|split; [reflexivity | cbn; lia]].
    destruct (scan_sign_nul l1 r r') as [Hs Hb]. rewrite Hs in Hb |- *.
    destruct (scan_sign (l1 ++ NUL :: r')) as [eneg sg]. cbn [snd] in Hb.
    rewrite !drop_nul by assumption.
    assert (Hl2 : (sg + length (drop sg l1) = length l1)%nat)
      by (rewrite length_drop; lia).
    set (l2 := drop sg l1) in *.
    rewrite !(span_nul isdigit) by reflexivity.
    pose proof (span_le isdigit l2) as Hn. set (n := span isdigit l2) in *.
    rewrite !take_nul by assumption.
    split; [reflexivity|]. destruct n; cbn [snd]; lia.
Qed.

Lemma scan_decimal_nul (neg : bool) (l r r' : list ascii) :
  scan_decimal neg (l ++ NUL :: r) = scan_decimal neg (l ++ NUL :: r') /\
  (forall v n, scan_decimal neg (l ++ NUL :: r) = Some (v, n) -> (n <= length l)%nat).
Proof.
  unfold scan_decimal.
  destruct (scan_mantissa_nul isdigit l r r' eq_refl) as [Hs Hb]. rewrite Hs in Hb |- *.
  destruct (scan_mantissa isdigit (l ++ NUL :: r')) as [[ip fp] n]. cbn [snd] in Hb.
  rewrite !drop_nul by assumption.
  assert (Hl1 : (n + length (drop n l) = length l)%nat) by (rewrite length_drop; lia).
  destruct (scan_exponent_nul "e" (drop n l) r r' eq_refl) as [He Hbe].
  rewrite He in Hbe |- *.
  destruct (scan_exponent "e" (drop n l ++ NUL :: r')) as [e ne]. cbn [snd] in Hbe.
  split; [reflexivity|].
  intros v k Hk. destruct (ip ++ fp); [discriminate|].
  injection Hk as _ <-. lia.
Qed.

Lemma scan_hex_nul (neg : bool) (l r r' : list ascii) :
  scan_hex neg (l ++ NUL :: r) = scan_hex neg (l ++ NUL :: r') /\
  (forall v n, scan_hex neg (l ++ NUL :: r) = Some (v, n) -> (n <= length l)%nat).
Proof.
  unfold scan_hex.
  destruct l as [|z [|x l1]]; cbn [app length].
  - change (Ascii.eqb NUL "0") with false. cbn [andb].
    split; [destruct r, r'; reflexivity | intros v n; destruct r; discriminate].
  - change (to_lower NUL) with NUL. change (Ascii.eqb NUL "x") with false.
    rewrite andb_false_r. split; [reflexivity | discriminate].
  - destruct (Ascii.eqb z "0" && Ascii.eqb (to_lower x) "x");
      [|split; [reflexivity | discriminate]].
    destruct (scan_mantissa_nul isxdigit l1 r r' eq_refl) as [Hs Hb].
    rewrite Hs in Hb |- *.
    destruct (scan_mantissa isxdigit (l1 ++ NUL :: r')) as [[ip fp] n]. cbn [snd] in Hb.
    rewrite !drop_nul by assumption.
    assert (Hl1 : (n + length (drop n l1) = length l1)%nat) by (rewrite length_drop; lia).
    destruct (scan_exponent_nul "p" (drop n l1) r r' eq_refl) as [He Hbe].
    rewrite He in Hbe |- *.
    destruct (scan_exponent "p" (drop n l1 ++ NUL :: r')) as [e ne]. cbn [snd] in Hbe.
    split; [reflexivity|].
    intros v k Hk. destruct (ip ++ fp); [discriminate|].
    injection Hk as _ <-. lia.
Qed.

Lemma starts_with_ci_nul (pat l r : list ascii) :
  Forall (fun p => Ascii.eqb p NUL = false) pat ->
  starts_with_ci pat (l ++ NUL :: r) = starts_with_ci pat l /\
  (starts_with_ci pat l = true -> (length pat <= length l)%nat).
Proof.
  intros Hpat. revert l. induction Hpat as [|p pat Hp _ IH]; intros l.
  - destruct l; cbn; split; (reflexivity || lia).
  - destruct l as [|c l]; cbn [app starts_with_ci length].
    + change (to_lower NUL) with NUL. rewrite Hp. split; [reflexivity | discriminate].
    + destruct (IH l) as [H1 H2]. rewrite H1. split; [reflexivity|].
      intros H. apply andb_true_iff in H as [_ H]. specialize (H2 H). lia.
Qed.

Lemma scan_special_nul (neg : bool) (l r r' : list ascii) :
  scan_special neg (l ++ NUL :: r) = scan_special neg (l ++ NUL :: r') /\
  (forall v n, scan_special neg (l ++ NUL :: r) = Some (v, n) -> (n <= length l)%nat).
Proof.
  unfold scan_special.
  destruct (starts_with_ci_nul (list_ascii_of_string "infinity") l r
              ltac:(repeat constructor)) as [E1 B1].
  destruct (starts_with_ci_nul (list_ascii_of_string "infinity") l r'
              ltac:(repeat constructor)) as [E1' _].
  destruct (starts_with_ci_nul (list_ascii_of_string "inf") l r
              ltac:(repeat constructor)) as [E2 B2].
  destruct (starts_with_ci_nul (list_ascii_of_string "inf") l r'
              ltac:(repeat constructor)) as [E2' _].
  destruct (starts_with_ci_nul (list_ascii_of_string "nan") l r
              ltac:(repeat constructor)) as [E3 B3].
  destruct (starts_with_ci_nul (list_ascii_of_string "nan") l r'
              ltac:(repeat constructor)) as [E3' _].
  rewrite E1, E1', E2, E2', E3, E3'.
  destruct (starts_with_ci (list_ascii_of_string "infinity") l).
  { specialize (B1 eq_refl). cbn [length list_ascii_of_string] in B1.
    split; [reflexivity|]. intros v n H. injection H as _ <-. exact B1. }
  destruct (starts_with_ci (list_ascii_of_string "inf") l).
  { specialize (B2 eq_refl). cbn [length list_ascii_of_string] in B2.
    split; [reflexivity|]. intros v n H. injection H as _ <-. exact B2. }
  destruct (starts_with_ci (list_ascii_of_string "nan") l);
    [|split; [reflexivity | discriminate]].
  specialize (B3 eq_refl). cbn [length list_ascii_of_string] in B3.
  rewrite !drop_nul by assumption.
  assert (Hl1 : (3 + length (drop 3 l) = length l)%nat) by (rewrite length_drop; lia).
  destruct (drop 3 l) as [|c s']; cbn [app length] in *.
  { change (Ascii.eqb NUL "(") with false. cbn iota.
    split; [reflexivity|]. intros v n H. injection H as _ <-. exact B3. }
  destruct (Ascii.eqb c "(");
    [|split; [reflexivity|]; intros v n H; injection H as _ <-; exact B3].
  rewrite !(span_nul is_nchar) by reflexivity.
  pose proof (span_le is_nchar s') as Hn. set (n := span is_nchar s') in *.
  rewrite !drop_nul by assumption.
  assert (Hl2 : (n + length (drop n s') = length s')%nat) by (rewrite length_drop; lia).
  destruct (drop n s') as [|c' s'']; cbn [app length] in *.
  { change (Ascii.eqb NUL ")") with false. cbn iota.
    split; [reflexivity|]. intros v k H. injection H as _ <-. exact B3. }
  destruct (Ascii.eqb c' ")"); split; try reflexivity;
    intros v k H; injection H as _ <-; lia.
Qed.

Lemma scan_subject_nul (neg : bool) (l r r' : list ascii) :
  scan_subject neg (l ++ NUL :: r) = scan_subject neg (l ++ NUL :: r') /\
  (forall v n, scan_subject neg (l ++ NUL :: r) = Some (v, n) -> (n <= length l)%nat).
Proof.
  unfold scan_subject.
  destruct (scan_hex_nul neg l r r') as [Eh Bh].
  destruct (scan_special_nul neg l r r') as [Es Bs].
  destruct (scan_decimal_nul neg l r r') as [Ed Bd].
  rewrite <- Eh, <- Es, <- Ed. split; [reflexivity|].
  intros v n.
  destruct (scan_hex neg (l ++ NUL :: r)) as [[v1 n1]|].
  { intros H. injection H as <- <-. exact (Bh _ _ eq_refl). }
  destruct (scan_special neg (l ++ NUL :: r)) as [[v2 n2]|].
  { intros H. injection H as <- <-. exact (Bs _ _ eq_refl). }
  apply Bd.
Qed.

Lemma strtod_nul {L : libc} (l r r' : list ascii) :
  strtod (l ++ NUL :: r) = strtod (l ++ NUL :: r') /\
  (d_endptr (strtod (l ++ NUL :: r)) <= length l)%nat.
Proof.
  unfold strtod.
  rewrite !(span_nul isspace) by reflexivity.
  pose proof (span_le isspace l) as Hws. set (ws := span isspace l) in *.
  rewrite !drop_nul by assumption.
  assert (Hl1 : (ws + length (drop ws l) = length l)%nat) by (rewrite length_drop; lia).
  set (l1 := drop ws l) in *.
  destruct (scan_sign_nul l1 r r') as [Hs Hb]. rewrite Hs in Hb |- *.
  destruct (scan_sign (l1 ++ NUL :: r')) as [neg sg]. cbn [snd] in Hb.
  rewrite !drop_nul by assumption.
  assert (Hl2 : (sg + length (drop sg l1) = length l1)%nat) by (rewrite length_drop; lia).
  destruct (scan_subject_nul neg (drop sg l1) r r') as [Ej Bj]. rewrite <- Ej.
  split; [reflexivity|].
  destruct (scan_subject neg (drop sg l1 ++ NUL :: r)) as [[v n]|]; [|cbn; lia].
  specialize (Bj v n eq_refl).
  destruct (dbl_overflows v); [cbn; lia|].
  destruct (dbl_underflows v); cbn; lia.
Qed.

Lemma deref_nul (l r : list ascii) (e : nat) :
  (e <= length l)%nat -> deref (l ++ NUL :: r) e = deref (null_terminated l) e.
Proof.
  intros He. unfold deref, null_terminated.
  destruct (Nat.eq_dec e (length l)) as [->|Hne].
  - replace (length l) with (length l + 0)%nat by lia.
    now rewrite !app_nth2_plus.
  - rewrite !app_nth1 by lia. reflexivity.
Qed.

(** The decoders see a payload only up to its first NUL byte: as long as
    the whole buffer is within the length limit, the bytes from the NUL on
    do not change the result. *)
Lemma read_data_float64_after_nul {L : libc} (lit rest : list uint8_t) :
  (length (lit ++ NUL :: rest) <= FLOAT64_STR_MAXLEN)%nat ->
  read_data_float64 (lit ++ NUL :: rest) = read_data_float64 lit.
Proof.
  intros Hlen. rewrite length_app in Hlen. cbn [length] in Hlen.
  unfold read_data_float64. cbv zeta.
  destruct (Nat.ltb_spec FLOAT64_STR_MAXLEN (length (lit ++ NUL :: rest)));
    [rewrite length_app in *; cbn [length] in *; lia|].
  destruct (Nat.ltb_spec FLOAT64_STR_MAXLEN (length lit)); [lia|].
  assert (Hnt : null_terminated (lit ++ NUL :: rest) = lit ++ NUL :: (rest ++ [NUL]))
    by (unfold null_terminated; now rewrite <- app_assoc).
  rewrite Hnt.
  destruct (strtod_nul lit (rest ++ [NUL]) []) as [Heq Hb].
  rewrite Heq in Hb |- *. fold (null_terminated lit) in *.
  rewrite deref_nul by assumption. reflexivity.
Qed.

Lemma read_data_int32_after_nul {L : libc} (lit rest : list uint8_t) :
  (length (lit ++ NUL :: rest) <= INT32_STR_MAXLEN)%nat ->
  read_data_int32 (lit ++ NUL :: rest) = read_data_int32 lit.
Proof.
  intros Hlen. rewrite length_app in Hlen. cbn [length] in Hlen.
  unfold read_data_int32. cbv zeta.
  destruct (Nat.ltb_spec INT32_STR_MAXLEN (length (lit ++ NUL :: rest)));
    [rewrite length_app in *; cbn [length] in *; lia|].
  destruct (Nat.ltb_spec INT32_STR_MAXLEN (length lit)); [lia|].
  assert (Hnt : null_terminated (lit ++ NUL :: rest) = lit ++ NUL :: (rest ++ [NUL]))
    by (unfold null_terminated; now rewrite <- app_assoc).
  rewrite Hnt.
  destruct (strtol_nul lit (rest ++ [NUL]) []) as [Heq Hb].
  rewrite Heq in Hb |- *. fold (null_terminated lit) in *.
  rewrite deref_nul by assumption. reflexivity.
Qed.

(** C10 (amended): on the empty buffer [strtod] performs no conversion:
    it returns zero with [endptr] at the start of the string, which is
    its terminator, and [errno] is as the C library has it. The Float64
    decoder therefore succeeds with the value zero when the library
    leaves [errno] at 0, as glibc does, and reports a decode failure,
    with its one entry at info severity, when the library stores a value
    there, as musl does. *)
Theorem read_data_float64_empty_by_libc (L : libc) :
  strtod (null_terminated [])
    = {| dbl_val := dbl_zero; d_endptr := O; d_errno := no_conversion_errno |} /\
  deref (null_terminated []) O = NUL /\
  read_data_float64 [] =
    if no_conversion_errno =? 0 then (Some (IOT_DATA_FLOAT64 dbl_zero), [])
    else (None, [EvLog IOT_LOG_INFO "invalid float64 of len %u"]).
Proof.
  split; [reflexivity|]. split; [reflexivity|].
  unfold read_data_float64. cbn [length Nat.ltb Nat.leb].
  change (strtod (null_terminated []))
    with {| dbl_val := dbl_zero; d_endptr := O; d_errno := no_conversion_errno |}.
  cbn [d_errno d_endptr dbl_val].
  change (is_nul (deref (null_terminated []) 0)) with true.
  now destruct (no_conversion_errno =? 0).
Qed.

(** C10 (the claim as stated, on the service as it is built): with musl,
    the C library of the Alpine image, [strtod] stores [EINVAL] when it
    converts nothing, and the Float64 decoder reports a decode failure
    for the empty buffer instead of returning 0.0. *)
Theorem read_data_float64_empty_rejected :
  d_errno (@strtod musl (null_terminated [])) = EINVAL /\
  @read_data_float64 musl [] = (None, [EvLog IOT_LOG_INFO "invalid float64 of len %u"]) /\
  fst (@read_data_float64 musl []) <> Some (IOT_DATA_FLOAT64 dbl_zero).
Proof. repeat split. discriminate. Qed.

(** C6 (the code at the failing input): the 5-byte buffer "1.5", NUL, "x"
    is within the length limit; [strtod] stops after three characters, at
    the embedded NUL, so that [*endptr] is NUL although two bytes of the
    buffer were not consumed, and the decoder returns the value 1.5. *)
Theorem read_data_float64_embedded_nul :
  let data := bytes "1.5" ++ NUL :: bytes "x" in
  length data = 5%nat /\
  d_endptr (strtod (null_terminated data)) = 3%nat /\
  d_errno (strtod (null_terminated data)) = 0 /\
  read_data_float64 data = (Some (IOT_DATA_FLOAT64 (DFinite false 15 10 (-1))), []).
Proof. vm_compute. repeat split. Qed.

(** ** The path router *)

Lemma parse_path_outcome (svc : devsdk_service_t) (request : coap_pdu_t) :
  path_outcome svc (fst (parse_path svc request)) (snd (parse_path svc request)).
Proof.
  unfold parse_path, edgex_get_device_byname, edgex_free_device,
    iot_log_info, iot_log_debug, emit.
  repeat (match goal with
          | |- context [strtok ?s] => destruct (strtok s) as [[?|] ?]
          | |- context [negb (String.eqb ?a ?b)] => destruct (String.eqb a b)
          | |- context [devices ?s !! ?n] => destruct (devices s !! n) eqn:?
          | |- context [scan_profiles ?a ?b ?c] => destruct (scan_profiles a b c)
          end; cbn);
    econstructor; eassumption.
Qed.

(** The outer loop keeps the result of its last iteration only. *)
Lemma scan_profiles_last (ps : list edgex_deviceprofile) (p : edgex_deviceprofile)
    (resource : option edgex_deviceresource) (seg : string) :
  scan_profiles (ps ++ [p]) resource seg = scan_resources (device_resources p) seg.
Proof.
  revert resource. induction ps as [|q ps IH]; intros resource; cbn; [reflexivity|].
  apply IH.
Qed.

(** C1 (the code at the failing input): "device-1" has the resource "temp"
    in the first profile of its chain and none of that name in the last
    one; for the path "a1r/device-1/temp" the router reports that the
    resource was not found, frees the device and fails. *)
Theorem parse_path_misses_earlier_profile :
  devices example_service !! "device-1" = Some device_1 /\
  (exists p, In p (profile device_1) /\ In temp (device_resources p)) /\
  parse_path example_service (post_request "a1r/device-1/temp" None None)
    = (None, [EvLog IOT_LOG_DEBUG "URI %s";
              EvGetDevice "device-1" (Some "device-1");
              EvLog IOT_LOG_INFO "resource not found: %s";
              EvFreeDevice (Some "device-1")]).
Proof.
  split; [reflexivity|]. split; [|reflexivity].
  eexists. split; [left; reflexivity | left; reflexivity].
Qed.

(** [strtok] walks through the non-empty segments of the path. *)
Lemma split_token_spec (s : string) :
  exists ps, split_slash s = fst (split_token s) :: ps /\
             segments (snd (split_token s)) =
               List.filter (fun p => negb (String.eqb p "")) ps.
Proof.
  induction s as [|c s (ps & Hs & Hr)]; cbn [split_token split_slash].
  - exists []. split; reflexivity.
  - destruct (is_delim c).
    + exists (split_slash s). split; reflexivity.
    + destruct (split_token s) as [tok rest]. cbn [fst snd] in *.
      exists ps. rewrite Hs. split; [reflexivity | exact Hr].
Qed.

Lemma strtok_spec (s : string) :
  exists saved, strtok s = (hd_error (segments s), saved) /\
                segments saved = tl (segments s).
Proof.
  unfold strtok.
  induction s as [|c s (saved & Hs & Hr)]; cbn [skip_delims].
  - exists EmptyString. split; reflexivity.
  - destruct (is_delim c) eqn:Hc.
    + exists saved. unfold segments in *. cbn [split_slash]. rewrite Hc.
      cbn [List.filter String.eqb negb]. split; assumption.
    + destruct (split_token_spec (String c s)) as (ps & Hp & Hq).
      destruct (split_token (String c s)) as [tok rest] eqn:Ht.
      cbn [fst snd] in *. exists rest.
      assert (Htok : exists t, tok = String c t).
      { cbn [split_token] in Ht. rewrite Hc in Ht.
        destruct (split_token s). inversion Ht. eexists; reflexivity. }
      destruct Htok as [t ->].
      unfold segments at 1 3. rewrite Hp. cbn [List.filter String.eqb negb hd_error tl].
      split; [reflexivity | exact Hq].
Qed.

(** The result of the router in terms of the segments of the path. *)
Lemma parse_path_spec (svc : devsdk_service_t) (request : coap_pdu_t) :
  fst (parse_path svc request) =
    match segments (uri_path request) with
    | [s1; s2; s3] =>
        if String.eqb s1 RESOURCE_SEG1 then
          match devices svc !! s2 with
          | Some device =>
              match scan_profiles (profile device) None s3 with
              | Some resource => Some (device, resource)
              | None => None
              end
          | None => None
          end
        else None
    | _ => None
    end.
Proof.
  unfold parse_path, edgex_get_device_byname.
  destruct (strtok_spec (uri_path request)) as (sv0 & E0 & S0). rewrite E0.
  destruct (segments (uri_path request)) as [|s1 l1]; cbn [hd_error tl] in *;
    [reflexivity|].
  destruct (String.eqb s1 RESOURCE_SEG1); cbn [negb];
    [|destruct l1 as [|? [|? [|? ?]]]; reflexivity].
  destruct (strtok_spec sv0) as (sv1 & E1 & S1). rewrite E1, S0 in *. clear E1 S0.
  destruct l1 as [|s2 l2]; cbn [hd_error tl] in *; [reflexivity|].
  destruct (devices svc !! s2) as [device|];
    [|destruct l2 as [|? [|? ?]]; reflexivity].
  destruct (strtok_spec sv1) as (sv2 & E2 & S2). rewrite S1 in *. clear S1.
  cbn [io_bind emit io_ret fst snd app]. rewrite E2.
  destruct l2 as [|s3 l3]; cbn [hd_error tl] in *; [reflexivity|].
  destruct (scan_profiles (profile device) None s3) as [resource|];
    [|destruct l3; reflexivity].
  destruct (strtok_spec sv2) as (sv3 & E3 & S3). rewrite E3, S2.
  destruct l3; reflexivity.
Qed.

(** A resource of the last profile of the chain is found. *)
Lemma parse_path_routes_last_profile (svc : devsdk_service_t) (request : coap_pdu_t)
    (s2 s3 : string) (device : edgex_device) (ps : list edgex_deviceprofile)
    (p : edgex_deviceprofile) (resource : edgex_deviceresource) :
  segments (uri_path request) = [RESOURCE_SEG1; s2; s3] ->
  devices svc !! s2 = Some device ->
  profile device = ps ++ [p] ->
  scan_resources (device_resources p) s3 = Some resource ->
  fst (parse_path svc request) = Some (device, resource).
Proof.
  intros Hseg Hdev Hchain Hres.
  rewrite parse_path_spec, Hseg, Hdev, Hchain, scan_profiles_last, Hres.
  reflexivity.
Qed.

Lemma handles_balanced_failure (svc : devsdk_service_t) (t : list event) :
  path_outcome svc None t -> handles_balanced t.
Proof.
  intros H. inversion H; subst; split; try intros h; cbn; try lia.
  destruct (String.eqb (device_name d) h); reflexivity.
Qed.

(** C4 (as amended): a path whose non-empty segments, the tokens [strtok]
    delimits (empty pieces at a leading, trailing or doubled "/" are
    skipped), are not exactly three with the first equal to the tag is a
    routing failure, [parse_path] returns false; that covers further
    segments after three valid ones. The device handle is freed if one
    was acquired. *)
Theorem parse_path_rejects_malformed (svc : devsdk_service_t) (request : coap_pdu_t) :
  (forall s2 s3, segments (uri_path request) <> [RESOURCE_SEG1; s2; s3]) ->
  fst (parse_path svc request) = None /\
  handles_balanced (snd (parse_path svc request)).
Proof.
  intros Hseg.
  assert (Hnone : fst (parse_path svc request) = None).
  { rewrite parse_path_spec.
    destruct (segments (uri_path request)) as [|s1 [|s2 [|s3 [|s4 l]]]];
      try reflexivity.
    destruct (String.eqb_spec s1 RESOURCE_SEG1) as [->|]; [|reflexivity].
    exfalso. exact (Hseg s2 s3 eq_refl). }
  split; [exact Hnone|].
  pose proof (parse_path_outcome svc request) as Hout. rewrite Hnone in Hout.
  exact (handles_balanced_failure svc _ Hout).
Qed.

Lemma parse_path_rejects_malformed_witness :
  let request := post_request "a1r/device-2/temp/extra" None None in
  (forall s2 s3, segments (uri_path request) <> [RESOURCE_SEG1; s2; s3]) /\
  fst (parse_path example_service request) = None /\
  handles_balanced (snd (parse_path example_service request)).
Proof.
  cbv zeta.
  assert (Hseg : forall s2 s3,
             segments (uri_path (post_request "a1r/device-2/temp/extra" None None))
               <> [RESOURCE_SEG1; s2; s3])
    by (intros s2 s3; vm_compute; discriminate).
  split; [exact Hseg|].
  exact (parse_path_rejects_malformed example_service _ Hseg).
Defined.

(** C4 (counterexample to the claim as stated): "a1r//device-2/temp" has
    four "/"-separated segments, the second one empty, and the router
    accepts it. *)
Lemma parse_path_accepts_empty_segment :
  split_slash "a1r//device-2/temp" = ["a1r"; ""; "device-2"; "temp"]%string /\
  ~ three_segment_path "a1r//device-2/temp" /\
  fst (parse_path example_service (post_request "a1r//device-2/temp" None None))
    = Some (device_2, temp).
Proof.
  split; [reflexivity|]. split; [|reflexivity].
  intros (s2 & s3 & H & _). vm_compute in H. discriminate H.
Qed.

(** ** The request handler *)

Lemma read_payload_outcome {L : libc} (request : coap_pdu_t) (resource : edgex_deviceresource) :
  payload_outcome request resource
    (fst (read_payload request resource)) (snd (read_payload request resource)).
Proof.
  unfold read_payload, coap_get_data.
  destruct (data request) as [payload|] eqn:Hdata; [|cbn; now constructor].
  assert (Hsome : data request <> None) by congruence. clear Hdata.
  destruct (properties_type resource).
  - destruct (negb _); [cbn; now constructor|].
    destruct (read_data_float64_cases payload) as [H|[d H]]; rewrite H; cbn;
      now constructor.
  - destruct (negb _); [cbn; now constructor|].
    destruct (read_data_int32_cases payload) as [H|[i H]]; rewrite H; cbn;
      now constructor.
  - destruct (negb _ && negb _); cbn; now constructor.
  - cbn. now constructor.
Qed.

(** One goal for every way through [data_handler], the trace written
    out. *)
Ltac handler_paths svc request :=
  unfold data_handler;
  destruct (Z.eqb_spec (code request) COAP_REQUEST_PUT) as [Hput|Hput];
  [ | let Hpath := fresh "Hpath" in
      pose proof (parse_path_outcome svc request) as Hpath;
      destruct (parse_path svc request) as [routed tp]; cbn [fst snd] in Hpath;
      inversion Hpath; subst; clear Hpath; cbn [io_bind];
      [ match goal with
        | |- context [read_payload ?rq ?r] =>
            let Hpay := fresh "Hpay" in
            pose proof (read_payload_outcome rq r) as Hpay;
            destruct (read_payload rq r) as [stage ts]; cbn [fst snd] in Hpay;
            inversion Hpay; subst; clear Hpay
        end | .. ] ];
  cbn [io_bind io_ret emit edgex_free_device devsdk_post_readings iot_data_free
       fst snd app fmap option_fmap option_map code data set_code coap_add_data].

Lemma response_codes :
  COAP_RESPONSE_CODE 204 = 68 /\ COAP_RESPONSE_CODE 400 = 128 /\
  COAP_RESPONSE_CODE 404 = 132 /\ COAP_RESPONSE_CODE 405 = 133 /\
  COAP_RESPONSE_CODE 415 = 143 /\ COAP_RESPONSE_CODE 500 = 160.
Proof. repeat split. Qed.

(** C8: a PUT request gets the response code 4.05 and the handler returns
    at once: no collaborator is called, so no path is parsed, no device
    looked up, nothing decoded, published or logged. *)
Theorem data_handler_put_not_allowed {L : libc} (svc : devsdk_service_t)
    (request response : coap_pdu_t) :
  code request = COAP_REQUEST_PUT ->
  data_handler svc request response
    = (set_code response (COAP_RESPONSE_CODE 405), []).
Proof.
  intros Hput. unfold data_handler. rewrite Hput. reflexivity.
Qed.

Lemma data_handler_put_not_allowed_witness :
  let request := {| code := COAP_REQUEST_PUT; uri_path := "a1r/device-2/temp";
                    content_format_opt := Some []; data := Some (bytes "23.5") |} in
  code request = COAP_REQUEST_PUT /\
  data_handler example_service request empty_response
    = (set_code empty_response (COAP_RESPONSE_CODE 405), []).
Proof.
  split; [reflexivity|].
  apply data_handler_put_not_allowed. reflexivity.
Defined.

(** C3: on every way through the handler each device handle handed out
    by the registry is freed exactly once (as often as it was handed out,
    and at most one is), and the publisher is called exactly once when
    the response is 2.04 and not at all otherwise. *)
Theorem data_handler_release_and_publish {L : libc} (svc : devsdk_service_t)
    (request response : coap_pdu_t) :
  handles_balanced (snd (data_handler svc request response)) /\
  published (snd (data_handler svc request response)) =
    if code (fst (data_handler svc request response)) =? COAP_RESPONSE_CODE 204
    then 1%nat else 0%nat.
Proof.
  handler_paths svc request;
    (split;
     [split;
      [intros h; cbn;
       repeat match goal with
              | |- context [String.eqb ?a ?b] => destruct (String.eqb a b)
              end; reflexivity
      | cbn; lia]
     | reflexivity]).
Qed.

(** The end-to-end scenarios: a reading that is published, a payload with
    trailing garbage, a content format the kind does not accept, and an
    unknown device. *)
Example scenario_published :
  data_handler example_service
    (post_request "a1r/device-2/temp" (Some []) (Some (bytes "23.5"))) empty_response
  = (set_code empty_response (COAP_RESPONSE_CODE 204),
     [EvLog IOT_LOG_DEBUG "URI %s"; EvGetDevice "device-2" (Some "device-2");
      EvPostReadings "device-2" "temp" (IOT_DATA_FLOAT64 (DFinite false 235 10 (-1)));
      EvDataFree (IOT_DATA_FLOAT64 (DFinite false 235 10 (-1)));
      EvFreeDevice (Some "device-2")]).
Proof. reflexivity. Qed.

Example scenario_payload_not_valid :
  data_handler example_service
    (post_request "a1r/device-2/temp" (Some []) (Some (bytes "23.5x"))) empty_response
  = (coap_add_data (set_code empty_response (COAP_RESPONSE_CODE 400))
       (bytes "payload not valid"),
     [EvLog IOT_LOG_DEBUG "URI %s"; EvGetDevice "device-2" (Some "device-2");
      EvLog IOT_LOG_INFO "invalid float64 of len %u";
      EvFreeDevice (Some "device-2")]).
Proof. reflexivity. Qed.

Example scenario_unsupported_media_type :
  data_handler example_service
    (post_request "a1r/device-2/temp" (Some [ascii_of_nat 50]) (Some (bytes "23.5")))
    empty_response
  = (set_code empty_response (COAP_RESPONSE_CODE 415),
     [EvLog IOT_LOG_DEBUG "URI %s"; EvGetDevice "device-2" (Some "device-2");
      EvFreeDevice (Some "device-2")]).
Proof. reflexivity. Qed.

Example scenario_unknown_device :
  data_handler example_service
    (post_request "a1r/unknown-device/temp" (Some []) (Some (bytes "23.5")))
    empty_response
  = (set_code empty_response (COAP_RESPONSE_CODE 404),
     [EvLog IOT_LOG_DEBUG "URI %s"; EvGetDevice "unknown-device" None;
      EvLog IOT_LOG_INFO "device not found: %s"; EvFreeDevice None;
      EvFreeDevice None]).
Proof. reflexivity. Qed.

(** C2 (as amended): for a request without payload that passes the method
    check, the content format is not looked at. If routing fails the
    response is 4.04; otherwise, whatever the declared content format and
    the resource's kind, the absence is logged at info severity and the
    response is 4.00 with the body "payload not valid". The response is
    never 4.15 and nothing is published. *)
Theorem data_handler_absent_payload {L : libc} (svc : devsdk_service_t)
    (request response : coap_pdu_t) :
  code request <> COAP_REQUEST_PUT ->
  data request = None ->
  let r := fst (data_handler svc request response) in
  let t := snd (data_handler svc request response) in
  match fst (parse_path svc request) with
  | None => code r = COAP_RESPONSE_CODE 404
  | Some _ =>
      code r = COAP_RESPONSE_CODE 400 /\
      data r = Some (bytes MSG_PAYLOAD_INVALID) /\
      In (EvLog IOT_LOG_INFO "invalid data of len %u") t
  end /\
  code r <> COAP_RESPONSE_CODE 415 /\
  published t = 0%nat.
Proof.
  intros Hmethod Hdata. cbv zeta.
  unfold data_handler.
  destruct (Z.eqb_spec (code request) COAP_REQUEST_PUT) as [|_]; [contradiction|].
  destruct (parse_path svc request) as [[[device resource]|] tp] eqn:Hp;
    cbn [io_bind fst snd].
  - pose proof (parse_path_outcome svc request) as Hout. rewrite Hp in Hout.
    cbn [fst snd] in Hout. inversion Hout; subst.
    unfold read_payload, coap_get_data. rewrite Hdata. cbn.
    repeat split; try discriminate; auto.
  - pose proof (parse_path_outcome svc request) as Hout. rewrite Hp in Hout.
    cbn [fst snd] in Hout.
    inversion Hout; subst; cbn; repeat split; discriminate.
Qed.

Lemma data_handler_absent_payload_witness :
  let request := post_request "a1r/device-2/temp" (Some []) None in
  let r := fst (data_handler example_service request empty_response) in
  code request <> COAP_REQUEST_PUT /\
  data request = None /\
  code r = COAP_RESPONSE_CODE 400 /\
  data r = Some (bytes MSG_PAYLOAD_INVALID).
Proof.
  cbv zeta.
  assert (Hm : code (post_request "a1r/device-2/temp" (Some []) None)
               <> COAP_REQUEST_PUT) by discriminate.
  pose proof (data_handler_absent_payload example_service
                (post_request "a1r/device-2/temp" (Some []) None)
                empty_response Hm eq_refl) as H.
  cbv zeta in H. destruct H as [H _].
  change (fst (parse_path example_service
                 (post_request "a1r/device-2/temp" (Some []) None)))
    with (Some (device_2, temp)) in H.
  destruct H as (Hc & Hd & _).
  repeat split; assumption.
Defined.

(** C2 (counterexample to the claim as stated): a request without
    payload for a Float64 resource that declares the JSON content format,
    which the kind does not accept, is answered with 4.00, not 4.15. *)
Lemma absent_payload_not_unsupported_media_type :
  let request := post_request "a1r/device-2/temp" (Some [ascii_of_nat 50]) None in
  let r := fst (data_handler example_service request empty_response) in
  data request = None /\
  read_content_format request = COAP_MEDIATYPE_APPLICATION_JSON /\
  fst (parse_path example_service request) = Some (device_2, temp) /\
  properties_type temp = Edgex_Float64 /\
  code r = COAP_RESPONSE_CODE 400 /\
  code r <> COAP_RESPONSE_CODE 415.
Proof. cbv zeta. repeat split. discriminate. Qed.

(** C9 (as amended): when the response is 4.04 (malformed path, device or
    resource not found) or 4.00 (payload absent or not decodable) the
    handler has logged at info severity and not at error severity; when
    it is 4.05 (wrong method) or 4.15 (wrong or missing content format)
    it has logged at neither of the two; when it is 5.00 (unsupported
    kind of the resource) it has logged at error severity, and not at
    info severity. *)
Theorem data_handler_log_severity {L : libc} (svc : devsdk_service_t)
    (request response : coap_pdu_t) :
  let r := fst (data_handler svc request response) in
  let t := snd (data_handler svc request response) in
  (code r = COAP_RESPONSE_CODE 404 \/ code r = COAP_RESPONSE_CODE 400 ->
   logged IOT_LOG_INFO t = true /\ logged IOT_LOG_ERROR t = false) /\
  (code r = COAP_RESPONSE_CODE 405 \/ code r = COAP_RESPONSE_CODE 415 ->
   logged IOT_LOG_INFO t = false /\ logged IOT_LOG_ERROR t = false) /\
  (code r = COAP_RESPONSE_CODE 500 ->
   logged IOT_LOG_ERROR t = true /\ logged IOT_LOG_INFO t = false).
Proof.
  cbv zeta.
  handler_paths svc request;
    (split; [|split]); intros Hcode;
    solve [ split; reflexivity
          | destruct Hcode as [Hcode|Hcode]; discriminate Hcode
          | discriminate Hcode ].
Qed.

Lemma data_handler_log_severity_witness :
  let unknown := post_request "a1r/device-9/temp" (Some []) (Some (bytes "1")) in
  let json := post_request "a1r/device-2/temp" (Some [ascii_of_nat 50]) (Some (bytes "1")) in
  let valve := post_request "a1r/device-2/valve" (Some []) (Some (bytes "1")) in
  let outcome request := data_handler example_service request empty_response in
  (code (fst (outcome unknown)) = COAP_RESPONSE_CODE 404 /\
   logged IOT_LOG_INFO (snd (outcome unknown)) = true /\
   logged IOT_LOG_ERROR (snd (outcome unknown)) = false) /\
  (code (fst (outcome json)) = COAP_RESPONSE_CODE 415 /\
   logged IOT_LOG_INFO (snd (outcome json)) = false /\
   logged IOT_LOG_ERROR (snd (outcome json)) = false) /\
  (code (fst (outcome valve)) = COAP_RESPONSE_CODE 500 /\
   logged IOT_LOG_ERROR (snd (outcome valve)) = true /\
   logged IOT_LOG_INFO (snd (outcome valve)) = false).
Proof.
  cbv zeta. split; [|split].
  - split; [reflexivity|].
    apply (proj1 (data_handler_log_severity example_service
             (post_request "a1r/device-9/temp" (Some []) (Some (bytes "1")))
             empty_response)).
    left. reflexivity.
  - split; [reflexivity|].
    apply (proj1 (proj2 (data_handler_log_severity example_service
             (post_request "a1r/device-2/temp" (Some [ascii_of_nat 50]) (Some (bytes "1")))
             empty_response))).
    right. reflexivity.
  - split; [reflexivity|].
    apply (proj2 (proj2 (data_handler_log_severity example_service
             (post_request "a1r/device-2/valve" (Some []) (Some (bytes "1")))
             empty_response))).
    reflexivity.
Defined.

(** C9 (counterexample to the claim as stated): a request for a resource
    of an unsupported kind is answered with 5.00 and logged at error
    severity, with no entry at info severity. *)
Lemma unsupported_kind_logged_as_error :
  let request := post_request "a1r/device-2/valve" (Some []) (Some (bytes "1")) in
  code (fst (data_handler example_service request empty_response))
    = COAP_RESPONSE_CODE 500 /\
  snd (data_handler example_service request empty_response)
    = [EvLog IOT_LOG_DEBUG "URI %s"; EvGetDevice "device-2" (Some "device-2");
       EvLog IOT_LOG_ERROR "unsupported resource type %d";
       EvFreeDevice (Some "device-2")] /\
  logged IOT_LOG_ERROR (snd (data_handler example_service request empty_response)) = true /\
  logged IOT_LOG_INFO (snd (data_handler example_service request empty_response)) = false.
Proof. cbv zeta. repeat split. Qed.

(** ** The init callback *)

Lemma driver_config_lookup (configured : gmap string string) (key : string) :
  driver_config configured !! key =
    match configured !! key with
    | Some v => Some v
    | None => driver_map !! key
    end.
Proof.
  unfold driver_config. rewrite lookup_union.
  destruct (configured !! key), (driver_map !! key); reflexivity.
Qed.

Lemma driver_config_bind_addr (configured : gmap string string) :
  exists addr, driver_config configured !! COAP_BIND_ADDR_KEY = Some addr.
Proof.
  rewrite driver_config_lookup.
  destruct (configured !! COAP_BIND_ADDR_KEY); eexists; reflexivity.
Qed.

(** Without the defaults a missing key text is passed to [strlen] as
    NULL: the model has no result there. *)
Lemma coap_init_psk_key_null (b64 : string -> option (list uint8_t))
    (impl : coap_driver) (config : gmap string string) :
  config !! SECURITY_MODE_KEY = Some "PSK"%string ->
  config !! PSK_KEY_KEY = None ->
  coap_init b64 impl config = None.
Proof.
  intros Hm Hk. unfold coap_init, iot_data_string_map_get_string.
  rewrite Hm. cbn. rewrite Hk. reflexivity.
Qed.

(** C7: with the configuration the SDK hands to [coap_init] (the defaults
    of [main], overridden by what is configured), initialization returns
    false when the security mode text is neither "PSK" nor "NoSec"; it
    returns false when the mode is "PSK" and the key text is not
    configured or is empty; and when the mode is "NoSec" it goes on and
    returns true with no key. *)
Theorem coap_init_config_loaded (b64 : string -> option (list uint8_t))
    (impl : coap_driver) (configured : gmap string string) :
  let config := driver_config configured in
  (forall text, config !! SECURITY_MODE_KEY = Some text ->
     text <> "PSK"%string -> text <> "NoSec"%string ->
     exists driver,
       coap_init b64 impl config
         = Some ((false, driver), [EvLog IOT_LOG_ERROR "Unknown security mode"]) /\
       security_mode driver = SECURITY_MODE_UNKNOWN /\ psk_key driver = None) /\
  (config !! SECURITY_MODE_KEY = Some "PSK"%string ->
   configured !! PSK_KEY_KEY = None \/ configured !! PSK_KEY_KEY = Some ""%string ->
     exists driver,
       coap_init b64 impl config
         = Some ((false, driver), [EvLog IOT_LOG_ERROR "PSK key not in configuration"]) /\
       security_mode driver = SECURITY_MODE_PSK /\ psk_key driver = None) /\
  (config !! SECURITY_MODE_KEY = Some "NoSec"%string ->
     exists driver,
       coap_init b64 impl config
         = Some ((true, driver), [EvLog IOT_LOG_DEBUG "Init complete"]) /\
       security_mode driver = SECURITY_MODE_NOSEC /\ psk_key driver = None).
Proof.
  cbv zeta. unfold coap_init, iot_data_string_map_get_string. repeat split.
  - intros text Hm Hpsk Hnosec. rewrite Hm. cbn [find_security_mode].
    destruct (String.eqb_spec text "PSK"); [contradiction|].
    destruct (String.eqb_spec text "NoSec"); [contradiction|].
    eexists. repeat split.
  - intros Hm Hkey. rewrite Hm. cbn [find_security_mode String.eqb Ascii.eqb].
    cbn.
    assert (Hk : driver_config configured !! PSK_KEY_KEY = Some ""%string).
    { rewrite driver_config_lookup. destruct Hkey as [->| ->]; reflexivity. }
    rewrite Hk. cbn. eexists. repeat split.
  - intros Hm. rewrite Hm. cbn.
    destruct (driver_config_bind_addr configured) as [addr Ha].
    unfold init_bind_addr, iot_data_string_map_get_string. rewrite Ha. cbn.
    eexists. repeat split.
Qed.

Lemma coap_init_config_loaded_witness :
  let b64 := fun _ : string => @None (list uint8_t) in
  let impl := {| security_mode := SECURITY_MODE_UNKNOWN; psk_key := None;
                 coap_bind_addr := None |} in
  driver_config {[ SECURITY_MODE_KEY := "Psk"%string ]} !! SECURITY_MODE_KEY
    = Some "Psk"%string /\
  driver_config {[ SECURITY_MODE_KEY := "PSK"%string ]} !! SECURITY_MODE_KEY
    = Some "PSK"%string /\
  ({[ SECURITY_MODE_KEY := "PSK"%string ]} : gmap string string) !! PSK_KEY_KEY = None /\
  driver_config ∅ !! SECURITY_MODE_KEY = Some "NoSec"%string /\
  (exists driver,
     coap_init b64 impl (driver_config {[ SECURITY_MODE_KEY := "Psk"%string ]})
       = Some ((false, driver), [EvLog IOT_LOG_ERROR "Unknown security mode"]) /\
     security_mode driver = SECURITY_MODE_UNKNOWN /\ psk_key driver = None) /\
  (exists driver,
     coap_init b64 impl (driver_config {[ SECURITY_MODE_KEY := "PSK"%string ]})
       = Some ((false, driver), [EvLog IOT_LOG_ERROR "PSK key not in configuration"]) /\
     security_mode driver = SECURITY_MODE_PSK /\ psk_key driver = None) /\
  (exists driver,
     coap_init b64 impl (driver_config ∅)
       = Some ((true, driver), [EvLog IOT_LOG_DEBUG "Init complete"]) /\
     security_mode driver = SECURITY_MODE_NOSEC /\ psk_key driver = None).
Proof.
  cbv zeta.
  split; [reflexivity|]. split; [reflexivity|]. split; [reflexivity|].
  split; [reflexivity|]. split; [|split].
  - apply (proj1 (coap_init_config_loaded _ _ {[ SECURITY_MODE_KEY := "Psk"%string ]})
             "Psk"%string); [reflexivity | discriminate | discriminate].
  - apply (proj1 (proj2 (coap_init_config_loaded _ _ {[ SECURITY_MODE_KEY := "PSK"%string ]})));
      [reflexivity | left; reflexivity].
  - apply (proj2 (proj2 (coap_init_config_loaded _ _ ∅))). reflexivity.
Defined.

(** * Further properties *)

(** ** The decoders *)

Lemma span_app_all (p : ascii -> bool) (ws s : list ascii) :
  Forall (fun c => p c = true) ws -> span p (ws ++ s) = (length ws + span p s)%nat.
Proof.
  induction 1 as [|c ws Hc _ IH]; cbn [app span length]; [reflexivity|].
  now rewrite Hc, IH.
Qed.

Lemma span_take (p : ascii -> bool) (s : list ascii) :
  Forall (fun c => p c = true) (take (span p s) s).
Proof.
  induction s as [|c s IH]; cbn [span]; [constructor|].
  destruct (p c) eqn:Hc; cbn [take firstn]; constructor; assumption.
Qed.

(** The scan of [strtol] written over the payload itself. *)
Lemma strtol_shape {L : libc} (data : list ascii) :
  let ws := span isspace data in
  let l1 := drop ws data in
  let l2 := drop (snd (scan_sign (l1 ++ [NUL]))) l1 in
  let nd := span isdigit l2 in
  let v := if fst (scan_sign (l1 ++ [NUL])) then - digits_value (take nd l2)
           else digits_value (take nd l2) in
  let e := (ws + snd (scan_sign (l1 ++ [NUL])) + nd)%nat in
  (snd (scan_sign (l1 ++ [NUL])) <= length l1)%nat /\
  strtol (null_terminated data) =
    match nd with
    | O => {| int_val := 0; l_endptr := O; l_errno := no_conversion_errno |}
    | _ =>
        if v <? LONG_MIN then {| int_val := LONG_MIN; l_endptr := e; l_errno := ERANGE |}
        else if LONG_MAX <? v then {| int_val := LONG_MAX; l_endptr := e; l_errno := ERANGE |}
        else {| int_val := v; l_endptr := e; l_errno := 0 |}
    end.
Proof.
  cbv zeta. unfold strtol, null_terminated.
  rewrite (span_nul isspace) by reflexivity.
  pose proof (span_le isspace data) as Hws.
  rewrite drop_nul by assumption.
  destruct (scan_sign_nul (drop (span isspace data) data) [] []) as [_ Hb].
  split; [exact Hb|].
  destruct (scan_sign (drop (span isspace data) data ++ [NUL])) as [neg sg].
  cbn [fst snd] in *.
  rewrite drop_nul by assumption.
  rewrite (span_nul isdigit) by reflexivity.
  rewrite take_nul by apply span_le.
  reflexivity.
Qed.

Lemma scan_sign_chars (l : list ascii) :
  exists sg,
    take (snd (scan_sign (l ++ [NUL]))) l = sign_chars sg /\
    fst (scan_sign (l ++ [NUL])) = match sg with Some true => true | _ => false end.
Proof.
  destruct l as [|c l]; cbn [app scan_sign].
  - exists None. split; reflexivity.
  - destruct (Ascii.eqb_spec c "-") as [->|_].
    + exists (Some true). split; reflexivity.
    + destruct (Ascii.eqb_spec c "+") as [->|_].
      * exists (Some false). split; reflexivity.
      * exists None. split; reflexivity.
Qed.

Lemma deref_not_nul (data : list ascii) (e : nat) :
  Forall (fun c => is_nul c = false) data ->
  (e <= length data)%nat ->
  is_nul (deref (null_terminated data) e) = true -> e = length data.
Proof.
  intros Hnn He Hd.
  destruct (Nat.eq_dec e (length data)) as [|Hne]; [assumption|].
  rewrite deref_data in Hd by lia.
  rewrite List.Forall_forall in Hnn.
  rewrite (Hnn (nth e data NUL)) in Hd by (apply nth_In; lia). discriminate.
Qed.

Lemma strtol_skip_spaces {L : libc} (ws s : list ascii) :
  Forall (fun c => isspace c = true) ws ->
  strtol (ws ++ s) =
    let r := strtol s in
    match l_endptr r with
    | O => r
    | _ => {| int_val := int_val r; l_endptr := length ws + l_endptr r;
              l_errno := l_errno r |}
    end.
Proof.
  intros Hws. cbv zeta. unfold strtol.
  rewrite (span_app_all isspace ws s Hws), drop_app_add.
  destruct (scan_sign (drop (span isspace s) s)) as [neg sg].
  destruct (span isdigit (drop sg (drop (span isspace s) s))) as [|n]; [reflexivity|].
  replace (span isspace s + sg + S n)%nat with (S (span isspace s + sg + n)) by lia.
  destruct (_ <? LONG_MIN); [cbn; f_equal; lia|].
  destruct (LONG_MAX <? _); cbn; f_equal; lia.
Qed.

(** X1: whatever the Int32 decoder returns is a value of the signed
    32-bit range, from a buffer of at most 11 bytes, and nothing is
    logged; when it fails it logs exactly one entry, at info severity. *)
Theorem read_data_int32_result {L : libc} (data : list uint8_t) :
  match read_data_int32 data with
  | (Some (IOT_DATA_INT32 v), t) =>
      INT32_MIN <= v <= INT32_MAX /\ (length data <= INT32_STR_MAXLEN)%nat /\ t = []
  | (Some _, _) => False
  | (None, t) => t = [EvLog IOT_LOG_INFO "invalid int32 of len %u"]
  end.
Proof.
  unfold read_data_int32. cbv zeta.
  destruct (Nat.ltb_spec INT32_STR_MAXLEN (length data)); [reflexivity|].
  set (r := strtol (null_terminated data)).
  destruct (negb (l_errno r =? 0)); [reflexivity|].
  destruct (negb (is_nul (deref (null_terminated data) (l_endptr r)))); [reflexivity|].
  cbn [orb].
  destruct (Z.ltb_spec (int_val r) INT32_MIN); [reflexivity|].
  destruct (Z.ltb_spec INT32_MAX (int_val r)); [reflexivity|].
  cbn [orb io_ret].
  rewrite to_int32_in_range by lia. repeat split; lia.
Qed.

(** X2: leading white space and a "+" or "-" sign are accepted: a buffer
    of white space, an optional sign and one or more digits decodes to
    the value it denotes when it has at most 11 bytes and the value is in
    the signed 32-bit range, and is a decode failure otherwise. *)
Theorem read_data_int32_spaces_sign_digits {L : libc} (ws : list ascii) (sg : option bool)
    (ds : list ascii) :
  Forall (fun c => isspace c = true) ws ->
  ds <> [] -> Forall (fun c => isdigit c = true) ds ->
  read_data_int32 (ws ++ sign_chars sg ++ ds) =
    if (length (ws ++ sign_chars sg ++ ds) <=? INT32_STR_MAXLEN)%nat
       && in_int32 (decimal_value sg ds)
    then (Some (IOT_DATA_INT32 (decimal_value sg ds)), [])
    else (None, [EvLog IOT_LOG_INFO "invalid int32 of len %u"]).
Proof.
  intros Hws Hne Hds.
  set (data := ws ++ sign_chars sg ++ ds).
  assert (Hstr : strtol (null_terminated data) =
    let v := decimal_value sg ds in
    let e := length data in
    if v <? LONG_MIN then {| int_val := LONG_MIN; l_endptr := e; l_errno := ERANGE |}
    else if LONG_MAX <? v then {| int_val := LONG_MAX; l_endptr := e; l_errno := ERANGE |}
    else {| int_val := v; l_endptr := e; l_errno := 0 |}).
  { unfold data, null_terminated. rewrite <- app_assoc.
    rewrite (strtol_skip_spaces ws _ Hws). cbv zeta.
    fold (null_terminated (sign_chars sg ++ ds)).
    rewrite (strtol_decimal sg ds Hne Hds). cbv zeta.
    assert (Hlen : exists n, length (sign_chars sg ++ ds) = S n).
    { rewrite length_app. destruct ds; [congruence|].
      cbn [length]. rewrite Nat.add_succ_r. eexists; reflexivity. }
    destruct Hlen as [n Hn].
    rewrite (length_app ws), Hn.
    destruct (_ <? LONG_MIN); [reflexivity|].
    destruct (LONG_MAX <? _); reflexivity. }
  unfold read_data_int32. cbv zeta. fold data. rewrite Hstr. cbv zeta.
  destruct (Nat.ltb_spec INT32_STR_MAXLEN (length data)) as [Hlen|Hlen].
  - destruct (Nat.leb_spec (length data) INT32_STR_MAXLEN); [lia | reflexivity].
  - destruct (Nat.leb_spec (length data) INT32_STR_MAXLEN); [|lia].
    unfold in_int32, LONG_MIN, LONG_MAX, INT32_MIN, INT32_MAX.
    set (v := decimal_value sg ds).
    destruct (Z.ltb_spec v (- 2 ^ 63)) as [H1|H1]; cbn [l_errno l_endptr int_val].
    { destruct (Z.leb_spec (-2147483648) v); [lia|]. reflexivity. }
    destruct (Z.ltb_spec (2 ^ 63 - 1) v) as [H2|H2]; cbn [l_errno l_endptr int_val].
    { destruct (Z.leb_spec v 2147483647); [lia|]. rewrite andb_false_r. reflexivity. }
    rewrite deref_terminator. change (is_nul NUL) with true.
    change (negb (0 =? 0)) with false. cbn [negb orb andb].
    destruct (Z.ltb_spec v (-2147483648)), (Z.leb_spec (-2147483648) v); try lia;
      cbn [orb andb]; [reflexivity|].
    destruct (Z.ltb_spec 2147483647 v), (Z.leb_spec v 2147483647); try lia;
      cbn [orb andb]; [reflexivity|].
    rewrite to_int32_in_range by (unfold INT32_MIN, INT32_MAX; lia). reflexivity.
Qed.

Lemma read_data_int32_spaces_sign_digits_witness :
  Forall (fun c => isspace c = true) (bytes " ") /\
  bytes "12" <> [] /\ Forall (fun c => isdigit c = true) (bytes "12") /\
  read_data_int32 (bytes " +12") = (Some (IOT_DATA_INT32 12), []).
Proof.
  assert (Hws : Forall (fun c => isspace c = true) (bytes " ")) by (repeat constructor).
  assert (Hne : bytes "12" <> []) by discriminate.
  assert (Hds : Forall (fun c => isdigit c = true) (bytes "12")) by (repeat constructor).
  split; [exact Hws|]. split; [exact Hne|]. split; [exact Hds|].
  exact (read_data_int32_spaces_sign_digits (bytes " ") (Some false) (bytes "12")
           Hws Hne Hds).
Defined.

(** X3: what the Int32 decoder accepts from a buffer without NUL bytes is
    either the empty buffer, decoded as 0, or white space, an optional
    sign and one or more digits up to the end of the buffer, decoded as
    the value they denote. *)
Theorem read_data_int32_accepts_only_decimal {L : libc} (data : list uint8_t) (v : Z)
    (t : list event) :
  Forall (fun c => is_nul c = false) data ->
  read_data_int32 data = (Some (IOT_DATA_INT32 v), t) ->
  (data = [] /\ v = 0) \/
  exists ws sg ds,
    data = ws ++ sign_chars sg ++ ds /\
    Forall (fun c => isspace c = true) ws /\
    ds <> [] /\ Forall (fun c => isdigit c = true) ds /\
    v = decimal_value sg ds.
Proof.
  intros Hnn Hread. unfold read_data_int32 in Hread. cbv zeta in Hread.
  destruct (INT32_STR_MAXLEN <? length data)%nat; [discriminate|].
  destruct (negb (l_errno (strtol (null_terminated data)) =? 0)) eqn:Herr;
    [discriminate|].
  destruct (negb (is_nul (deref (null_terminated data)
                            (l_endptr (strtol (null_terminated data)))))) eqn:Hend;
    [discriminate|].
  cbn [orb] in Hread.
  destruct (Z.ltb_spec (int_val (strtol (null_terminated data))) INT32_MIN);
    [discriminate|].
  destruct (Z.ltb_spec INT32_MAX (int_val (strtol (null_terminated data))));
    [discriminate|].
  cbn [orb io_ret] in Hread. injection Hread as Hv _.
  rewrite to_int32_in_range in Hv by lia.
  apply negb_false_iff in Hend. apply negb_false_iff, Z.eqb_eq in Herr.
  destruct (strtol_nul data [] []) as [_ Hb]. fold (null_terminated data) in Hb.
  pose proof (deref_not_nul data _ Hnn Hb Hend) as He.
  destruct (strtol_shape data) as [Hsg Hshape]. cbv zeta in Hshape.
  destruct (scan_sign_chars (drop (span isspace data) data)) as (sg & Htake & Hneg).
  set (ws := span isspace data) in *.
  set (l1 := drop ws data) in *.
  set (k := snd (scan_sign (l1 ++ [NUL]))) in *.
  set (l2 := drop k l1) in *.
  assert (Hl1 : (ws + length l1 = length data)%nat)
    by (unfold l1; rewrite length_drop; pose proof (span_le isspace data); lia).
  assert (Hl2 : (k + length l2 = length l1)%nat) by (unfold l2; rewrite length_drop; lia).
  pose proof (span_le isdigit l2) as Hnd.
  rewrite Hshape in He, Hv, Herr.
  destruct (span isdigit l2) as [|n] eqn:End.
  - cbn [l_endptr int_val] in He, Hv. left. split; [|congruence].
    destruct data; [reflexivity | discriminate He].
  - right.
    assert (Hnc : l_endptr
              (if (if fst (scan_sign (l1 ++ [NUL])) then - digits_value (take (S n) l2)
                   else digits_value (take (S n) l2)) <? LONG_MIN
               then {| int_val := LONG_MIN; l_endptr := ws + k + S n; l_errno := ERANGE |}
               else if LONG_MAX <? (if fst (scan_sign (l1 ++ [NUL]))
                                    then - digits_value (take (S n) l2)
                                    else digits_value (take (S n) l2))
                    then {| int_val := LONG_MAX; l_endptr := ws + k + S n;
                            l_errno := ERANGE |}
                    else {| int_val := (if fst (scan_sign (l1 ++ [NUL]))
                                        then - digits_value (take (S n) l2)
                                        else digits_value (take (S n) l2));
                            l_endptr := ws + k + S n; l_errno := 0 |})
              = (ws + k + S n)%nat)
      by (destruct (_ <? LONG_MIN); [|destruct (LONG_MAX <? _)]; reflexivity).
    rewrite Hnc in He.
    assert (Hall : S n = length l2) by lia.
    assert (Hds : take (S n) l2 = l2) by (rewrite Hall; apply firstn_all).
    exists (take ws data), sg, l2.
    split; [|split; [|split; [|split]]].
    + rewrite <- Htake. fold l1 k. unfold l2.
      rewrite (take_drop k l1). unfold l1. now rewrite take_drop.
    + apply span_take.
    + destruct l2; [discriminate Hall | discriminate].
    + rewrite <- Hds, <- End. apply span_take.
    + rewrite Hds in *. fold l1 in Hneg. rewrite Hneg in *.
      destruct (_ <? LONG_MIN) in Herr, Hv; [discriminate Herr|].
      destruct (LONG_MAX <? _) in Herr, Hv; [discriminate Herr|].
      cbn [int_val] in Hv. rewrite <- Hv.
      destruct sg as [[|]|]; reflexivity.
Qed.

Lemma read_data_int32_accepts_only_decimal_witness :
  Forall (fun c => is_nul c = false) (bytes "-7") /\
  read_data_int32 (bytes "-7") = (Some (IOT_DATA_INT32 (-7)), []) /\
  ((bytes "-7" = [] /\ -7 = 0) \/
   exists ws sg ds,
     bytes "-7" = ws ++ sign_chars sg ++ ds /\
     Forall (fun c => isspace c = true) ws /\
     ds <> [] /\ Forall (fun c => isdigit c = true) ds /\
     -7 = decimal_value sg ds).
Proof.
  assert (Hnn : Forall (fun c => is_nul c = false) (bytes "-7")) by (repeat constructor).
  assert (Hr : read_data_int32 (bytes "-7") = (Some (IOT_DATA_INT32 (-7)), []))
    by reflexivity.
  split; [exact Hnn|]. split; [exact Hr|].
  exact (read_data_int32_accepts_only_decimal (bytes "-7") (-7) [] Hnn Hr).
Defined.

(** X4: the Int32 decoder reads a payload only up to its first NUL byte:
    when the whole buffer has at most 11 bytes, the bytes from the NUL on
    do not change the result. *)
Theorem read_data_int32_stops_at_nul {L : libc} (lit rest : list uint8_t) :
  (length (lit ++ NUL :: rest) <= INT32_STR_MAXLEN)%nat ->
  read_data_int32 (lit ++ NUL :: rest) = read_data_int32 lit.
Proof. apply read_data_int32_after_nul. Qed.

Lemma read_data_int32_stops_at_nul_witness :
  (length (bytes "42" ++ NUL :: bytes "abc") <= INT32_STR_MAXLEN)%nat /\
  read_data_int32 (bytes "42" ++ NUL :: bytes "abc") = read_data_int32 (bytes "42").
Proof.
  assert (H : (length (bytes "42" ++ NUL :: bytes "abc") <= INT32_STR_MAXLEN)%nat)
    by (vm_compute; lia).
  split; [exact H|].
  exact (read_data_int32_stops_at_nul (bytes "42") (bytes "abc") H).
Defined.

(** X5: the Float64 decoder reads a payload only up to its first NUL
    byte: when the whole buffer has at most 24 bytes, the bytes from the
    NUL on do not change the result. *)
Theorem read_data_float64_stops_at_nul {L : libc} (lit rest : list uint8_t) :
  (length (lit ++ NUL :: rest) <= FLOAT64_STR_MAXLEN)%nat ->
  read_data_float64 (lit ++ NUL :: rest) = read_data_float64 lit.
Proof. apply read_data_float64_after_nul. Qed.

Lemma read_data_float64_stops_at_nul_witness :
  (length (bytes "2e3" ++ NUL :: bytes "abc") <= FLOAT64_STR_MAXLEN)%nat /\
  read_data_float64 (bytes "2e3" ++ NUL :: bytes "abc") = read_data_float64 (bytes "2e3").
Proof.
  assert (H : (length (bytes "2e3" ++ NUL :: bytes "abc") <= FLOAT64_STR_MAXLEN)%nat)
    by (vm_compute; lia).
  split; [exact H|].
  exact (read_data_float64_stops_at_nul (bytes "2e3") (bytes "abc") H).
Defined.

(** X6: for a buffer without NUL bytes and of at most 24 bytes, the
    Float64 decoder succeeds exactly when [strtod] converts the buffer up
    to its last byte and reports no range error; the value is the one
    [strtod] returns, and nothing is logged. *)
Theorem read_data_float64_accepts_whole_literal {L : libc} (data : list uint8_t) :
  Forall (fun c => is_nul c = false) data ->
  (length data <= FLOAT64_STR_MAXLEN)%nat ->
  let r := strtod (null_terminated data) in
  (d_errno r = 0 /\ d_endptr r = length data ->
   read_data_float64 data = (Some (IOT_DATA_FLOAT64 (dbl_val r)), [])) /\
  (fst (read_data_float64 data) <> None ->
   d_errno r = 0 /\ d_endptr r = length data).
Proof.
  intros Hnn Hlen. cbv zeta. unfold read_data_float64. cbv zeta.
  destruct (Nat.ltb_spec FLOAT64_STR_MAXLEN (length data)); [lia|].
  split.
  - intros [He Hp]. rewrite He, Hp, deref_terminator. reflexivity.
  - destruct (Z.eqb_spec (d_errno (strtod (null_terminated data))) 0) as [He|He];
      cbn [negb orb]; [|intros Hx; now contradiction Hx].
    destruct (is_nul (deref (null_terminated data)
                        (d_endptr (strtod (null_terminated data))))) eqn:Hd;
      cbn [negb]; [|intros Hx; now contradiction Hx].
    intros _. split; [exact He|].
    destruct (strtod_nul data [] []) as [_ Hb]. fold (null_terminated data) in Hb.
    exact (deref_not_nul data _ Hnn Hb Hd).
Qed.

Lemma read_data_float64_accepts_whole_literal_witness :
  Forall (fun c => is_nul c = false) (bytes "-0.25e1") /\
  (length (bytes "-0.25e1") <= FLOAT64_STR_MAXLEN)%nat /\
  read_data_float64 (bytes "-0.25e1")
    = (Some (IOT_DATA_FLOAT64 (DFinite true 25 10 (-1))), []).
Proof.
  assert (Hnn : Forall (fun c => is_nul c = false) (bytes "-0.25e1"))
    by (repeat constructor).
  assert (Hlen : (length (bytes "-0.25e1") <= FLOAT64_STR_MAXLEN)%nat)
    by (vm_compute; lia).
  split; [exact Hnn|]. split; [exact Hlen|].
  exact (proj1 (read_data_float64_accepts_whole_literal (bytes "-0.25e1") Hnn Hlen)
           (conj eq_refl eq_refl)).
Defined.

(** X7: a buffer within the length limit that starts with a NUL byte is
    decoded like the empty buffer, whatever follows the NUL and whatever
    the C library: no conversion is done, so the Int32 decoder returns 0
    and the Float64 decoder zero where the library leaves [errno] at 0,
    and both report a decode failure where it stores a value, as musl
    does. *)
Theorem decoders_leading_nul (L : libc) (rest : list uint8_t) :
  ((length (NUL :: rest) <= INT32_STR_MAXLEN)%nat ->
   read_data_int32 (NUL :: rest) = read_data_int32 []) /\
  ((length (NUL :: rest) <= FLOAT64_STR_MAXLEN)%nat ->
   read_data_float64 (NUL :: rest) = read_data_float64 []) /\
  read_data_int32 [] =
    (if no_conversion_errno =? 0 then (Some (IOT_DATA_INT32 0), [])
     else (None, [EvLog IOT_LOG_INFO "invalid int32 of len %u"])) /\
  read_data_float64 [] =
    (if no_conversion_errno =? 0 then (Some (IOT_DATA_FLOAT64 dbl_zero), [])
     else (None, [EvLog IOT_LOG_INFO "invalid float64 of len %u"])).
Proof.
  split; [|split; [|split]].
  - intros Hlen. exact (read_data_int32_after_nul [] rest Hlen).
  - intros Hlen. exact (read_data_float64_after_nul [] rest Hlen).
  - unfold read_data_int32. cbn [length Nat.ltb Nat.leb].
    change (strtol (null_terminated []))
      with {| int_val := 0; l_endptr := O; l_errno := no_conversion_errno |}.
    cbn [l_errno l_endptr int_val].
    change (is_nul (deref (null_terminated []) 0)) with true.
    now destruct (no_conversion_errno =? 0).
  - unfold read_data_float64. cbn [length Nat.ltb Nat.leb].
    change (strtod (null_terminated []))
      with {| dbl_val := dbl_zero; d_endptr := O; d_errno := no_conversion_errno |}.
    cbn [d_errno d_endptr dbl_val].
    change (is_nul (deref (null_terminated []) 0)) with true.
    now destruct (no_conversion_errno =? 0).
Qed.

Lemma decoders_leading_nul_witness :
  (length (NUL :: bytes "99") <= INT32_STR_MAXLEN)%nat /\
  @read_data_int32 musl (NUL :: bytes "99")
    = (None, [EvLog IOT_LOG_INFO "invalid int32 of len %u"]) /\
  @read_data_int32 glibc (NUL :: bytes "99") = (Some (IOT_DATA_INT32 0), []) /\
  (length (NUL :: bytes "99") <= FLOAT64_STR_MAXLEN)%nat /\
  @read_data_float64 musl (NUL :: bytes "99")
    = (None, [EvLog IOT_LOG_INFO "invalid float64 of len %u"]) /\
  @read_data_float64 glibc (NUL :: bytes "99") = (Some (IOT_DATA_FLOAT64 dbl_zero), []).
Proof.
  assert (H1 : (length (NUL :: bytes "99") <= INT32_STR_MAXLEN)%nat) by (vm_compute; lia).
  assert (H2 : (length (NUL :: bytes "99") <= FLOAT64_STR_MAXLEN)%nat) by (vm_compute; lia).
  destruct (decoders_leading_nul musl (bytes "99")) as (Hi & Hf & Hi0 & Hf0).
  destruct (decoders_leading_nul glibc (bytes "99")) as (Gi & Gf & Gi0 & Gf0).
  split; [exact H1|].
  split; [exact (eq_trans (Hi H1) Hi0)|].
  split; [exact (eq_trans (Gi H1) Gi0)|].
  split; [exact H2|].
  split; [exact (eq_trans (Hf H2) Hf0) | exact (eq_trans (Gf H2) Gf0)].
Defined.

(** ** The path router *)

(** X8: [parse_path] depends on the path only through its non-empty
    segments: its result and its calls to the logger and the registry are
    those of [route] on the list of segments. Leading, trailing and
    doubled "/" make no difference. *)
Theorem parse_path_route (svc : devsdk_service_t) (request : coap_pdu_t) :
  parse_path svc request = route svc (segments (uri_path request)).
Proof.
  unfold parse_path, route, edgex_get_device_byname, edgex_free_device,
    iot_log_info, iot_log_debug, emit.
  destruct (strtok_spec (uri_path request)) as (sv0 & E0 & S0). rewrite E0.
  destruct (segments (uri_path request)) as [|s1 l1]; cbn [hd_error tl] in *;
    [reflexivity|].
  destruct (String.eqb s1 RESOURCE_SEG1); cbn [negb]; [|reflexivity].
  destruct (strtok_spec sv0) as (sv1 & E1 & S1). rewrite E1, S0 in *. clear E1 S0.
  destruct l1 as [|s2 l2]; cbn [hd_error tl] in *; [reflexivity|].
  destruct (devices svc !! s2) as [device|]; [|reflexivity].
  destruct (strtok_spec sv1) as (sv2 & E2 & S2). rewrite S1 in *. clear S1.
  cbn [io_bind io_ret fst snd app fmap option_fmap option_map]. rewrite E2.
  destruct l2 as [|s3 l3]; cbn [hd_error tl] in *; [reflexivity|].
  destruct (scan_profiles (profile device) None s3) as [resource|]; [|reflexivity].
  destruct (strtok_spec sv2) as (sv3 & E3 & S3). rewrite E3, S2.
  destruct l3; reflexivity.
Qed.

Lemma scan_resources_found (rs : list edgex_deviceresource) (seg : string)
    (r : edgex_deviceresource) :
  scan_resources rs seg = Some r ->
  exists before after,
    rs = before ++ r :: after /\ resource_name r = seg /\
    Forall (fun q => resource_name q <> seg) before.
Proof.
  induction rs as [|q rs IH]; cbn [scan_resources]; [discriminate|].
  destruct (String.eqb_spec (resource_name q) seg) as [Heq|Hne].
  - intros H. injection H as <-. exists [], rs. repeat split; [assumption|constructor].
  - intros H. destruct (IH H) as (before & after & -> & Hn & Hb).
    exists (q :: before), after. repeat split; [assumption|].
    constructor; assumption.
Qed.

Lemma scan_profiles_found (ps : list edgex_deviceprofile) (seg : string)
    (r : edgex_deviceresource) :
  scan_profiles ps None seg = Some r ->
  exists earlier p, ps = earlier ++ [p] /\ scan_resources (device_resources p) seg = Some r.
Proof.
  destruct ps as [|p0 ps] using rev_ind; [discriminate|].
  rewrite scan_profiles_last. intros H. exists ps, p0. split; [reflexivity | exact H].
Qed.

(** X9: when [parse_path] succeeds, the path has exactly three non-empty
    segments, the first is the tag, the device is the one registered
    under the second, and the resource is the first one named like the
    third segment in the last profile of the device's chain. *)
Theorem parse_path_result (svc : devsdk_service_t) (request : coap_pdu_t)
    (device : edgex_device) (resource : edgex_deviceresource) :
  fst (parse_path svc request) = Some (device, resource) ->
  exists s2 s3 earlier p before after,
    segments (uri_path request) = [RESOURCE_SEG1; s2; s3] /\
    devices svc !! s2 = Some device /\
    profile device = earlier ++ [p] /\
    device_resources p = before ++ resource :: after /\
    resource_name resource = s3 /\
    Forall (fun q => resource_name q <> s3) before.
Proof.
  rewrite parse_path_spec.
  destruct (segments (uri_path request)) as [|s1 [|s2 [|s3 [|s4 l]]]]; try discriminate.
  destruct (String.eqb_spec s1 RESOURCE_SEG1) as [->|]; [|discriminate].
  destruct (devices svc !! s2) as [d|] eqn:Hd; [|discriminate].
  destruct (scan_profiles (profile d) None s3) as [r|] eqn:Hr; [|discriminate].
  intros H. injection H as <- <-.
  destruct (scan_profiles_found _ _ _ Hr) as (earlier & p & Hp & Hs).
  destruct (scan_resources_found _ _ _ Hs) as (before & after & Hb & Hn & Hf).
  exists s2, s3, earlier, p, before, after. repeat split; assumption.
Qed.

Lemma parse_path_result_witness :
  let request := post_request "/a1r/device-1/hum/" None None in
  fst (parse_path example_service request) = Some (device_1, hum) /\
  exists s2 s3 earlier p before after,
    segments (uri_path request) = [RESOURCE_SEG1; s2; s3] /\
    devices example_service !! s2 = Some device_1 /\
    profile device_1 = earlier ++ [p] /\
    device_resources p = before ++ hum :: after /\
    resource_name hum = s3 /\
    Forall (fun q => resource_name q <> s3) before.
Proof.
  cbv zeta.
  assert (H : fst (parse_path example_service
                     (post_request "/a1r/device-1/hum/" None None))
              = Some (device_1, hum)) by reflexivity.
  split; [exact H|].
  exact (parse_path_result example_service _ device_1 hum H).
Defined.

(** X10: [parse_path] logs the path at debug severity first; when it
    succeeds it logs nothing else and leaves the device handle acquired,
    for the caller to free; when it fails it logs exactly one further
    entry, at info severity, and leaves no handle acquired. *)
Theorem parse_path_trace (svc : devsdk_service_t) (request : coap_pdu_t) :
  let t := snd (parse_path svc request) in
  hd_error t = Some (EvLog IOT_LOG_DEBUG "URI %s") /\
  logged IOT_LOG_ERROR t = false /\
  match fst (parse_path svc request) with
  | Some (device, _) =>
      logged IOT_LOG_INFO t = false /\
      acquired (device_name device) t = 1%nat /\
      released (device_name device) t = 0%nat
  | None =>
      length (List.filter (fun e => match e with
                                    | EvLog IOT_LOG_INFO _ => true
                                    | _ => false
                                    end) t) = 1%nat /\
      handles_balanced t
  end.
Proof.
  cbv zeta. pose proof (parse_path_outcome svc request) as H.
  destruct (parse_path svc request) as [res t]. cbn [fst snd] in *.
  inversion H; subst.
  - cbn. rewrite String.eqb_refl. repeat split.
  - repeat split; try intros h; cbn; lia.
  - repeat split; try intros h; cbn; lia.
  - repeat split; try intros h; cbn; try lia.
    destruct (String.eqb (device_name d) h); reflexivity.
Qed.

(** ** The request handler *)

Lemma parse_path_success (svc : devsdk_service_t) (request : coap_pdu_t)
    (device : edgex_device) (resource : edgex_deviceresource) :
  fst (parse_path svc request) = Some (device, resource) ->
  exists s2 s3,
    segments (uri_path request) = [RESOURCE_SEG1; s2; s3] /\
    devices svc !! s2 = Some device /\
    scan_profiles (profile device) None s3 = Some resource /\
    snd (parse_path svc request)
      = [EvLog IOT_LOG_DEBUG "URI %s"; EvGetDevice s2 (Some (device_name device))].
Proof.
  rewrite parse_path_route. unfold route.
  destruct (segments (uri_path request)) as [|s1 [|s2 segs2]]; try discriminate;
    destruct (String.eqb_spec s1 RESOURCE_SEG1) as [->|]; try discriminate.
  destruct (devices svc !! s2) as [d|] eqn:Hd; [|discriminate].
  destruct segs2 as [|s3 segs3]; [discriminate|].
  destruct (scan_profiles (profile d) None s3) as [r|] eqn:Hr; [|discriminate].
  destruct segs3; [|discriminate].
  cbn [fst snd]. intros H. injection H as <- <-.
  exists s2, s3. repeat split; assumption.
Qed.

Lemma data_handler_put_reply {L : libc} (svc : devsdk_service_t) (request response : coap_pdu_t) :
  code request = COAP_REQUEST_PUT ->
  data_handler svc request response
    = (set_code response (COAP_RESPONSE_CODE 405), []).
Proof. intros Hput. unfold data_handler. rewrite Hput. reflexivity. Qed.

(** The handler after the router has succeeded. *)
Lemma data_handler_routed {L : libc} (svc : devsdk_service_t) (request response : coap_pdu_t)
    (device : edgex_device) (resource : edgex_deviceresource) :
  code request <> COAP_REQUEST_PUT ->
  fst (parse_path svc request) = Some (device, resource) ->
  data_handler svc request response =
    let tp := snd (parse_path svc request) in
    let free := [EvFreeDevice (Some (device_name device))] in
    match read_payload request resource with
    | (Rejected c, ts) => (set_code response c, tp ++ ts ++ free)
    | (Decoded None, ts) =>
        (coap_add_data (set_code response (COAP_RESPONSE_CODE 400))
           (bytes MSG_PAYLOAD_INVALID), tp ++ ts ++ free)
    | (Decoded (Some v), ts) =>
        (set_code response (COAP_RESPONSE_CODE 204),
         tp ++ ts ++ [EvPostReadings (device_name device) (resource_name resource) v;
                      EvDataFree v] ++ free)
    end.
Proof.
  intros Hput Hroute. unfold data_handler.
  destruct (Z.eqb_spec (code request) COAP_REQUEST_PUT); [contradiction|].
  destruct (parse_path svc request) as [routed tp]. cbn [fst snd] in *. subst routed.
  cbn [io_bind]. destruct (read_payload request resource) as [[[v|]|c] ts];
    cbn; rewrite ?app_nil_r; reflexivity.
Qed.

(** X11: the handler always answers with one of the codes 2.04, 4.00,
    4.04, 4.05, 4.15 and 5.00; it sets the body of the response to
    "payload not valid" when the code is 4.00 and leaves the body as it
    was otherwise. *)
Theorem data_handler_response {L : libc} (svc : devsdk_service_t) (request response : coap_pdu_t) :
  let r := fst (data_handler svc request response) in
  In (code r) (map COAP_RESPONSE_CODE [204; 400; 404; 405; 415; 500]) /\
  data r = (if code r =? COAP_RESPONSE_CODE 400 then Some (bytes MSG_PAYLOAD_INVALID)
            else data response).
Proof.
  cbv zeta. handler_paths svc request; split; try reflexivity; cbn; tauto.
Qed.

(** X12: when the handler answers 2.04 its calls are, in this order: the
    debug log of the path, the lookup of the device named by the second
    segment, one publish call for that device and the resource named by
    the third segment, the release of the published value, and the
    release of the device handle. *)
Theorem data_handler_success_trace {L : libc} (svc : devsdk_service_t)
    (request response : coap_pdu_t) :
  code (fst (data_handler svc request response)) = COAP_RESPONSE_CODE 204 ->
  exists s2 s3 device v,
    segments (uri_path request) = [RESOURCE_SEG1; s2; s3] /\
    devices svc !! s2 = Some device /\
    snd (data_handler svc request response)
      = [EvLog IOT_LOG_DEBUG "URI %s";
         EvGetDevice s2 (Some (device_name device));
         EvPostReadings (device_name device) s3 v;
         EvDataFree v;
         EvFreeDevice (Some (device_name device))].
Proof.
  destruct (Z.eq_dec (code request) COAP_REQUEST_PUT) as [Hput|Hput].
  { rewrite (data_handler_put_reply svc request response Hput). discriminate. }
  destruct (fst (parse_path svc request)) as [[device resource]|] eqn:Hroute.
  - rewrite (data_handler_routed svc request response device resource Hput Hroute).
    cbv zeta.
    destruct (parse_path_success svc request device resource Hroute)
      as (s2 & s3 & Hseg & Hdev & Hscan & Htp).
    pose proof (read_payload_outcome request resource) as Hpay.
    destruct (read_payload request resource) as [stage ts]. cbn [fst snd] in Hpay.
    inversion Hpay; subst; cbn [fst snd code set_code coap_add_data];
      try discriminate.
    intros _. exists s2, s3, device, v. rewrite Htp.
    destruct (scan_profiles_found _ _ _ Hscan) as (earlier & p & _ & Hs).
    destruct (scan_resources_found _ _ _ Hs) as (_ & _ & _ & Hn & _).
    rewrite Hn. repeat split; assumption.
  - unfold data_handler.
    destruct (Z.eqb_spec (code request) COAP_REQUEST_PUT); [contradiction|].
    destruct (parse_path svc request) as [routed tp]. cbn [fst] in Hroute. subst.
    cbn. discriminate.
Qed.

Lemma data_handler_success_trace_witness :
  let request := post_request "a1r/device-2/temp" (Some []) (Some (bytes "1e2")) in
  code (fst (data_handler example_service request empty_response))
    = COAP_RESPONSE_CODE 204 /\
  exists s2 s3 device v,
    segments (uri_path request) = [RESOURCE_SEG1; s2; s3] /\
    devices example_service !! s2 = Some device /\
    snd (data_handler example_service request empty_response)
      = [EvLog IOT_LOG_DEBUG "URI %s";
         EvGetDevice s2 (Some (device_name device));
         EvPostReadings (device_name device) s3 v;
         EvDataFree v;
         EvFreeDevice (Some (device_name device))].
Proof.
  cbv zeta.
  assert (H : code (fst (data_handler example_service
                (post_request "a1r/device-2/temp" (Some []) (Some (bytes "1e2")))
                empty_response)) = COAP_RESPONSE_CODE 204) by reflexivity.
  split; [exact H|].
  exact (data_handler_success_trace example_service _ empty_response H).
Defined.

(** X13: for a routed request with a payload to a Float64 or Int32
    resource, any content format other than text/plain (an absent one
    included) is answered with 4.15 before the payload is looked at:
    nothing is decoded, logged at info or error severity, or published,
    and the device handle is freed. *)
Theorem data_handler_numeric_media_type {L : libc} (svc : devsdk_service_t)
    (request response : coap_pdu_t) (device : edgex_device)
    (resource : edgex_deviceresource) (payload : list uint8_t) :
  code request <> COAP_REQUEST_PUT ->
  fst (parse_path svc request) = Some (device, resource) ->
  data request = Some payload ->
  properties_type resource = Edgex_Float64 \/ properties_type resource = Edgex_Int32 ->
  read_content_format request <> COAP_MEDIATYPE_TEXT_PLAIN ->
  data_handler svc request response =
    (set_code response (COAP_RESPONSE_CODE 415),
     snd (parse_path svc request) ++ [EvFreeDevice (Some (device_name device))]).
Proof.
  intros Hput Hroute Hdata Hkind Hcf.
  rewrite (data_handler_routed svc request response device resource Hput Hroute).
  cbv zeta. unfold read_payload, coap_get_data. rewrite Hdata.
  destruct (Z.eqb_spec (read_content_format request) COAP_MEDIATYPE_TEXT_PLAIN);
    [contradiction|].
  destruct Hkind as [-> | ->]; reflexivity.
Qed.

Lemma data_handler_numeric_media_type_witness :
  let request := post_request "a1r/device-2/temp" None (Some (bytes "23.5")) in
  code request <> COAP_REQUEST_PUT /\
  fst (parse_path example_service request) = Some (device_2, temp) /\
  data request = Some (bytes "23.5") /\
  properties_type temp = Edgex_Float64 /\
  read_content_format request <> COAP_MEDIATYPE_TEXT_PLAIN /\
  data_handler example_service request empty_response =
    (set_code empty_response (COAP_RESPONSE_CODE 415),
     snd (parse_path example_service request) ++ [EvFreeDevice (Some "device-2")]).
Proof.
  cbv zeta.
  assert (Hput : code (post_request "a1r/device-2/temp" None (Some (bytes "23.5")))
                 <> COAP_REQUEST_PUT) by discriminate.
  assert (Hcf : read_content_format
                  (post_request "a1r/device-2/temp" None (Some (bytes "23.5")))
                <> COAP_MEDIATYPE_TEXT_PLAIN) by discriminate.
  split; [exact Hput|]. split; [reflexivity|]. split; [reflexivity|].
  split; [reflexivity|]. split; [exact Hcf|].
  exact (data_handler_numeric_media_type example_service _ empty_response
           device_2 temp (bytes "23.5") Hput eq_refl eq_refl (or_introl eq_refl) Hcf).
Defined.

Lemma c_string_before_nul (lit rest : list ascii) :
  Forall (fun c => is_nul c = false) lit ->
  c_string (lit ++ NUL :: rest) = lit.
Proof.
  unfold c_string. induction 1 as [|c lit Hc _ IH]; [reflexivity|].
  cbn [app span]. rewrite Hc. cbn [negb take firstn]. now rewrite IH.
Qed.

(** X14: for a routed request with a payload to a String resource, the
    content formats text/plain and application/json are accepted and the
    payload is then published, with the answer 2.04, as the C string
    that its NUL-terminated copy starts with: the whole payload when it
    holds no NUL byte, the bytes before its first NUL byte otherwise.
    Any other content format is answered with 4.15 and nothing is
    published. *)
Theorem data_handler_string_resource {L : libc} (svc : devsdk_service_t)
    (request response : coap_pdu_t) (device : edgex_device)
    (resource : edgex_deviceresource) (payload : list uint8_t) :
  code request <> COAP_REQUEST_PUT ->
  fst (parse_path svc request) = Some (device, resource) ->
  data request = Some payload ->
  properties_type resource = Edgex_String ->
  data_handler svc request response =
    (if (read_content_format request =? COAP_MEDIATYPE_TEXT_PLAIN)
        || (read_content_format request =? COAP_MEDIATYPE_APPLICATION_JSON)
     then
       (set_code response (COAP_RESPONSE_CODE 204),
        snd (parse_path svc request) ++
        [EvPostReadings (device_name device) (resource_name resource)
           (IOT_DATA_STRING (c_string (null_terminated payload)));
         EvDataFree (IOT_DATA_STRING (c_string (null_terminated payload)));
         EvFreeDevice (Some (device_name device))])
     else
       (set_code response (COAP_RESPONSE_CODE 415),
        snd (parse_path svc request) ++ [EvFreeDevice (Some (device_name device))])) /\
  (Forall (fun c => is_nul c = false) payload ->
   c_string (null_terminated payload) = payload) /\
  (forall text rest,
     payload = text ++ NUL :: rest -> Forall (fun c => is_nul c = false) text ->
     c_string (null_terminated payload) = text).
Proof.
  intros Hput Hroute Hdata Hkind. split; [|split].
  - rewrite (data_handler_routed svc request response device resource Hput Hroute).
    cbv zeta. unfold read_payload, coap_get_data. rewrite Hdata, Hkind.
    destruct (read_content_format request =? COAP_MEDIATYPE_TEXT_PLAIN);
      destruct (read_content_format request =? COAP_MEDIATYPE_APPLICATION_JSON);
      reflexivity.
  - intros Hnn. unfold null_terminated. now apply c_string_before_nul.
  - intros text rest -> Hnn. unfold null_terminated. rewrite <- app_assoc.
    now apply c_string_before_nul.
Qed.

Lemma data_handler_string_resource_witness :
  let label := {| resource_name := "label"; properties_type := Edgex_String |} in
  let device := {| device_name := "device-3";
                   profile := [ {| device_resources := [label] |} ] |} in
  let svc := {| devices := {[ "device-3"%string := device ]} |} in
  let payload := bytes "on" ++ NUL :: bytes "off" in
  let request := post_request "a1r/device-3/label" (Some [ascii_of_nat 50])
                   (Some payload) in
  code request <> COAP_REQUEST_PUT /\
  fst (parse_path svc request) = Some (device, label) /\
  data request = Some payload /\
  properties_type label = Edgex_String /\
  fst (data_handler svc request empty_response)
    = set_code empty_response (COAP_RESPONSE_CODE 204) /\
  In (EvPostReadings "device-3" "label" (IOT_DATA_STRING (bytes "on")))
     (snd (data_handler svc request empty_response)).
Proof.
  cbv zeta.
  set (label := {| resource_name := "label"; properties_type := Edgex_String |}).
  set (device := {| device_name := "device-3";
                    profile := [ {| device_resources := [label] |} ] |}).
  set (svc := {| devices := {[ "device-3"%string := device ]} |}).
  set (payload := bytes "on" ++ NUL :: bytes "off").
  set (request := post_request "a1r/device-3/label" (Some [ascii_of_nat 50])
                    (Some payload)).
  assert (Hput : code request <> COAP_REQUEST_PUT) by discriminate.
  assert (Hroute : fst (parse_path svc request) = Some (device, label)) by reflexivity.
  split; [exact Hput|]. split; [exact Hroute|]. split; [reflexivity|].
  split; [reflexivity|].
  destruct (data_handler_string_resource svc request empty_response device label
              payload Hput Hroute eq_refl eq_refl) as (Hrun & _ & Hcut).
  rewrite Hrun.
  rewrite (Hcut (bytes "on") (bytes "off") eq_refl)
    by (repeat constructor).
  split; [reflexivity|].
  change (snd (parse_path svc request))
    with [EvLog IOT_LOG_DEBUG "URI %s"; EvGetDevice "device-3" (Some "device-3"%string)].
  cbn. right. right. left. reflexivity.
Defined.

(** X15: for a routed request with a payload to a Float64 or Int32
    resource that declares text/plain, the handler publishes exactly what
    the decoder of that kind returns for the payload and answers 2.04;
    when the decoder fails it answers 4.00 with the body "payload not
    valid", publishes nothing, and the decoder's info entry is the only
    one logged. The device handle is freed last in both cases. *)
Theorem data_handler_numeric_decode {L : libc} (svc : devsdk_service_t)
    (request response : coap_pdu_t) (device : edgex_device)
    (resource : edgex_deviceresource) (payload : list uint8_t) :
  code request <> COAP_REQUEST_PUT ->
  fst (parse_path svc request) = Some (device, resource) ->
  data request = Some payload ->
  properties_type resource = Edgex_Float64 \/ properties_type resource = Edgex_Int32 ->
  read_content_format request = COAP_MEDIATYPE_TEXT_PLAIN ->
  let decoded :=
    match properties_type resource with
    | Edgex_Float64 => read_data_float64 payload
    | _ => read_data_int32 payload
    end in
  data_handler svc request response =
    match fst decoded with
    | Some v =>
        (set_code response (COAP_RESPONSE_CODE 204),
         snd (parse_path svc request) ++
         [EvPostReadings (device_name device) (resource_name resource) v;
          EvDataFree v; EvFreeDevice (Some (device_name device))])
    | None =>
        (coap_add_data (set_code response (COAP_RESPONSE_CODE 400))
           (bytes MSG_PAYLOAD_INVALID),
         snd (parse_path svc request) ++ snd decoded ++
         [EvFreeDevice (Some (device_name device))])
    end.
Proof.
  intros Hput Hroute Hdata Hkind Hcf. cbv zeta.
  rewrite (data_handler_routed svc request response device resource Hput Hroute).
  cbv zeta. unfold read_payload, coap_get_data. rewrite Hdata, Hcf.
  change (negb (COAP_MEDIATYPE_TEXT_PLAIN =? COAP_MEDIATYPE_TEXT_PLAIN)) with false.
  destruct Hkind as [-> | ->]; cbn iota.
  - destruct (read_data_float64_cases payload) as [H|[d H]]; rewrite H; reflexivity.
  - destruct (read_data_int32_cases payload) as [H|[i H]]; rewrite H; reflexivity.
Qed.

Lemma data_handler_numeric_decode_witness :
  let request := post_request "a1r/device-1/hum" (Some []) (Some (bytes "41")) in
  code request <> COAP_REQUEST_PUT /\
  fst (parse_path example_service request) = Some (device_1, hum) /\
  data request = Some (bytes "41") /\
  properties_type hum = Edgex_Int32 /\
  read_content_format request = COAP_MEDIATYPE_TEXT_PLAIN /\
  data_handler example_service request empty_response =
    (set_code empty_response (COAP_RESPONSE_CODE 204),
     snd (parse_path example_service request) ++
     [EvPostReadings "device-1" "hum" (IOT_DATA_INT32 41);
      EvDataFree (IOT_DATA_INT32 41); EvFreeDevice (Some "device-1")]).
Proof.
  cbv zeta.
  assert (Hput : code (post_request "a1r/device-1/hum" (Some []) (Some (bytes "41")))
                 <> COAP_REQUEST_PUT) by discriminate.
  split; [exact Hput|]. split; [reflexivity|]. split; [reflexivity|].
  split; [reflexivity|]. split; [reflexivity|].
  exact (data_handler_numeric_decode example_service _ empty_response
           device_1 hum (bytes "41") Hput eq_refl eq_refl (or_intror eq_refl) eq_refl).
Defined.

(** X16: the content format the handler sees depends on the last two
    bytes of the Content-Format option only: the value is cut to 16 bits,
    so a longer option whose last two bytes are zero counts as
    text/plain. *)
Theorem read_content_format_low_bytes (request : coap_pdu_t)
    (front : list uint8_t) (hi lo : uint8_t) :
  content_format_opt request = Some (front ++ [hi; lo]) ->
  read_content_format request = 256 * char_code hi + char_code lo.
Proof.
  intros Hopt. unfold read_content_format. rewrite Hopt.
  unfold coap_decode_var_bytes, to_uint16.
  rewrite fold_left_app. cbn [fold_left].
  set (n := fold_left _ front 0).
  pose proof (N_ascii_bounded hi). pose proof (N_ascii_bounded lo).
  unfold char_code.
  rewrite !Z.shiftl_mul_pow2 by lia.
  change (2 ^ 16) with 65536. change (2 ^ 8) with 256. change (2 ^ 32) with 4294967296.
  set (h := Z.of_N (N_of_ascii hi)). set (l := Z.of_N (N_of_ascii lo)).
  assert (0 <= h < 256) by (unfold h; lia). assert (0 <= l < 256) by (unfold l; lia).
  clearbody n h l.
  Z.div_mod_to_equations. lia.
Qed.

Lemma read_content_format_low_bytes_witness :
  let request := post_request "a1r/device-2/temp"
                   (Some [ascii_of_nat 1; ascii_of_nat 0; ascii_of_nat 0])
                   (Some (bytes "23.5")) in
  content_format_opt request = Some ([ascii_of_nat 1] ++ [ascii_of_nat 0; ascii_of_nat 0]) /\
  read_content_format request = COAP_MEDIATYPE_TEXT_PLAIN.
Proof.
  cbv zeta. split; [reflexivity|].
  exact (read_content_format_low_bytes
           (post_request "a1r/device-2/temp"
              (Some [ascii_of_nat 1; ascii_of_nat 0; ascii_of_nat 0])
              (Some (bytes "23.5")))
           [ascii_of_nat 1] (ascii_of_nat 0) (ascii_of_nat 0) eq_refl).
Defined.

(** ** The init callback *)

Lemma driver_config_keys (configured : gmap string string) :
  exists mode key bind_addr,
    driver_config configured !! SECURITY_MODE_KEY = Some mode /\
    driver_config configured !! PSK_KEY_KEY = Some key /\
    driver_config configured !! COAP_BIND_ADDR_KEY = Some bind_addr.
Proof.
  rewrite !driver_config_lookup.
  destruct (configured !! SECURITY_MODE_KEY), (configured !! PSK_KEY_KEY),
    (configured !! COAP_BIND_ADDR_KEY); do 3 eexists; repeat split.
Qed.

(** [coap_init] on a configuration that holds the three keys. *)
Lemma coap_init_with_keys (b64 : string -> option (list uint8_t))
    (impl : coap_driver) (config : gmap string string) (mode key bind_addr : string) :
  config !! SECURITY_MODE_KEY = Some mode ->
  config !! PSK_KEY_KEY = Some key ->
  config !! COAP_BIND_ADDR_KEY = Some bind_addr ->
  coap_init b64 impl config =
    if String.eqb mode "PSK" then
      if (String.length key =? 0)%nat then
        Some ((false, {| security_mode := SECURITY_MODE_PSK; psk_key := None;
                         coap_bind_addr := coap_bind_addr impl |}),
              [EvLog IOT_LOG_ERROR "PSK key not in configuration"])
      else
        match b64 key with
        | Some key_array =>
            Some ((true, {| security_mode := SECURITY_MODE_PSK;
                            psk_key := Some key_array;
                            coap_bind_addr := Some bind_addr |}),
                  [EvLog IOT_LOG_INFO "PSK key len %u";
                   EvLog IOT_LOG_DEBUG "Init complete"])
        | None => None
        end
    else if String.eqb mode "NoSec" then
      Some ((true, {| security_mode := SECURITY_MODE_NOSEC; psk_key := None;
                      coap_bind_addr := Some bind_addr |}),
            [EvLog IOT_LOG_DEBUG "Init complete"])
    else
      Some ((false, {| security_mode := SECURITY_MODE_UNKNOWN; psk_key := None;
                       coap_bind_addr := coap_bind_addr impl |}),
            [EvLog IOT_LOG_ERROR "Unknown security mode"]).
Proof.
  intros Hm Hk Hb.
  unfold coap_init, init_bind_addr, iot_data_string_map_get_string, find_security_mode.
  rewrite Hm.
  destruct (String.eqb mode "PSK").
  - rewrite Hk. destruct (String.length key =? 0)%nat; [reflexivity|].
    destruct (b64 key); [|reflexivity].
    rewrite Hb. reflexivity.
  - destruct (String.eqb mode "NoSec"); [|reflexivity].
    rewrite Hb. reflexivity.
Qed.

(** X17: on the configuration built from the defaults [coap_init]
    returns (no assertion fails, no NULL text is measured) in every case
    but one: the mode text is "PSK" and the key text is not empty and is
    not accepted by the base64 decoder, where the length of a NULL array
    is taken. When it returns, it returns true exactly when the mode text
    is "NoSec", or is "PSK" with a key text that is not empty. *)
Theorem coap_init_succeeds_iff (b64 : string -> option (list uint8_t))
    (impl : coap_driver) (configured : gmap string string) :
  exists mode key,
    driver_config configured !! SECURITY_MODE_KEY = Some mode /\
    driver_config configured !! PSK_KEY_KEY = Some key /\
    (coap_init b64 impl (driver_config configured) = None <->
     mode = "PSK"%string /\ key <> ""%string /\ b64 key = None) /\
    (forall ok driver t,
       coap_init b64 impl (driver_config configured) = Some ((ok, driver), t) ->
       (ok = true <->
        mode = "NoSec"%string \/ (mode = "PSK"%string /\ key <> ""%string))).
Proof.
  destruct (driver_config_keys configured) as (mode & key & bind_addr & Hm & Hk & Hb).
  exists mode, key.
  rewrite (coap_init_with_keys b64 impl _ mode key bind_addr Hm Hk Hb).
  split; [exact Hm|]. split; [exact Hk|].
  destruct (String.eqb_spec mode "PSK") as [->|Hpsk].
  - destruct key as [|c key]; cbn [String.length Nat.eqb].
    + split.
      * split; [discriminate|]. intros (_ & Hne & _). congruence.
      * intros ok driver t H. injection H as <- _ _. split; [discriminate|].
        intros [H|[_ H]]; [discriminate H | congruence].
    + destruct (b64 (String c key)) as [key_array|].
      * split.
        -- split; [discriminate|]. intros (_ & _ & H). discriminate H.
        -- intros ok driver t H. injection H as <- _ _. split; [|reflexivity].
           intros _. right. split; [reflexivity | discriminate].
      * split.
        -- split; [|reflexivity]. intros _. repeat split. discriminate.
        -- intros ok driver t H. discriminate H.
  - destruct (String.eqb_spec mode "NoSec") as [->|Hnosec].
    + split.
      * split; [discriminate|]. intros (H & _). discriminate H.
      * intros ok driver t H. injection H as <- _ _. split; [|reflexivity].
        intros _. now left.
    + split.
      * split; [discriminate|]. intros (H & _). contradiction.
      * intros ok driver t H. injection H as <- _ _. split; [discriminate|].
        intros [H|[H _]]; contradiction.
Qed.

(** X18: when [coap_init] returns true on the configuration built from
    the defaults, the driver holds the configured bind address
    ("0.0.0.0" when none is configured), and either the mode NoSec
    without a key or the mode PSK with the key decoded from the
    configured base64 text. *)
Theorem coap_init_success_state (b64 : string -> option (list uint8_t))
    (impl : coap_driver) (configured : gmap string string)
    (driver : coap_driver) (t : list event) :
  coap_init b64 impl (driver_config configured) = Some ((true, driver), t) ->
  coap_bind_addr driver
    = Some (default "0.0.0.0"%string (configured !! COAP_BIND_ADDR_KEY)) /\
  ((security_mode driver = SECURITY_MODE_NOSEC /\ psk_key driver = None) \/
   (security_mode driver = SECURITY_MODE_PSK /\
    exists key, configured !! PSK_KEY_KEY = Some key /\ key <> ""%string /\
                psk_key driver = b64 key)).
Proof.
  destruct (driver_config_keys configured) as (mode & key & bind_addr & Hm & Hk & Hb).
  rewrite (coap_init_with_keys b64 impl _ mode key bind_addr Hm Hk Hb).
  assert (Hbind : bind_addr = default "0.0.0.0"%string (configured !! COAP_BIND_ADDR_KEY)).
  { rewrite driver_config_lookup in Hb.
    destruct (configured !! COAP_BIND_ADDR_KEY); [cbn; congruence|].
    change (driver_map !! COAP_BIND_ADDR_KEY) with (Some "0.0.0.0"%string) in Hb.
    cbn. congruence. }
  destruct (String.eqb mode "PSK").
  - destruct (String.length key =? 0)%nat eqn:Hlen; [discriminate|].
    destruct (b64 key) as [key_array|] eqn:Hdec; [|discriminate].
    intros H. injection H as <- _. cbn. rewrite <- Hdec. split; [congruence|]. right.
    split; [reflexivity|]. exists key.
    rewrite driver_config_lookup in Hk.
    destruct (configured !! PSK_KEY_KEY) as [k|] eqn:Hc.
    + injection Hk as ->. repeat split. intros ->. discriminate Hlen.
    + change (driver_map !! PSK_KEY_KEY) with (Some ""%string) in Hk.
      injection Hk as <-. discriminate Hlen.
  - destruct (String.eqb mode "NoSec"); [|discriminate].
    intros H. injection H as <- _. cbn. split; [congruence|]. left. split; reflexivity.
Qed.

Lemma coap_init_success_state_witness :
  let b64 := fun text : string => Some (bytes text) in
  let impl := {| security_mode := SECURITY_MODE_UNKNOWN; psk_key := None;
                 coap_bind_addr := None |} in
  let configured : gmap string string :=
    <[SECURITY_MODE_KEY := "PSK"%string]> {[ PSK_KEY_KEY := "c2VjcmV0"%string ]} in
  let driver := {| security_mode := SECURITY_MODE_PSK;
                   psk_key := Some (bytes "c2VjcmV0");
                   coap_bind_addr := Some "0.0.0.0"%string |} in
  coap_init b64 impl (driver_config configured)
    = Some ((true, driver),
            [EvLog IOT_LOG_INFO "PSK key len %u"; EvLog IOT_LOG_DEBUG "Init complete"]) /\
  coap_bind_addr driver
    = Some (default "0.0.0.0"%string (configured !! COAP_BIND_ADDR_KEY)).
Proof.
  cbv zeta.
  assert (H : coap_init (fun text : string => Some (bytes text))
                {| security_mode := SECURITY_MODE_UNKNOWN; psk_key := None;
                   coap_bind_addr := None |}
                (driver_config (<[SECURITY_MODE_KEY := "PSK"%string]>
                                  {[ PSK_KEY_KEY := "c2VjcmV0"%string ]}))
              = Some ((true, {| security_mode := SECURITY_MODE_PSK;
                                psk_key := Some (bytes "c2VjcmV0");
                                coap_bind_addr := Some "0.0.0.0"%string |}),
                      [EvLog IOT_LOG_INFO "PSK key len %u";
                       EvLog IOT_LOG_DEBUG "Init complete"])) by reflexivity.
  split; [exact H|].
  exact (proj1 (coap_init_success_state _ _ _ _ _ H)).
Defined.

(** X19: whenever [coap_init] returns false it has logged exactly one
    entry at error severity, as its last call. Either that entry reports
    the missing bind address, the configuration has none and the driver's
    bind address is NULL; or it reports the mode or the key, and the
    driver is left without a key and with its bind address not written. *)
Theorem coap_init_failure_state (b64 : string -> option (list uint8_t))
    (impl : coap_driver) (config : gmap string string)
    (driver : coap_driver) (t : list event) :
  coap_init b64 impl config = Some ((false, driver), t) ->
  exists fmt before,
    t = before ++ [EvLog IOT_LOG_ERROR fmt] /\
    logged IOT_LOG_ERROR before = false /\
    ((fmt = "CoAP bind address not in configuration"%string /\
      config !! COAP_BIND_ADDR_KEY = None /\
      coap_bind_addr driver = None) \/
     (fmt <> "CoAP bind address not in configuration"%string /\
      psk_key driver = None /\
      coap_bind_addr driver = coap_bind_addr impl)).
Proof.
  unfold coap_init, init_bind_addr, iot_data_string_map_get_string, find_security_mode.
  destruct (config !! SECURITY_MODE_KEY) as [mode|]; [|discriminate].
  destruct (String.eqb mode "PSK").
  - destruct (config !! PSK_KEY_KEY) as [key|]; [|discriminate].
    destruct (String.length key =? 0)%nat.
    + intros H. injection H as <- <-.
      exists "PSK key not in configuration"%string, [].
      split; [reflexivity|]. split; [reflexivity|]. right.
      split; [discriminate|]. split; reflexivity.
    + destruct (b64 key) as [key_array|]; [|discriminate].
      destruct (config !! COAP_BIND_ADDR_KEY) eqn:Hb; [discriminate|].
      intros H. injection H as <- <-.
      exists "CoAP bind address not in configuration"%string,
        [EvLog IOT_LOG_INFO "PSK key len %u"].
      split; [reflexivity|]. split; [reflexivity|]. left.
      split; [reflexivity|]. split; reflexivity.
  - destruct (String.eqb mode "NoSec").
    + destruct (config !! COAP_BIND_ADDR_KEY) eqn:Hb; [discriminate|].
      intros H. injection H as <- <-.
      exists "CoAP bind address not in configuration"%string, [].
      split; [reflexivity|]. split; [reflexivity|]. left.
      split; [reflexivity|]. split; reflexivity.
    + intros H. injection H as <- <-.
      exists "Unknown security mode"%string, [].
      split; [reflexivity|]. split; [reflexivity|]. right.
      split; [discriminate|]. split; reflexivity.
Qed.

Lemma coap_init_failure_state_witness :
  let b64 := fun text : string => Some (bytes text) in
  let impl := {| security_mode := SECURITY_MODE_UNKNOWN; psk_key := None;
                 coap_bind_addr := None |} in
  let config : gmap string string := {[ SECURITY_MODE_KEY := "NoSec"%string ]} in
  let driver := {| security_mode := SECURITY_MODE_NOSEC; psk_key := None;
                   coap_bind_addr := None |} in
  let t := [EvLog IOT_LOG_ERROR "CoAP bind address not in configuration"] in
  coap_init b64 impl config = Some ((false, driver), t) /\
  exists fmt before,
    t = before ++ [EvLog IOT_LOG_ERROR fmt] /\
    logged IOT_LOG_ERROR before = false /\
    ((fmt = "CoAP bind address not in configuration"%string /\
      config !! COAP_BIND_ADDR_KEY = None /\
      coap_bind_addr driver = None) \/
     (fmt <> "CoAP bind address not in configuration"%string /\
      psk_key driver = None /\
      coap_bind_addr driver = coap_bind_addr impl)).
Proof.
  cbv zeta.
  assert (H : coap_init (fun text : string => Some (bytes text))
                {| security_mode := SECURITY_MODE_UNKNOWN; psk_key := None;
                   coap_bind_addr := None |}
                {[ SECURITY_MODE_KEY := "NoSec"%string ]}
              = Some ((false, {| security_mode := SECURITY_MODE_NOSEC; psk_key := None;
                                 coap_bind_addr := None |}),
                      [EvLog IOT_LOG_ERROR "CoAP bind address not in configuration"]))
    by reflexivity.
  split; [exact H|].
  exact (coap_init_failure_state _ _ _ _ _ H).
Defined.

(** ** The server lifecycle *)

Lemma scan_addrinfo_find (res : list addrinfo) (len : Z) (lib_addr : coap_address_t) :
  scan_addrinfo res len lib_addr =
    match List.find usable_address res with
    | Some a => (ai_addrlen a,
                 {| addr_size := ai_addrlen a;
                    addr := memcpy (addr lib_addr) (ai_addr a) |})
    | None => (len, lib_addr)
    end.
Proof.
  induction res as [|a res IH]; cbn [scan_addrinfo List.find]; [reflexivity|].
  unfold usable_address at 1.
  destruct (ai_addrlen a <=? Z.of_nat SIZEOF_ADDR); cbn [andb]; [|exact IH].
  destruct ((ai_family a =? AF_INET6) || (ai_family a =? AF_INET)); [reflexivity|exact IH].
Qed.

(** X20: when [getaddrinfo] succeeds, [resolve_address] takes the first
    entry of the result that fits the address buffer and is an IPv4 or
    IPv6 address: it returns that entry's length, which is at most the
    buffer's size, and the buffer, still of its own size, starts with the
    entry's address; with no such entry it returns -1 and the address
    stays cleared. The result list is freed exactly once either way. *)
Theorem resolve_address_first_usable (env : server_env) (host service : string)
    (res : list addrinfo) :
  getaddrinfo env host service = (0, res) ->
  let '(rc, lib_addr, t) := resolve_address env host service in
  t = [SvGetAddrInfo host service; SvFreeAddrInfo] /\
  length (addr lib_addr) = SIZEOF_ADDR /\
  match List.find usable_address res with
  | Some a =>
      rc = ai_addrlen a /\ 0 <= rc <= Z.of_nat SIZEOF_ADDR /\
      addr_size lib_addr = rc /\
      take (length (ai_addr a)) (addr lib_addr) = ai_addr a
  | None => rc = -1 /\ lib_addr = zero_address
  end.
Proof.
  intros Hgai. unfold resolve_address. rewrite Hgai. cbn [Z.eqb negb].
  rewrite scan_addrinfo_find.
  destruct (List.find usable_address res) as [a|] eqn:Hfind.
  - apply List.find_some in Hfind as [_ Hu]. unfold usable_address in Hu.
    apply andb_true_iff in Hu as [Hlen _]. apply Z.leb_le in Hlen.
    unfold ai_addrlen in *. cbn [addr addr_size zero_address].
    unfold memcpy. rewrite length_app, length_drop, length_replicate.
    repeat split; try lia. apply take_app_length.
  - repeat split.
Qed.

Lemma resolve_address_first_usable_witness :
  let env := example_env 0 in
  let res := [ {| ai_family := AF_INET; ai_addr := replicate 16 NUL |} ] in
  getaddrinfo env "0.0.0.0" "5683" = (0, res) /\
  fst (fst (resolve_address env "0.0.0.0" "5683")) = 16.
Proof.
  cbv zeta. split; [reflexivity|].
  pose proof (resolve_address_first_usable (example_env 0) "0.0.0.0" "5683" _ eq_refl) as H.
  destruct (resolve_address (example_env 0) "0.0.0.0" "5683") as [[rc lib_addr] t].
  cbn [List.find usable_address] in H.
  change (usable_address {| ai_family := AF_INET; ai_addr := replicate 16 NUL |})
    with true in H.
  destruct H as (_ & _ & Hrc & _). exact Hrc.
Defined.

(** When [getaddrinfo] fails, [resolve_address] returns its error
    code, leaves the address cleared, logs the failure at info severity
    and does not free a result list. *)
Lemma resolve_address_lookup_error (env : server_env) (host service : string)
    (error : Z) (res : list addrinfo) :
  getaddrinfo env host service = (error, res) ->
  error <> 0 ->
  resolve_address env host service =
    (error, zero_address,
     [SvGetAddrInfo host service; SvLog IOT_LOG_INFO GETADDRINFO_FORMAT]).
Proof.
  intros Hgai Herr. unfold resolve_address. rewrite Hgai.
  destruct (Z.eqb_spec error 0); [contradiction | reflexivity].
Qed.

Lemma resolve_address_calls (env : server_env) (host service : string) :
  exists second,
    snd (resolve_address env host service) = [SvGetAddrInfo host service; second] /\
    (second = SvFreeAddrInfo \/ second = SvLog IOT_LOG_INFO GETADDRINFO_FORMAT).
Proof.
  unfold resolve_address.
  destruct (getaddrinfo env host service) as [gerr res].
  destruct (gerr =? 0); cbn [negb].
  - destruct (scan_addrinfo res (-1) zero_address). eexists; split; [reflexivity | now left].
  - eexists; split; [reflexivity | now right].
Qed.

Lemma mode_proto_port (mode : coap_security_mode_t) :
  match mode with
  | SECURITY_MODE_NOSEC => (COAP_PROTO_UDP, "5683"%string)
  | _ => (COAP_PROTO_DTLS, "5684"%string)
  end = (mode_proto mode, mode_port mode).
Proof. destruct mode; reflexivity. Qed.

(** [run_server] whenever it returns: the calls that set the log levels,
    one of the outcomes, and the teardown. *)
Lemma run_server_outcome (env : server_env) (level : option iot_loglevel_t)
    (driver : coap_driver) (status : Z) (t : list server_event) :
  run_server env level driver = Some (status, t) ->
  exists host log_level dtls_level ctx body,
    coap_bind_addr driver = Some host /\
    t = [SvStartup; SvSetLogLevel log_level; SvDtlsSetLogLevel dtls_level]
        ++ body ++ [SvFreeContext ctx; SvCleanup] /\
    server_outcome env driver
      (resolve_address env host (mode_port (security_mode driver))).1.1
      (resolve_address env host (mode_port (security_mode driver))).1.2
      (resolve_address env host (mode_port (security_mode driver))).2
      status ctx body.
Proof.
  unfold run_server. rewrite mode_proto_port.
  destruct (coap_bind_addr driver) as [host|] eqn:Hbind; [|discriminate].
  destruct (resolve_address env host (mode_port (security_mode driver)))
    as [[rc bind_addr] tr] eqn:Hres.
  set (log_level := coap_log_level level).
  set (dtls_level := match tls_library env with
                     | COAP_TLS_LIBRARY_TINYDTLS =>
                         if log_level =? LOG_INFO then log_level - 1 else log_level
                     | _ => log_level
                     end).
  set (t0 := [SvStartup; SvSetLogLevel log_level; SvDtlsSetLogLevel dtls_level]).
  unfold server_finish. cbv zeta.
  assert (Hshape : forall ctx body u,
            u = t0 ++ body ++ [SvFreeContext ctx; SvCleanup] ->
            server_outcome env driver rc bind_addr tr status ctx body ->
            u = t ->
            exists host0 l d c b,
              Some host = Some host0 /\
              t = [SvStartup; SvSetLogLevel l; SvDtlsSetLogLevel d]
                  ++ b ++ [SvFreeContext c; SvCleanup] /\
              server_outcome env driver
                (resolve_address env host0 (mode_port (security_mode driver))).1.1
                (resolve_address env host0 (mode_port (security_mode driver))).1.2
                (resolve_address env host0 (mode_port (security_mode driver))).2
                status c b).
  { intros ctx body u -> Hout <-. exists host, log_level, dtls_level, ctx, body.
    rewrite Hres. now cbn [fst snd]. }
  destruct (Z.ltb_spec rc 0) as [Hrc|Hrc].
  { intros H. injection H as <- Ht. revert Ht.
    eapply Hshape; [|now apply server_resolve_failed].
    now rewrite <- !app_assoc. }
  destruct (new_context_ok env) eqn:Hctx; cbn [negb].
  2: { intros H. injection H as <- Ht. revert Ht.
       eapply Hshape; [|now apply server_context_failed].
       now rewrite <- !app_assoc. }
  destruct (security_mode driver) eqn:Hmode.
  3: destruct (psk_key driver) as [key|] eqn:Hkey; [|discriminate];
     destruct (set_psk_ok env) eqn:Hpsk; cbn [negb].
  4: { intros H. injection H as <- Ht. revert Ht.
       eapply Hshape;
         [|now apply (server_psk_failed env driver rc bind_addr tr key)].
       now rewrite <- !app_assoc. }
  all: destruct (new_endpoint_ok env) eqn:Hend; cbn [negb];
    intros H; injection H as <- Ht; revert Ht;
    (eapply Hshape;
     [| first [ apply server_ran | apply server_endpoint_failed ];
        solve [ assumption | intros E; rewrite Hmode in E; discriminate
              | intros _; assumption ] ]);
    unfold psk_calls, registration_calls, t0; rewrite Hmode, ?Hkey;
    cbn [mode_proto]; rewrite <- ?app_assoc; cbn [app]; reflexivity.
Qed.

Lemma filter_replicate (p : server_event -> bool) (n : nat) (e : server_event) :
  List.filter p (replicate n e) = if p e then replicate n e else [].
Proof.
  induction n as [|n IH]; cbn [replicate List.filter].
  - now destruct (p e).
  - rewrite IH. now destruct (p e).
Qed.

Lemma sv_count_app (p : server_event -> bool) (l1 l2 : list server_event) :
  sv_count p (l1 ++ l2) = (sv_count p l1 + sv_count p l2)%nat.
Proof. unfold sv_count. now rewrite List.filter_app, length_app. Qed.

Lemma sv_count_replicate (p : server_event -> bool) (n : nat) (e : server_event) :
  sv_count p (replicate n e) = if p e then n else 0%nat.
Proof.
  unfold sv_count. rewrite filter_replicate.
  destruct (p e); [apply length_replicate | reflexivity].
Qed.

Lemma In_replicate (n : nat) (e x : server_event) :
  In x (replicate n e) -> x = e.
Proof.
  induction n as [|n IH]; cbn [replicate In]; [tauto|].
  intros [H|H]; [now symmetry | now apply IH].
Qed.

(** Takes a run of [run_server] apart: the outcome [Hout], the calls of
    [resolve_address] given by their second call. *)
Ltac server_run Hrun :=
  let host := fresh "host" in
  let l := fresh "log_level" in
  let d := fresh "dtls_level" in
  let ctx := fresh "ctx" in
  let body := fresh "body" in
  let Hbind := fresh "Hbind" in
  let Hout := fresh "Hout" in
  let second := fresh "second" in
  let Htr := fresh "Htr" in
  let Hsecond := fresh "Hsecond" in
  apply run_server_outcome in Hrun
    as (host & l & d & ctx & body & Hbind & -> & Hout);
  match type of Hout with
  | context [resolve_address ?env ?h ?s] =>
      destruct (resolve_address_calls env h s) as (second & Htr & Hsecond);
      destruct (resolve_address env h s) as [[rc bind_addr] tr] eqn:Hres;
      cbn [fst snd] in Htr, Hout; subst tr
  end.

Ltac count_calls :=
  unfold registration_calls;
  repeat rewrite ?sv_count_app, ?sv_count_replicate;
  cbn.

(** X21: whenever [run_server] returns, [coap_startup] was its first
    call and [coap_free_context] and [coap_cleanup] were its last two,
    none of them called anywhere else; and the context freed is a real
    one exactly when [coap_new_context] was called and succeeded,
    otherwise it is NULL. *)
Theorem run_server_teardown (env : server_env) (level : option iot_loglevel_t)
    (driver : coap_driver) (status : Z) (t : list server_event) :
  run_server env level driver = Some (status, t) ->
  exists ctx body,
    t = SvStartup :: body ++ [SvFreeContext ctx; SvCleanup] /\
    sv_count is_teardown body = 0%nat /\
    ~ In SvStartup body /\
    (ctx = true <-> In SvNewContext body /\ new_context_ok env = true).
Proof.
  intros Hrun. server_run Hrun.
  exists ctx, ([SvSetLogLevel log_level; SvDtlsSetLogLevel dtls_level] ++ body).
  split; [reflexivity|].
  assert (Hpsk : sv_count is_teardown (psk_calls driver) = 0%nat
                 /\ ~ In SvStartup (psk_calls driver)
                 /\ ~ In SvNewContext (psk_calls driver)).
  { unfold psk_calls. destruct (security_mode driver), (psk_key driver); cbn;
      intuition discriminate. }
  destruct Hpsk as (Hpsk1 & Hpsk2 & Hpsk3).
  destruct Hout, Hsecond as [-> | ->].
  all: split; [count_calls; rewrite ?Hpsk1; reflexivity|].
  all: split;
    [ unfold registration_calls; cbn; rewrite ?in_app_iff; cbn;
      intros Hin; decompose [or] Hin; try discriminate; try contradiction;
      match goal with
      | Hr : In _ (replicate _ _) |- _ => apply In_replicate in Hr; discriminate
      end
    | ].
  all: split;
    [ intros Hc;
      first [ discriminate Hc
            | split; [cbn; rewrite ?in_app_iff; cbn; tauto | assumption] ]
    | intros [Hin Hok];
      first [ reflexivity | congruence
            | exfalso; cbn in Hin; intuition discriminate ] ].
Qed.

Lemma run_server_teardown_witness :
  exists status t ctx body,
    run_server (example_env 2) (Some IOT_LOG_INFO) nosec_driver = Some (status, t) /\
    t = SvStartup :: body ++ [SvFreeContext ctx; SvCleanup].
Proof.
  eexists _, _.
  destruct (run_server_teardown (example_env 2) (Some IOT_LOG_INFO) nosec_driver _ _ eq_refl)
    as (ctx & body & Ht & _).
  exists ctx, body. split; [reflexivity | exact Ht].
Defined.

Lemma In_psk_calls (driver : coap_driver) (e : server_event) :
  In e (psk_calls driver) ->
  exists key, e = SvSetPsk key /\ security_mode driver = SECURITY_MODE_PSK /\
              psk_key driver = Some key.
Proof.
  unfold psk_calls.
  destruct (security_mode driver), (psk_key driver) as [key|]; cbn [In]; try tauto.
  intros [<-|[]]. now exists key.
Qed.

(** The calls an outcome is made of. *)
Lemma server_outcome_In (env : server_env) (driver : coap_driver) (rc : Z)
    (bind_addr : coap_address_t) (tr : list server_event) (status : Z) (ctx : bool)
    (body : list server_event) (e : server_event) :
  server_outcome env driver rc bind_addr tr status ctx body ->
  In e body ->
  In e tr \/ (exists msg, e = SvLog IOT_LOG_ERROR msg) \/ e = SvNewContext \/
  In e (psk_calls driver) \/
  e = SvNewEndpoint bind_addr (mode_proto (security_mode driver)) \/
  (status = EXIT_SUCCESS /\ (In e registration_calls \/ e = SvIoProcess)).
Proof.
  intros Hout. destruct Hout; rewrite ?in_app_iff; cbn [In].
  - intros [Hin|[<-|[]]]; eauto.
  - intros [Hin|[<-|[<-|[]]]]; eauto.
  - intros [Hin|[<-|[<-|[<-|[]]]]]; eauto.
    right. right. right. left. unfold psk_calls.
    match goal with
    | Hm : security_mode driver = _, Hk : psk_key driver = _ |- _ => rewrite Hm, Hk
    end.
    now left.
  - intros [Hin|[[<-|[]]|[Hin|[<-|[<-|[]]]]]]; eauto 7.
  - intros [Hin|[[<-|[]]|[Hin|[[<-|[]]|[Hin|Hin']]]]];
      try apply In_replicate in Hin'; eauto 10.
Qed.

Lemma resolve_address_result (env : server_env) (host service : string)
    (error : Z) (res : list addrinfo) :
  getaddrinfo env host service = (error, res) ->
  (resolve_address env host service).1.1 =
    if error =? 0 then
      match List.find usable_address res with
      | Some a => ai_addrlen a
      | None => -1
      end
    else error.
Proof.
  intros Hgai. unfold resolve_address. rewrite Hgai.
  destruct (error =? 0); cbn [negb]; [|reflexivity].
  rewrite scan_addrinfo_find. now destruct (List.find usable_address res).
Qed.

Lemma run_server_defined (env : server_env) (level : option iot_loglevel_t)
    (driver : coap_driver) (host : string) :
  coap_bind_addr driver = Some host ->
  (security_mode driver = SECURITY_MODE_PSK -> is_Some (psk_key driver)) ->
  is_Some (run_server env level driver).
Proof.
  intros Hbind Hkey. unfold run_server. rewrite mode_proto_port, Hbind.
  destruct (resolve_address env host (mode_port (security_mode driver)))
    as [[rc bind_addr] tr].
  destruct (rc <? 0); [eauto|].
  destruct (negb (new_context_ok env)); [eauto|].
  destruct (security_mode driver); [eauto | eauto |].
  destruct (Hkey eq_refl) as [key ->].
  destruct (negb (set_psk_ok env)); eauto.
Qed.

(** X22: [run_server] returns EXIT_SUCCESS or EXIT_FAILURE, and
    EXIT_SUCCESS exactly when every step of the setup worked:
    [resolve_address] did not return a negative value, the context and
    the endpoint were created, and in PSK mode the key was accepted. *)
Theorem run_server_exit_status (env : server_env) (level : option iot_loglevel_t)
    (driver : coap_driver) (host : string) (status : Z) (t : list server_event) :
  coap_bind_addr driver = Some host ->
  run_server env level driver = Some (status, t) ->
  (status = EXIT_SUCCESS \/ status = EXIT_FAILURE) /\
  (status = EXIT_SUCCESS <->
     0 <= (resolve_address env host (mode_port (security_mode driver))).1.1 /\
     new_context_ok env = true /\
     (security_mode driver = SECURITY_MODE_PSK -> set_psk_ok env = true) /\
     new_endpoint_ok env = true).
Proof.
  intros Hhost Hrun.
  apply run_server_outcome in Hrun
    as (host' & l & d & ctx & body & Hbind & -> & Hout).
  assert (host' = host) as -> by congruence.
  destruct (resolve_address env host (mode_port (security_mode driver)))
    as [[rc bind_addr] tr].
  cbn [fst snd] in *.
  destruct Hout; (split; [auto|]); (split; [intros Hs | intros (Hrc & Hctx & Hpsk & Hend)]);
    try discriminate Hs; try reflexivity; try (exfalso; lia); try congruence; auto.
  exfalso. match goal with Hm : security_mode driver = _ |- _ => specialize (Hpsk Hm) end.
  congruence.
Qed.

Lemma run_server_exit_status_witness :
  exists status t,
    run_server (example_env 1) (Some IOT_LOG_DEBUG) nosec_driver = Some (status, t) /\
    status = EXIT_SUCCESS.
Proof.
  eexists _, _. split; [reflexivity|].
  apply (run_server_exit_status (example_env 1) (Some IOT_LOG_DEBUG) nosec_driver
           "0.0.0.0" _ _ eq_refl eq_refl).
  repeat split; try reflexivity. vm_compute. discriminate.
Defined.

(** X23: a run that ends in EXIT_SUCCESS has logged nothing at error
    severity, has made the three calls that register the handler, and
    has called [coap_io_process] once per round of the loop. A run that
    ends otherwise has registered no handler and processed no I/O, and
    the call before the teardown was its one log entry at error
    severity. *)
Theorem run_server_calls_by_status (env : server_env) (level : option iot_loglevel_t)
    (driver : coap_driver) (status : Z) (t : list server_event) :
  run_server env level driver = Some (status, t) ->
  if status =? EXIT_SUCCESS then
    sv_count is_error_log t = 0%nat /\
    sv_count is_registration t = 3%nat /\
    sv_count is_io_process t = io_rounds env
  else
    sv_count is_registration t = 0%nat /\
    sv_count is_io_process t = 0%nat /\
    exists pre msg ctx,
      t = pre ++ [SvLog IOT_LOG_ERROR msg; SvFreeContext ctx; SvCleanup] /\
      sv_count is_error_log pre = 0%nat.
Proof.
  intros Hrun. server_run Hrun.
  assert (Hpsk : sv_count is_error_log (psk_calls driver) = 0%nat
                 /\ sv_count is_registration (psk_calls driver) = 0%nat
                 /\ sv_count is_io_process (psk_calls driver) = 0%nat).
  { unfold psk_calls. destruct (security_mode driver), (psk_key driver); cbn; auto. }
  destruct Hpsk as (Hpsk1 & Hpsk2 & Hpsk3).
  assert (Hsec : is_error_log second = false /\ is_registration second = false
                 /\ is_io_process second = false)
    by (destruct Hsecond as [-> | ->]; auto).
  destruct Hsec as (Hsec1 & Hsec2 & Hsec3).
  set (t0 := [SvStartup; SvSetLogLevel log_level; SvDtlsSetLogLevel dtls_level]).
  set (tr := [SvGetAddrInfo host (mode_port (security_mode driver)); second]) in Hout.
  assert (Hcounts :
    ((sv_count is_error_log t0 = 0 /\ sv_count is_error_log tr = 0) /\
     (sv_count is_registration t0 = 0 /\ sv_count is_registration tr = 0) /\
     (sv_count is_io_process t0 = 0 /\ sv_count is_io_process tr = 0))%nat)
    by (unfold sv_count; cbn; now rewrite Hsec1, Hsec2, Hsec3).
  destruct Hcounts as ((Herr0 & Herr) & (Hreg0 & Hreg) & (Hio0 & Hio)).
  clearbody t0 tr.
  pose proof (conj Herr0 (conj Herr Hpsk1)) as Herrs.
  pose proof (conj Hreg0 (conj Hreg Hpsk2)) as Hregs.
  pose proof (conj Hio0 (conj Hio Hpsk3)) as Hios.
  assert (Hcount : forall p l,
            (sv_count p t0 = 0 /\ sv_count p tr = 0 /\ sv_count p (psk_calls driver) = 0)%nat ->
            sv_count p (t0 ++ tr ++ l) = sv_count p l /\
            sv_count p (t0 ++ tr ++ [SvNewContext] ++ psk_calls driver ++ l)
              = (sv_count p [SvNewContext] + sv_count p l)%nat).
  { intros p l (H0 & H1 & H2). rewrite !sv_count_app, H0, H1, H2. split; reflexivity. }
  destruct Hout; cbn [Z.eqb EXIT_SUCCESS EXIT_FAILURE].
  - repeat split.
    + rewrite <- !app_assoc, (proj1 (Hcount _ _ Hregs)). reflexivity.
    + rewrite <- !app_assoc, (proj1 (Hcount _ _ Hios)). reflexivity.
    + exists (t0 ++ tr ++ []), "failed to resolve CoAP bind address"%string, false.
      split; [now rewrite <- !app_assoc | now rewrite (proj1 (Hcount _ _ Herrs))].
  - repeat split.
    + rewrite <- !app_assoc, (proj1 (Hcount _ _ Hregs)). reflexivity.
    + rewrite <- !app_assoc, (proj1 (Hcount _ _ Hios)). reflexivity.
    + exists (t0 ++ tr ++ [SvNewContext]), "cannot initialize context"%string, false.
      split; [now rewrite <- !app_assoc | now rewrite (proj1 (Hcount _ _ Herrs))].
  - repeat split.
    + rewrite <- !app_assoc, (proj1 (Hcount _ _ Hregs)). reflexivity.
    + rewrite <- !app_assoc, (proj1 (Hcount _ _ Hios)). reflexivity.
    + exists (t0 ++ tr ++ [SvNewContext; SvSetPsk key]),
        "cannot initialize PSK"%string, true.
      split; [now rewrite <- !app_assoc | now rewrite (proj1 (Hcount _ _ Herrs))].
  - repeat split.
    + rewrite <- !app_assoc, (proj2 (Hcount _ _ Hregs)). reflexivity.
    + rewrite <- !app_assoc, (proj2 (Hcount _ _ Hios)). reflexivity.
    + exists (t0 ++ tr ++ [SvNewContext] ++ psk_calls driver ++
              [SvNewEndpoint bind_addr (mode_proto (security_mode driver))]),
        "cannot initialize listen endpoint"%string, true.
      split; [now rewrite <- !app_assoc | now rewrite (proj2 (Hcount _ _ Herrs))].
  - repeat split.
    + rewrite <- !app_assoc, (proj2 (Hcount _ _ Herrs)).
      count_calls. reflexivity.
    + rewrite <- !app_assoc, (proj2 (Hcount _ _ Hregs)).
      count_calls. reflexivity.
    + rewrite <- !app_assoc, (proj2 (Hcount _ _ Hios)).
      count_calls. lia.
Qed.

Lemma run_server_calls_by_status_witness :
  exists status t,
    run_server (example_env 2) (Some IOT_LOG_WARN) nosec_driver = Some (status, t) /\
    sv_count is_io_process t = 2%nat.
Proof.
  eexists _, _. split; [reflexivity|].
  apply (run_server_calls_by_status (example_env 2) (Some IOT_LOG_WARN) nosec_driver
           _ _ eq_refl).
Defined.

Lemma run_server_looks_up (env : server_env) (level : option iot_loglevel_t)
    (driver : coap_driver) (host : string) (status : Z) (t : list server_event) :
  coap_bind_addr driver = Some host ->
  run_server env level driver = Some (status, t) ->
  In (SvGetAddrInfo host (mode_port (security_mode driver))) t.
Proof.
  intros Hhost Hrun.
  apply run_server_outcome in Hrun
    as (host' & l & d & ctx & body & Hbind & -> & Hout).
  assert (host' = host) as -> by congruence.
  destruct (resolve_address_calls env host (mode_port (security_mode driver)))
    as (second & Htr & Hsecond).
  destruct (resolve_address env host (mode_port (security_mode driver)))
    as [[rc bind_addr] tr].
  cbn [fst snd] in *. subst tr.
  assert (Hbody : In (SvGetAddrInfo host (mode_port (security_mode driver))) body)
    by (destruct Hout; rewrite ?in_app_iff; cbn [In]; auto).
  rewrite !in_app_iff. auto.
Qed.

(** X24: [run_server] looks up the driver's bind address and no other
    name, on the port that goes with the security mode (5683 for NoSec,
    5684 otherwise); an endpoint is only ever created on the address
    [resolve_address] wrote and with the transport of the mode (UDP for
    NoSec, DTLS otherwise); a key is only ever installed in PSK mode and
    is the driver's key; and POST is the only method a handler is
    registered for by name. *)
Theorem run_server_transport (env : server_env) (level : option iot_loglevel_t)
    (driver : coap_driver) (host : string) (status : Z) (t : list server_event) :
  coap_bind_addr driver = Some host ->
  run_server env level driver = Some (status, t) ->
  let mode := security_mode driver in
  In (SvGetAddrInfo host (mode_port mode)) t /\
  (forall h s, In (SvGetAddrInfo h s) t -> h = host /\ s = mode_port mode) /\
  (forall a p, In (SvNewEndpoint a p) t ->
     p = mode_proto mode /\ a = (resolve_address env host (mode_port mode)).1.2) /\
  (forall key, In (SvSetPsk key) t ->
     mode = SECURITY_MODE_PSK /\ psk_key driver = Some key) /\
  (forall method, In (SvRegisterHandler method) t -> method = COAP_REQUEST_POST).
Proof.
  intros Hhost Hrun. cbv zeta.
  pose proof (run_server_looks_up _ _ _ _ _ _ Hhost Hrun) as Hlookup.
  apply run_server_outcome in Hrun
    as (host' & l & d & ctx & body & Hbind & -> & Hout).
  assert (host' = host) as -> by congruence.
  destruct (resolve_address_calls env host (mode_port (security_mode driver)))
    as (second & Htr & Hsecond).
  destruct (resolve_address env host (mode_port (security_mode driver)))
    as [[rc bind_addr] tr].
  cbn [fst snd] in *. subst tr.
  assert (Hin : forall e,
            In e ([SvStartup; SvSetLogLevel l; SvDtlsSetLogLevel d] ++ body
                  ++ [SvFreeContext ctx; SvCleanup]) ->
            e = SvStartup \/ e = SvSetLogLevel l \/ e = SvDtlsSetLogLevel d \/
            e = SvFreeContext ctx \/ e = SvCleanup \/
            e = SvGetAddrInfo host (mode_port (security_mode driver)) \/
            e = second \/ (exists msg, e = SvLog IOT_LOG_ERROR msg) \/
            e = SvNewContext \/ In e (psk_calls driver) \/
            e = SvNewEndpoint bind_addr (mode_proto (security_mode driver)) \/
            In e registration_calls \/ e = SvIoProcess).
  { intros e. rewrite !in_app_iff. cbn [In].
    intros [He|[He|He]].
    - decompose [or] He; auto 15; contradiction.
    - destruct (server_outcome_In _ _ _ _ _ _ _ _ e Hout He)
        as [Ht|[Ht|[Ht|[Ht|[Ht|[_ [Ht|Ht]]]]]]]; auto 13.
      cbn [In] in Ht. decompose [or] Ht; auto 15; contradiction.
    - decompose [or] He; auto 15; contradiction. }
  split; [exact Hlookup|]. clear Hlookup.
  assert (Hcases : forall e,
            In e ([SvStartup; SvSetLogLevel l; SvDtlsSetLogLevel d] ++ body
                  ++ [SvFreeContext ctx; SvCleanup]) ->
            match e with
            | SvGetAddrInfo h s => h = host /\ s = mode_port (security_mode driver)
            | SvNewEndpoint a p =>
                p = mode_proto (security_mode driver) /\ a = bind_addr
            | SvSetPsk key =>
                security_mode driver = SECURITY_MODE_PSK /\ psk_key driver = Some key
            | SvRegisterHandler method => method = COAP_REQUEST_POST
            | _ => True
            end).
  { intros e He. apply Hin in He. unfold registration_calls in He. cbn [In] in He.
    destruct He as [He|[He|[He|[He|[He|[He|[He|[[msg He]|[He|[He|[He|[He|He]]]]]]]]]]]];
      try (subst e; now auto).
    - destruct Hsecond; subst; exact I.
    - now apply In_psk_calls in He as (key & -> & Hm & Hk).
    - decompose [or] He; subst; try exact I; try reflexivity. contradiction. }
  repeat split; intros.
  all: match goal with
       | Hi : In _ _ |- _ => apply Hcases in Hi; cbn in Hi; tauto
       end.
Qed.

Lemma run_server_transport_witness :
  exists status t,
    run_server (example_env 0) None nosec_driver = Some (status, t) /\
    In (SvGetAddrInfo "0.0.0.0" "5683") t.
Proof.
  eexists _, _. split; [reflexivity|].
  apply (run_server_transport (example_env 0) None nosec_driver "0.0.0.0" _ _
           eq_refl eq_refl).
Defined.

(** X25: [run_server] goes on to create the context exactly when
    [getaddrinfo] returned a positive error code, or returned 0 with an
    entry that fits the address buffer and is an IPv4 or IPv6 address:
    only a negative value of [resolve_address] counts as a failure. *)
Theorem run_server_resolution (env : server_env) (level : option iot_loglevel_t)
    (driver : coap_driver) (host : string) (error : Z) (res : list addrinfo)
    (status : Z) (t : list server_event) :
  coap_bind_addr driver = Some host ->
  getaddrinfo env host (mode_port (security_mode driver)) = (error, res) ->
  run_server env level driver = Some (status, t) ->
  (In SvNewContext t <->
   0 < error \/ (error = 0 /\ exists a, In a res /\ usable_address a = true)).
Proof.
  intros Hhost Hgai Hrun.
  pose proof (resolve_address_result env host _ error res Hgai) as Hrc.
  apply run_server_outcome in Hrun
    as (host' & l & d & ctx & body & Hbind & -> & Hout).
  assert (host' = host) as -> by congruence.
  destruct (resolve_address_calls env host (mode_port (security_mode driver)))
    as (second & Htr & Hsecond).
  destruct (resolve_address env host (mode_port (security_mode driver)))
    as [[rc bind_addr] tr].
  cbn [fst snd] in *. subst tr.
  assert (Hresolved : 0 <= rc <->
            0 < error \/ (error = 0 /\ exists a, In a res /\ usable_address a = true)).
  { rewrite Hrc. destruct (Z.eqb_spec error 0) as [->|Hne].
    - destruct (List.find usable_address res) as [a|] eqn:Hfind.
      + unfold ai_addrlen. split; [|lia]. intros _. right. split; [reflexivity|].
        exists a. now apply List.find_some in Hfind.
      + split; [lia|]. intros [Hlt|[_ (a & Ha & Hu)]]; [lia|].
        pose proof (List.find_none _ _ Hfind a Ha). congruence.
    - split; [lia|]. intros [Hlt|[He _]]; [lia | contradiction]. }
  rewrite <- Hresolved.
  destruct Hout; rewrite ?in_app_iff; cbn [In]; (split; [intros Hin | intros Hge]);
    try lia; auto 8.
  exfalso. destruct Hsecond as [-> | ->];
    decompose [or] Hin; try discriminate; try contradiction.
Qed.

Lemma run_server_resolution_witness :
  exists status t,
    run_server (example_env 0) None nosec_driver = Some (status, t) /\
    In SvNewContext t.
Proof.
  eexists _, _. split; [reflexivity|].
  apply (run_server_resolution (example_env 0) None nosec_driver "0.0.0.0" 0 _ _ _
           eq_refl eq_refl eq_refl).
  right. split; [reflexivity|]. eexists. split; [now left | reflexivity].
Defined.

(** X26: the driver that [coap_init] leaves when it returns true, on the
    configuration built from the defaults, is one [run_server] can run
    on: the bind address is set and in PSK mode so is the key, so
    [run_server] returns; the mode is NoSec or PSK; and the name looked
    up is the configured bind address ("0.0.0.0" when none is
    configured) on the port of the mode. *)
Theorem coap_init_then_run_server (b64 : string -> option (list uint8_t))
    (impl : coap_driver) (configured : gmap string string)
    (driver : coap_driver) (t : list event)
    (env : server_env) (level : option iot_loglevel_t) :
  coap_init b64 impl (driver_config configured) = Some ((true, driver), t) ->
  exists status trace,
    run_server env level driver = Some (status, trace) /\
    security_mode driver <> SECURITY_MODE_UNKNOWN /\
    In (SvGetAddrInfo (default "0.0.0.0"%string (configured !! COAP_BIND_ADDR_KEY))
          (mode_port (security_mode driver))) trace.
Proof.
  destruct (driver_config_keys configured) as (mode & key & bind_addr & Hm & Hk & Hb).
  rewrite (coap_init_with_keys b64 impl _ mode key bind_addr Hm Hk Hb).
  assert (Hbind : bind_addr = default "0.0.0.0"%string (configured !! COAP_BIND_ADDR_KEY)).
  { rewrite driver_config_lookup in Hb.
    destruct (configured !! COAP_BIND_ADDR_KEY); [cbn; congruence|].
    change (driver_map !! COAP_BIND_ADDR_KEY) with (Some "0.0.0.0"%string) in Hb.
    cbn. congruence. }
  intros Hinit.
  assert (Hdriver : coap_bind_addr driver = Some bind_addr /\
                    security_mode driver <> SECURITY_MODE_UNKNOWN /\
                    (security_mode driver = SECURITY_MODE_PSK -> is_Some (psk_key driver))).
  { destruct (String.eqb mode "PSK").
    - destruct (String.length key =? 0)%nat eqn:Hlen; [discriminate|].
      destruct (b64 key) as [key_array|]; [|discriminate].
      injection Hinit as <- _. cbn. repeat split; [discriminate|]. intros _.
      now exists key_array.
    - destruct (String.eqb mode "NoSec"); [|discriminate].
      injection Hinit as <- _. cbn. repeat split; discriminate. }
  destruct Hdriver as (Haddr & Hmode & Hkey).
  destruct (run_server_defined env level driver bind_addr Haddr Hkey)
    as [[status trace] Hrun].
  exists status, trace. repeat split; [exact Hrun | exact Hmode |].
  rewrite <- Hbind. exact (run_server_looks_up _ _ _ _ _ _ Haddr Hrun).
Qed.

Lemma coap_init_then_run_server_witness :
  let b64 := fun text : string => Some (bytes text) in
  let impl := {| security_mode := SECURITY_MODE_UNKNOWN; psk_key := None;
                 coap_bind_addr := None |} in
  let configured : gmap string string :=
    <[SECURITY_MODE_KEY := "PSK"%string]> {[ PSK_KEY_KEY := "c2VjcmV0"%string ]} in
  let driver := {| security_mode := SECURITY_MODE_PSK;
                   psk_key := Some (bytes "c2VjcmV0");
                   coap_bind_addr := Some "0.0.0.0"%string |} in
  coap_init b64 impl (driver_config configured)
    = Some ((true, driver),
            [EvLog IOT_LOG_INFO "PSK key len %u"; EvLog IOT_LOG_DEBUG "Init complete"]) /\
  exists status trace,
    run_server (example_env 1) (Some IOT_LOG_INFO) driver = Some (status, trace).
Proof.
  cbv zeta.
  assert (H : coap_init (fun text : string => Some (bytes text))
                {| security_mode := SECURITY_MODE_UNKNOWN; psk_key := None;
                   coap_bind_addr := None |}
                (driver_config (<[SECURITY_MODE_KEY := "PSK"%string]>
                                  {[ PSK_KEY_KEY := "c2VjcmV0"%string ]}))
              = Some ((true, {| security_mode := SECURITY_MODE_PSK;
                                psk_key := Some (bytes "c2VjcmV0");
                                coap_bind_addr := Some "0.0.0.0"%string |}),
                      [EvLog IOT_LOG_INFO "PSK key len %u";
                       EvLog IOT_LOG_DEBUG "Init complete"])) by reflexivity.
  split; [exact H|].
  destruct (coap_init_then_run_server _ _ _ _ _ (example_env 1) (Some IOT_LOG_INFO) H)
    as (status & trace & Hrun & _).
  now exists status, trace.
Defined.
